(** * Steady-state MED solver and solar dispatch simulator

    A shallow embedding of [med_solar_simulation.py] and the properties its
    specification states about it.

    Numbers.  Python [float] and NumPy [float64] values are modelled by exact
    rationals ([Q]); an equation between computed values is therefore stated
    with [==].  Rounding and overflow are outside the model.  The one place
    where binary64 and the rationals part ways on the control flow of this
    program is a division by zero, and it is modelled explicitly:
    - dividing by a NumPy scalar that is zero does not raise, it yields
      [inf] or [nan] (with a RuntimeWarning).  No rational stands for that
      value, so the run ends in [NonFinite site], where [site] names the
      quotient; the water recovery ratio, which is computed last and only
      stored, is kept as an [option Q] instead;
    - dividing two Python floats by zero raises [ZeroDivisionError];
    - divisions by a non-zero literal ([/ 2], [/ 5.14], [/ 3600], ...) and by
      [n + 1] cannot fail and are plain [Qdiv].
    Indexing a NumPy array out of range raises [IndexError]. *)

From Stdlib Require Import QArith Qround Qabs Lqa Lia ZArith String List Bool.
From stdpp Require Import base list.

Local Open Scope Q_scope.

(** ** Python and NumPy primitives *)

Module Py.

Inductive exn := IndexError | ZeroDivisionError.

Inductive outcome (A : Type) :=
| Ok (a : A)
| Raise (e : exn)
| NonFinite (site : string).
Arguments Ok {A} a.
Arguments Raise {A} e.
Arguments NonFinite {A} site.

Definition bind {A B} (c : outcome A) (k : A -> outcome B) : outcome B :=
  match c with
  | Ok a => k a
  | Raise e => Raise e
  | NonFinite s => NonFinite s
  end.

(** [for x in xs: st = body x st], stopping at the first failure. *)
Fixpoint for_each {A S} (body : A -> S -> outcome S) (xs : list A) (st : S)
  : outcome S :=
  match xs with
  | [] => Ok st
  | x :: xs' => bind (body x st) (for_each body xs')
  end.

(** [range(n)] and [range(n - 1, 0, -1)]. *)
Definition range (n : nat) : list nat := seq 0 n.
Definition range_down_to_1 (n : nat) : list nat := rev (seq 1 (n - 1)).

(** Comparisons of numbers, as the conditions of [if] evaluate them. *)
Definition ge (a b : Q) : bool := Qle_bool b a.
Definition gt (a b : Q) : bool := negb (Qle_bool a b).
Definition lt (a b : Q) : bool := negb (Qle_bool b a).
Definition eq (a b : Q) : bool := Qeq_bool a b.

(** The built-ins [max(a, b)] and [min(a, b)]: the first argument is kept
    unless the second is strictly better. *)
Definition max (a b : Q) : Q := if gt b a then b else a.
Definition min (a b : Q) : Q := if lt b a then b else a.

(** [a[i]] and [a[i] = v] on a one-dimensional array, [i >= 0]. *)
Definition get (a : list Q) (i : nat) : outcome Q :=
  match a !! i with
  | Some x => Ok x
  | None => Raise IndexError
  end.

Definition set (a : list Q) (i : nat) (v : Q) : outcome (list Q) :=
  if (i <? length a)%nat then Ok (<[i := v]> a) else Raise IndexError.

(** [a[-1]]. *)
Definition get_last (a : list Q) : outcome Q :=
  match a with
  | [] => Raise IndexError
  | _ => get a (length a - 1)
  end.

(** [np.zeros(n)] and [np.sum(a)]. *)
Definition zeros (n : nat) : list Q := replicate n 0.
Definition sum (a : list Q) : Q := fold_right Qplus 0 a.

(** The built-in [sum(xs)]: from 0, left to right. *)
Definition builtin_sum (xs : list Q) : Q := fold_left Qplus xs 0.

(** A Python [int] used in float arithmetic. *)
Definition of_int (k : nat) : Q := inject_Z (Z.of_nat k).

(** [a / b] where one operand is a NumPy [float64]. *)
Definition np_div (site : string) (a b : Q) : outcome Q :=
  if eq b 0 then NonFinite site else Ok (a / b).

(** The same quotient where the program only stores it: no later branch or
    array depends on it, so the run goes on and the stored value is [None]
    when it is [inf] or [nan]. *)
Definition np_div_stored (a b : Q) : option Q :=
  if eq b 0 then None else Some (a / b).

(** [a / b] on Python floats. *)
Definition py_div (a b : Q) : outcome Q :=
  if eq b 0 then Raise ZeroDivisionError else Ok (a / b).

(** A Python number as a dataclass field may hold it: the annotation
    [float] converts nothing, so an [int] literal stays an [int]. *)
Inductive num :=
| Int (z : Z)
| Float (q : Q).

Definition val (x : num) : Q :=
  match x with
  | Int z => inject_Z z
  | Float q => q
  end.

(** NumPy element types that occur: [np.full(n, x)] takes the type of [x]. *)
Inductive dtype := int64 | float64.

Definition dtype_of (x : num) : dtype :=
  match x with
  | Int _ => int64
  | Float _ => float64
  end.

(** Rounding toward zero, the cast NumPy applies when a float is stored
    into an integer array. *)
Definition trunc (q : Q) : Z := Z.quot (Qnum q) (Z.pos (Qden q)).

Definition cast (d : dtype) (v : Q) : Q :=
  match d with
  | int64 => inject_Z (trunc v)
  | float64 => v
  end.

End Py.

Notation "'let*' x ':=' c 'in' k" := (Py.bind c (fun x => k))
  (at level 10, x name, c at level 100, k at level 200).
Notation "'let*' ' p ':=' c 'in' k" :=
  (Py.bind c (fun x => match x with p => k end))
  (at level 10, p pattern, c at level 100, k at level 200).

Notation "a >=? b" := (Py.ge a b) (at level 70) : Q_scope.
Notation "a >? b" := (Py.gt a b) (at level 70) : Q_scope.
Notation "a <? b" := (Py.lt a b) (at level 70) : Q_scope.
Notation "a =? b" := (Py.eq a b) (at level 70) : Q_scope.

Import Py (Ok, Raise, NonFinite, IndexError, ZeroDivisionError).

(** ** 1. Parameters *)

Module MEDParameters.

Record t := mk {
  n_effects : nat;          (* np.zeros rejects a negative count *)
  T_steam : Q;
  T_feed : Q;
  T_cw : Q;
  M_feed : Q;
  S_feed : Py.num;
  BPE : Q;
  TTD_preheater : Q;
  feed_config : string;
  solar_collector_area : Q;
  storage_capacity_kWh : Q;
  solar_efficiency : Q
}.

(** The dataclass defaults; [S_feed] is written [42000], an [int]. *)
Definition default : t :=
  {| n_effects := 8;
     T_steam := 70.0;
     T_feed := 25.0;
     T_cw := 20.0;
     M_feed := 30.0;
     S_feed := Py.Int 42000;
     BPE := 0.8;
     TTD_preheater := 1.5;
     feed_config := "forward";
     solar_collector_area := 10000.0;
     storage_capacity_kWh := 50000.0;
     solar_efficiency := 0.7 |}.

End MEDParameters.

(** ** 2. Core MED steady-state model *)

(** The dictionary [solve] returns. *)
Module Results.

Record t := mk {
  GOR : Q;
  As : Q;
  M_total_distillate : Q;
  M_steam : Q;
  Q_nominal_W : Q;
  A_total : Q;
  WRR : option Q;             (* [None]: inf or nan *)
  S_brine_final : Q;
  T_top : Q
}.

End Results.

Module MEDModel.

(** The attributes of the object. *)
Record t := mk {
  params : MEDParameters.t;
  n : nat;
  T_effect : list Q;
  M_feed : list Q;
  M_brine : list Q;
  M_vapor : list Q;
  S_brine : list Q;
  A_effect : list Q;
  M_total_distillate : Q;
  M_steam : Q;
  GOR : Q;
  As : Q
}.

Definition __init__ (params : MEDParameters.t) : t :=
  let n := MEDParameters.n_effects params in
  {| params := params;
     n := n;
     T_effect := Py.zeros n;
     M_feed := Py.zeros n;
     M_brine := Py.zeros n;
     M_vapor := Py.zeros n;
     S_brine := Py.zeros n;
     A_effect := Py.zeros n;
     M_total_distillate := 0.0;
     M_steam := 0.0;
     GOR := 0.0;
     As := 0.0 |}.

(** Attribute assignment, [self.x = v]. *)
Definition set_T_effect (self : t) (v : list Q) : t :=
  mk (params self) (n self) v (M_feed self) (M_brine self) (M_vapor self)
     (S_brine self) (A_effect self) (M_total_distillate self) (M_steam self)
     (GOR self) (As self).
Definition set_M_feed (self : t) (v : list Q) : t :=
  mk (params self) (n self) (T_effect self) v (M_brine self) (M_vapor self)
     (S_brine self) (A_effect self) (M_total_distillate self) (M_steam self)
     (GOR self) (As self).
Definition set_M_brine (self : t) (v : list Q) : t :=
  mk (params self) (n self) (T_effect self) (M_feed self) v (M_vapor self)
     (S_brine self) (A_effect self) (M_total_distillate self) (M_steam self)
     (GOR self) (As self).
Definition set_M_vapor (self : t) (v : list Q) : t :=
  mk (params self) (n self) (T_effect self) (M_feed self) (M_brine self) v
     (S_brine self) (A_effect self) (M_total_distillate self) (M_steam self)
     (GOR self) (As self).
Definition set_S_brine (self : t) (v : list Q) : t :=
  mk (params self) (n self) (T_effect self) (M_feed self) (M_brine self)
     (M_vapor self) v (A_effect self) (M_total_distillate self) (M_steam self)
     (GOR self) (As self).
Definition set_A_effect (self : t) (v : list Q) : t :=
  mk (params self) (n self) (T_effect self) (M_feed self) (M_brine self)
     (M_vapor self) (S_brine self) v (M_total_distillate self) (M_steam self)
     (GOR self) (As self).
Definition set_M_total_distillate (self : t) (v : Q) : t :=
  mk (params self) (n self) (T_effect self) (M_feed self) (M_brine self)
     (M_vapor self) (S_brine self) (A_effect self) v (M_steam self)
     (GOR self) (As self).
Definition set_M_steam (self : t) (v : Q) : t :=
  mk (params self) (n self) (T_effect self) (M_feed self) (M_brine self)
     (M_vapor self) (S_brine self) (A_effect self) (M_total_distillate self) v
     (GOR self) (As self).
Definition set_GOR (self : t) (v : Q) : t :=
  mk (params self) (n self) (T_effect self) (M_feed self) (M_brine self)
     (M_vapor self) (S_brine self) (A_effect self) (M_total_distillate self)
     (M_steam self) v (As self).
Definition set_As (self : t) (v : Q) : t :=
  mk (params self) (n self) (T_effect self) (M_feed self) (M_brine self)
     (M_vapor self) (S_brine self) (A_effect self) (M_total_distillate self)
     (M_steam self) (GOR self) v.

Definition _latent_heat (T : Q) : Q :=
  2.501e6 - 2.369e3 * T + 1.676 * T ^ 2 - 1.517e-2 * T ^ 3.

Definition _specific_heat_capacity (T S : Q) : Q :=
  let S_ratio := S / 1000 in
  let Cp := 4187 - 7.55 * T + 0.046 * T ^ 2 + S_ratio * (- 54.6 + 0.38 * T) in
  Cp.

Definition _heat_transfer_coefficient_evaporator (T : Q) : Q :=
  2000 + 40 * T.

Definition _distribute_feed_water (self : t) : Py.outcome t :=
  let* a := Py.set (M_feed self) 0 (MEDParameters.M_feed (params self)) in
  Ok (set_M_feed self a).

(** The arrays local to [solve].  [S_feed] comes from [np.full] and has the
    element type of the parameter it is filled with. *)
Record locals := mk_locals {
  S_feed : list Q;
  S_feed_dtype : Py.dtype;
  T_feed_in : list Q;
  M_vapor_preheat : list Q
}.

Definition set_S_feed (l : locals) (v : list Q) : locals :=
  mk_locals v (S_feed_dtype l) (T_feed_in l) (M_vapor_preheat l).
Definition set_T_feed_in (l : locals) (v : list Q) : locals :=
  mk_locals (S_feed l) (S_feed_dtype l) v (M_vapor_preheat l).
Definition set_M_vapor_preheat (l : locals) (v : list Q) : locals :=
  mk_locals (S_feed l) (S_feed_dtype l) (T_feed_in l) v.

(** Body of the loop that fills the temperature ladder. *)
Definition ladder_body (delta_T_total : Q) (i : nat) (self : t) : Py.outcome t :=
  let p := params self in
  let* a := Py.set (T_effect self) i
              (MEDParameters.T_steam p - Py.of_int (i + 1) * delta_T_total
               - MEDParameters.BPE p) in
  Ok (set_T_effect self a).

(** Body of the backward preheating loop, [i] running from [n - 1] to [1]. *)
Definition preheat_body (self : t) (mass_flow_feed : Q) (i : nat) (l : locals)
  : Py.outcome locals :=
  let p := params self in
  let TTD := MEDParameters.TTD_preheater p in
  let* T_i := Py.get (T_effect self) i in
  let target_temp := T_i - TTD in
  let* T_in_0 := Py.get (T_feed_in l) 0 in
  if target_temp >? T_in_0 then
    let T_avg_preheat := (target_temp + T_in_0) / 2 in
    let Cp := _specific_heat_capacity T_avg_preheat
                (Py.val (MEDParameters.S_feed p)) in
    let Q_preheat := mass_flow_feed * Cp * (target_temp - T_in_0) in
    let* T_prev := Py.get (T_effect self) (i - 1) in
    let lambda_v := _latent_heat T_prev in
    let* m := Py.np_div "M_vapor_preheat" Q_preheat lambda_v in
    let* a := Py.set (M_vapor_preheat l) (i - 1) m in
    let l := set_M_vapor_preheat l a in
    let* b := Py.set (T_feed_in l) 0 target_temp in
    Ok (set_T_feed_in l b)
  else Ok l.

(** Body of the forward pass. *)
Definition forward_body (i : nat) (st : t * locals) : Py.outcome (t * locals) :=
  let '(self, l) := st in
  let p := params self in
  (* 1. Heat input *)
  let* '(Q_input, l) :=
    (if (i =? 0)%nat then
       let lambda_s := _latent_heat (MEDParameters.T_steam p) in
       let Q_input := M_steam self * lambda_s in
       Ok (Q_input, l)
     else
       let* T_prev := Py.get (T_effect self) (i - 1) in
       let lambda_v_prev := _latent_heat T_prev in
       let* M_vapor_heating := Py.get (M_vapor self) (i - 1) in
       let* extracted := Py.get (M_vapor_preheat l) (i - 1) in
       let M_vapor_available := M_vapor_heating - extracted in
       let M_vapor_available := Py.max 0.0 M_vapor_available in
       let Q_input := M_vapor_available * lambda_v_prev in
       let* T_prev := Py.get (T_effect self) (i - 1) in
       let* a := Py.set (T_feed_in l) i T_prev in
       Ok (Q_input, set_T_feed_in l a)) in
  (* 2. Evaporation *)
  let* T_i := Py.get (T_effect self) i in
  let lambda_v := _latent_heat T_i in
  let* T_in_i := Py.get (T_feed_in l) i in
  let* S_in_i := Py.get (S_feed l) i in
  let Cp := _specific_heat_capacity T_in_i S_in_i in
  let* F_i := Py.get (M_feed self) i in
  let sensible_heat := Py.max 0.0 (F_i * Cp * (T_i - T_in_i)) in
  let* quotient := Py.np_div "M_evap" (Q_input - sensible_heat) lambda_v in
  let M_evap := Py.max 0.0 quotient in
  let* a := Py.set (M_vapor self) i M_evap in
  let self := set_M_vapor self a in
  (* 3. Mass and salt balances *)
  let* V_i := Py.get (M_vapor self) i in
  let* a := Py.set (M_brine self) i (F_i - V_i) in
  let self := set_M_brine self a in
  let* B_i := Py.get (M_brine self) i in
  let* self :=
    (if B_i >? 1e-6 then
       let* s := Py.np_div "S_brine" (F_i * S_in_i) B_i in
       let* a := Py.set (S_brine self) i s in
       Ok (set_S_brine self a)
     else
       let* a := Py.set (S_brine self) i S_in_i in
       Ok (set_S_brine self a)) in
  (* 4. Area *)
  let h_e := _heat_transfer_coefficient_evaporator T_i in
  let* delta_T_drive :=
    (if (i =? 0)%nat then
       Ok (MEDParameters.T_steam p - T_i - MEDParameters.BPE p)
     else
       let* T_prev := Py.get (T_effect self) (i - 1) in
       Ok (T_prev - T_i - MEDParameters.BPE p)) in
  let* self :=
    (if delta_T_drive >? 0 then
       let* area := Py.np_div "A_effect" Q_input (h_e * delta_T_drive) in
       let* a := Py.set (A_effect self) i area in
       Ok (set_A_effect self a)
     else
       let* a := Py.set (A_effect self) i 0.0 in
       Ok (set_A_effect self a)) in
  (* 5. Forward feed propagation *)
  if (i <? n self - 1)%nat then
    let* B_i := Py.get (M_brine self) i in
    let* a := Py.set (M_feed self) (i + 1) B_i in
    let self := set_M_feed self a in
    let* Sb_i := Py.get (S_brine self) i in
    let* b := Py.set (S_feed l) (i + 1) (Py.cast (S_feed_dtype l) Sb_i) in
    Ok (self, set_S_feed l b)
  else Ok (self, l).

(** The final metrics and the dictionary of results. *)
Definition final_metrics (self : t) : Py.outcome (t * Results.t) :=
  let p := params self in
  let self := set_M_total_distillate self (Py.sum (M_vapor self)) in
  let* self :=
    (if M_steam self >? 0 then
       let* g := Py.np_div "GOR" (M_total_distillate self) (M_steam self) in
       Ok (set_GOR self g)
     else Ok (set_GOR self 0.0)) in
  let total_area := Py.sum (A_effect self) in
  let* self :=
    (if M_total_distillate self >? 0 then
       let* a := Py.np_div "As" total_area (M_total_distillate self) in
       Ok (set_As self a)
     else Ok (set_As self 0.0)) in
  let Q_nominal_W := M_steam self * _latent_heat (MEDParameters.T_steam p) in
  let WRR :=
    option_map (fun w => w * 100)
      (Py.np_div_stored (M_total_distillate self) (MEDParameters.M_feed p)) in
  let* S_brine_final := Py.get_last (S_brine self) in
  let* T_top := Py.get (T_effect self) 0 in
  Ok (self,
      {| Results.GOR := GOR self;
         Results.As := As self;
         Results.M_total_distillate := M_total_distillate self;
         Results.M_steam := M_steam self;
         Results.Q_nominal_W := Q_nominal_W;
         Results.A_total := total_area;
         Results.WRR := WRR;
         Results.S_brine_final := S_brine_final;
         Results.T_top := T_top |}).

(** The temperature ladder, the backward preheating pass and the steam
    target: everything [solve] does before the forward pass. *)
Definition prepare (self : t) : Py.outcome (t * locals) :=
  let p := params self in
  let* self := _distribute_feed_water self in
  let S_feed := replicate (n self) (Py.val (MEDParameters.S_feed p)) in
  let T_feed_in := Py.zeros (n self) in
  let total_T_drop := MEDParameters.T_steam p - MEDParameters.T_cw p in
  let delta_T_total :=
    (total_T_drop - Py.of_int (n self) * MEDParameters.BPE p)
    / Py.of_int (n self + 1) in
  let* self := Py.for_each (ladder_body delta_T_total) (Py.range (n self)) self in
  let* mass_flow_feed := Py.get (M_feed self) 0 in
  let* T_feed_in := Py.set T_feed_in 0 (MEDParameters.T_feed p) in
  let M_vapor_preheat := Py.zeros (n self) in
  let l := {| S_feed := S_feed;
              S_feed_dtype := Py.dtype_of (MEDParameters.S_feed p);
              T_feed_in := T_feed_in;
              M_vapor_preheat := M_vapor_preheat |} in
  let* l := Py.for_each (preheat_body self mass_flow_feed)
              (Py.range_down_to_1 (n self)) l in
  let M_distillate_target := MEDParameters.M_feed p * 0.12 in
  let self := set_M_steam self (M_distillate_target / 5.14) in
  Ok (self, l).

(** The passes of [solve] over the effects, with the local arrays they leave
    behind. *)
Definition run_passes (self : t) : Py.outcome (t * locals) :=
  let* '(self, l) := prepare self in
  Py.for_each forward_body (Py.range (n self)) (self, l).

Definition solve (self : t) : Py.outcome (t * Results.t) :=
  let* '(self, _) := run_passes self in
  final_metrics self.

End MEDModel.

(** ** 3. Solar-integrated operational model *)

(** One entry of [hourly_data]. *)
Module HourlyRecord.

Record t := mk {
  hour : Z;
  irradiance_W_m2 : Q;
  Q_med_MW : Q;
  storage_MWh : Q;
  distillate_kg_s : Q;
  mode : string
}.

End HourlyRecord.

(** The dictionary [simulate_daily_operation] returns. *)
Module DailyResults.

Record t := mk {
  daily_distillate : Q;
  Q_nominal_W : Q;
  daily_solar_collection_J : Q;
  hourly_data : list HourlyRecord.t
}.

End DailyResults.

Module SolarIntegratedMEDModel.

Definition J_TO_KWH : Q := 3.6e6.

Record t := mk {
  params : MEDParameters.t;
  Q_nominal_W : Q;
  GOR : Q;
  storage_capacity_J : Q;
  med_model : MEDModel.t
}.

Definition __init__ (params : MEDParameters.t) (nominal_results : Results.t) : t :=
  {| params := params;
     Q_nominal_W := Results.Q_nominal_W nominal_results;
     GOR := Results.GOR nominal_results;
     storage_capacity_J := MEDParameters.storage_capacity_kWh params * 3600;
     med_model := MEDModel.__init__ params |}.

Definition _solar_heat_input (self : t) (irradiance : Q) : Q :=
  irradiance * MEDParameters.solar_collector_area (params self)
  * MEDParameters.solar_efficiency (params self).

(** The variables the hourly loop carries. *)
Record day := mk_day {
  current_storage_J : Q;
  daily_distillate_kg : Q;
  daily_solar_collection_J : Q;
  hourly_results : list HourlyRecord.t
}.

(** The energy management logic of one hour: from the solar power and the
    storage level to [(Q_med_W, current_storage_J, mode)]. *)
Definition energy_management (self : t) (Q_solar_W current_storage_J : Q)
  : Q * Q * string :=
  let Q_med_W := 0.0 in
  if Q_solar_W >=? Q_nominal_W self then
    (* Case 1: charging *)
    let Q_med_W := Q_nominal_W self in
    let Q_excess_J := (Q_solar_W - Q_nominal_W self) * 3600 in
    let current_storage_J :=
      Py.min (storage_capacity_J self) (current_storage_J + Q_excess_J) in
    (Q_med_W, current_storage_J, "Solar + Charge"%string)
  else if (Q_solar_W >? 0) && (Q_solar_W <? Q_nominal_W self) then
    (* Case 2: supplementing *)
    let Q_deficit_W := Q_nominal_W self - Q_solar_W in
    let Q_draw_J := Q_deficit_W * 3600 in
    if current_storage_J >=? Q_draw_J then
      (Q_med_W, current_storage_J - Q_draw_J, "Solar + Draw"%string)
    else
      let Q_med_W := Q_solar_W + current_storage_J / 3600 in
      (Q_med_W, 0.0, "Solar + Partial Draw"%string)
  else if (Q_solar_W =? 0) && (current_storage_J >? 0) then
    (* Case 3: drawing from storage *)
    let Q_demand_J := Q_nominal_W self * 3600 in
    if current_storage_J >=? Q_demand_J then
      (Q_nominal_W self, current_storage_J - Q_demand_J, "Storage Only"%string)
    else
      (current_storage_J / 3600, 0.0, "Partial Storage"%string)
  else
    (* Case 4: off *)
    (0.0, current_storage_J, "Off"%string).

(** Body of the hourly loop. *)
Definition hour_body (self : t) (x : Z * Q) (st : day) : Py.outcome day :=
  let '(hour, irradiance) := x in
  let Q_solar_W := _solar_heat_input self irradiance in
  let daily_solar_collection_J := daily_solar_collection_J st + Q_solar_W * 3600 in
  let '(Q_med_W, current_storage_J, mode) :=
    energy_management self Q_solar_W (current_storage_J st) in
  let M_distillate_kg_s := 0.0 in
  let* M_distillate_kg_s :=
    (if (Q_med_W >? 0) && (GOR self >? 0) then
       let lambda_s :=
         MEDModel._latent_heat (MEDParameters.T_steam (params self)) in
       let* M_steam_actual := Py.py_div Q_med_W lambda_s in
       Ok (M_steam_actual * GOR self)
     else Ok M_distillate_kg_s) in
  let daily_distillate_kg := daily_distillate_kg st + M_distillate_kg_s * 3600 in
  Ok {| current_storage_J := current_storage_J;
        daily_distillate_kg := daily_distillate_kg;
        daily_solar_collection_J := daily_solar_collection_J;
        hourly_results :=
          hourly_results st ++
          [ {| HourlyRecord.hour := hour;
               HourlyRecord.irradiance_W_m2 := irradiance;
               HourlyRecord.Q_med_MW := Q_med_W / 1e6;
               HourlyRecord.storage_MWh := current_storage_J / J_TO_KWH / 1000;
               HourlyRecord.distillate_kg_s := M_distillate_kg_s;
               HourlyRecord.mode := mode |} ] |}.

(** The state the loop starts from: storage at half of the capacity. *)
Definition initial_day (self : t) : day :=
  {| current_storage_J := storage_capacity_J self / 2;
     daily_distillate_kg := 0.0;
     daily_solar_collection_J := 0.0;
     hourly_results := [] |}.

(** The loop alone, returning the variables it leaves behind. *)
Definition run_hours (self : t) (solar_resource : list (Z * Q)) : Py.outcome day :=
  Py.for_each (hour_body self) solar_resource (initial_day self).

Definition simulate_daily_operation (self : t) (solar_resource : list (Z * Q))
  : Py.outcome DailyResults.t :=
  let* st := run_hours self solar_resource in
  Ok {| DailyResults.daily_distillate := daily_distillate_kg st;
        DailyResults.Q_nominal_W := Q_nominal_W self;
        DailyResults.daily_solar_collection_J := daily_solar_collection_J st;
        DailyResults.hourly_data := hourly_results st |}.

End SolarIntegratedMEDModel.

(** ** 4. Main execution block *)

(** What [run_simulation] computes before it prints its report. *)
Module Report.

Record t := mk {
  steady_state_results : Results.t;
  daily_results : DailyResults.t;
  total_energy_consumed_J : Q;
  estimated_operating_hours : Q;
  daily_collection_GJ : Q
}.

End Report.

Module Main.

(** The [solar_resource] of [run_simulation]: a typical day, hour by hour. *)
Definition solar_resource : list (Z * Q) :=
  [ (0%Z, 0); (1%Z, 0); (2%Z, 0); (3%Z, 0); (4%Z, 0); (5%Z, 0);
    (6%Z, 100); (7%Z, 300); (8%Z, 500); (9%Z, 700); (10%Z, 800); (11%Z, 800);
    (12%Z, 800); (13%Z, 800); (14%Z, 750); (15%Z, 600); (16%Z, 400); (17%Z, 200);
    (18%Z, 0); (19%Z, 0); (20%Z, 0); (21%Z, 0); (22%Z, 0); (23%Z, 0) ].



End Main.

(** * Specification vocabulary

    The predicates and the concrete inputs in which the properties below are
    stated. *)

(** A run [o] satisfies [P]: it ends in a value that satisfies [P]; it may
    raise only the exceptions in [E], and it may end non-finite only if [nf]. *)
Definition wp {A} (E : Py.exn -> Prop) (nf : Prop) (P : A -> Prop)
  (o : Py.outcome A) : Prop :=
  match o with
  | Ok a => P a
  | Raise e => E e
  | NonFinite _ => nf
  end.

(** No exception is allowed. *)
Definition no_exn : Py.exn -> Prop := fun _ => False.

(** Two runs end alike: both in a value, and the values are related by [R];
    or both in the same exception; or both non-finite at the same quotient. *)
Definition related {A} (R : A -> A -> Prop) (o1 o2 : Py.outcome A) : Prop :=
  match o1, o2 with
  | Ok a, Ok b => R a b
  | Raise e1, Raise e2 => e1 = e2
  | NonFinite s1, NonFinite s2 => s1 = s2
  | _, _ => False
  end.

(** The default of the total lookup [a !!! i]; every use below is in range. *)
#[global] Instance Q_inhabited : Inhabited Q := populate 0.

(** ** Dispatch simulator *)

Section DispatchVocabulary.
Import SolarIntegratedMEDModel.

(** The latent heat the distillate of an hour is divided by. *)
Definition lambda_s (self : t) : Q :=
  MEDModel._latent_heat (MEDParameters.T_steam (params self)).

(** A storage level within the capacity the simulator works with. *)
Definition level_in_range (self : t) (s : Q) : Prop :=
  0 <= s <= storage_capacity_J self.

(** The level in joules behind the [storage_MWh] of a record. *)
Definition recorded_level (h : HourlyRecord.t) : Q :=
  HourlyRecord.storage_MWh h * 1000 * J_TO_KWH.

(** The default plant with a nominal load of 1.64 MW. *)
Definition default_plant : t :=
  __init__ MEDParameters.default
    (Results.mk 5.14 0 0 0 1.64e6 0 (Some 0) 0 0).

(** The first [len] entries of: [k] times [full], then [part] if [rem],
    then [off] for ever. *)
Definition depletion_profile {A} (k : nat) (rem : bool) (len : nat)
  (full part off : A) : list A :=
  take len (replicate k full ++ (if rem then [part] else []) ++ replicate len off).

(** Hours [0 .. hours - 1] without sun. *)
Definition night (hours : nat) : list (Z * Q) :=
  map (fun h => (Z.of_nat h, 0)) (seq 0 hours).

(** A 1 MW plant with a store of 5 GWh: an initial level of 9e9 J, two and a
    half hourly demands. *)
Definition large_store_plant : t :=
  __init__
    (MEDParameters.mk 8 70.0 25.0 20.0 30.0 (Py.Int 42000) 0.8 1.5 "forward"
       10000.0 5000000.0 0.7)
    (Results.mk 5.14 0 0 0 1e6 0 (Some 0) 0 0).

(** The hours recorded at the full nominal load. *)
Definition full_output_hours (self : t) (r : DailyResults.t) : nat :=
  length (List.filter (fun h => HourlyRecord.Q_med_MW h =? Q_nominal_W self / 1e6)
            (DailyResults.hourly_data r)).

(** The count as the specification states it: within one hour of
    [storage_capacity_kWh] divided by the nominal load in kW. *)
Definition full_hours_as_stated (self : t) (r : DailyResults.t) : Prop :=
  Qabs (Py.of_int (full_output_hours self r)
        - MEDParameters.storage_capacity_kWh (params self)
          / (Q_nominal_W self / 1000)) <= 1.

(** A 1 MW plant with a store of 10 MWh. *)
Definition small_store_plant : t :=
  __init__
    (MEDParameters.mk 8 70.0 25.0 20.0 30.0 (Py.Int 42000) 0.8 1.5 "forward"
       10000.0 10000.0 0.7)
    (Results.mk 5.14 0 0 0 1e6 0 (Some 0) 0 0).

(** The distillate rate of an hour in which [Q_med_W] is delivered. *)
Definition distillate_rate (self : t) (Q_med_W : Q) : Q :=
  if (Q_med_W >? 0) && (GOR self >? 0)
  then Q_med_W / lambda_s self * GOR self
  else 0.0.

(** What one hour does to the variables of the loop when its division
    succeeds. *)
Definition hour_update (self : t) (x : Z * Q) (st : day) : day :=
  let Q_solar_W := _solar_heat_input self x.2 in
  let em := energy_management self Q_solar_W (current_storage_J st) in
  let d := distillate_rate self em.1.1 in
  {| current_storage_J := em.1.2;
     daily_distillate_kg := daily_distillate_kg st + d * 3600;
     daily_solar_collection_J := daily_solar_collection_J st + Q_solar_W * 3600;
     hourly_results :=
       hourly_results st ++
       [ {| HourlyRecord.hour := x.1;
            HourlyRecord.irradiance_W_m2 := x.2;
            HourlyRecord.Q_med_MW := em.1.1 / 1e6;
            HourlyRecord.storage_MWh := em.1.2 / J_TO_KWH / 1000;
            HourlyRecord.distillate_kg_s := d;
            HourlyRecord.mode := em.2 |} ] |}.

(** The heat delivered over the recorded hours, in joules. *)
Definition total_energy_consumed_J (hourly_data : list HourlyRecord.t) : Q :=
  Py.builtin_sum (map (fun h => HourlyRecord.Q_med_MW h * 1e6 * 3600) hourly_data).

(** The default plant as a solve without feed leaves it: no load and no
    gain. *)
Definition idle_plant : t :=
  __init__ MEDParameters.default
    (Results.mk 0 0 0 0 0 0 None 0 0).

End DispatchVocabulary.

(** ** Solver *)

Section SolverVocabulary.
Import MEDModel.

(** The interval of the temperature ladder and the temperature it gives
    effect [i], as [solve] computes them. *)
Definition delta_T_total (p : MEDParameters.t) : Q :=
  (MEDParameters.T_steam p - MEDParameters.T_cw p
   - Py.of_int (MEDParameters.n_effects p) * MEDParameters.BPE p)
  / Py.of_int (MEDParameters.n_effects p + 1).

Definition ladder_temp (p : MEDParameters.t) (i : nat) : Q :=
  MEDParameters.T_steam p - Py.of_int (i + 1) * delta_T_total p - MEDParameters.BPE p.

(** The heat input, the sensible heat and the driving temperature difference
    of effect [i], read off the arrays. *)
Definition Q_input_at (self : t) (l : locals) (i : nat) : Q :=
  if (i =? 0)%nat then
    M_steam self * _latent_heat (MEDParameters.T_steam (params self))
  else
    Py.max 0.0 (M_vapor self !!! (i - 1)%nat - M_vapor_preheat l !!! (i - 1)%nat)
    * _latent_heat (T_effect self !!! (i - 1)%nat).

Definition sensible_heat_at (self : t) (l : locals) (i : nat) : Q :=
  Py.max 0.0
    (M_feed self !!! i
     * _specific_heat_capacity (T_feed_in l !!! i) (S_feed l !!! i)
     * (T_effect self !!! i - T_feed_in l !!! i)).

Definition delta_T_drive_at (self : t) (i : nat) : Q :=
  if (i =? 0)%nat then
    MEDParameters.T_steam (params self) - T_effect self !!! i
    - MEDParameters.BPE (params self)
  else
    T_effect self !!! (i - 1)%nat - T_effect self !!! i
    - MEDParameters.BPE (params self).

(** What the forward pass has written for effect [i]. *)
Definition row (st : t * locals) (i : nat) : Prop :=
  let '(self, l) := st in
  M_vapor self !!! i =
    Py.max 0.0 ((Q_input_at self l i - sensible_heat_at self l i)
                / _latent_heat (T_effect self !!! i)) /\
  M_brine self !!! i = M_feed self !!! i - M_vapor self !!! i /\
  S_brine self !!! i =
    (if M_brine self !!! i >? 1e-6
     then M_feed self !!! i * S_feed l !!! i / M_brine self !!! i
     else S_feed l !!! i) /\
  A_effect self !!! i =
    (if delta_T_drive_at self i >? 0
     then Q_input_at self l i
          / (_heat_transfer_coefficient_evaporator (T_effect self !!! i)
             * delta_T_drive_at self i)
     else 0.0) /\
  ((0 < i)%nat -> T_feed_in l !!! i = T_effect self !!! (i - 1)%nat) /\
  ((i + 1 < n self)%nat ->
   M_feed self !!! (i + 1)%nat = M_brine self !!! i /\
   S_feed l !!! (i + 1)%nat = Py.cast (S_feed_dtype l) (S_brine self !!! i)).

(** Everything the forward pass leaves untouched. *)
Definition base (p : MEDParameters.t) (E : list Q) (T0 : Q) (st : t * locals) : Prop :=
  let '(self, l) := st in
  let n := MEDParameters.n_effects p in
  params self = p /\ MEDModel.n self = n /\
  M_steam self = MEDParameters.M_feed p * 0.12 / 5.14 /\
  T_effect self = map (ladder_temp p) (seq 0 n) /\
  M_vapor_preheat l = E /\
  S_feed_dtype l = Py.dtype_of (MEDParameters.S_feed p) /\
  (length (M_feed self) = n /\ length (M_brine self) = n /\
   length (M_vapor self) = n /\ length (S_brine self) = n /\
   length (A_effect self) = n /\ length (S_feed l) = n /\
   length (T_feed_in l) = n /\ length E = n) /\
  M_feed self !!! 0%nat = MEDParameters.M_feed p /\
  S_feed l !!! 0%nat = Py.val (MEDParameters.S_feed p) /\
  T_feed_in l !!! 0%nat = T0.

(** The invariant of the forward pass before effect [k]. *)
Definition forward_inv (p : MEDParameters.t) (E : list Q) (T0 : Q) (k : nat)
  (st : t * locals) : Prop :=
  base p E T0 st /\ forall j, (j < k)%nat -> row st j.

(** What one iteration of the preheating loop does to the local arrays. *)
Definition preheat_update (self : t) (mass_flow_feed : Q) (l : locals) (i : nat)
  : locals :=
  let p := params self in
  let target_temp := T_effect self !!! i - MEDParameters.TTD_preheater p in
  let T_in_0 := T_feed_in l !!! 0%nat in
  if target_temp >? T_in_0 then
    set_T_feed_in
      (set_M_vapor_preheat l
         (<[(i - 1)%nat :=
              mass_flow_feed
              * _specific_heat_capacity ((target_temp + T_in_0) / 2)
                  (Py.val (MEDParameters.S_feed p))
              * (target_temp - T_in_0)
              / _latent_heat (T_effect self !!! (i - 1)%nat)]>
            (M_vapor_preheat l)))
      (<[0%nat := target_temp]> (T_feed_in l))
  else l.

(** What the preheating loop keeps of the local arrays. *)
Definition preheat_shape (n : nat) (l0 l : locals) : Prop :=
  S_feed l = S_feed l0 /\ S_feed_dtype l = S_feed_dtype l0 /\
  length (T_feed_in l) = n /\ length (M_vapor_preheat l) = n.

(** The object once the feed is distributed and the ladder is filled. *)
Definition ladder_self (p : MEDParameters.t) : t :=
  let n := MEDParameters.n_effects p in
  set_T_effect
    (set_M_feed (__init__ p) (<[0%nat := MEDParameters.M_feed p]> (Py.zeros n)))
    (map (ladder_temp p) (seq 0 n)).

(** The local arrays before and after the preheating loop. *)
Definition initial_locals (p : MEDParameters.t) : locals :=
  let n := MEDParameters.n_effects p in
  {| S_feed := replicate n (Py.val (MEDParameters.S_feed p));
     S_feed_dtype := Py.dtype_of (MEDParameters.S_feed p);
     T_feed_in := <[0%nat := MEDParameters.T_feed p]> (Py.zeros n);
     M_vapor_preheat := Py.zeros n |}.

Definition preheated (p : MEDParameters.t) : locals :=
  fold_left (preheat_update (ladder_self p) (MEDParameters.M_feed p))
    (Py.range_down_to_1 (MEDParameters.n_effects p)) (initial_locals p).

(** The state the forward pass starts from. *)
Definition prepared (p : MEDParameters.t) : t * locals :=
  (set_M_steam (ladder_self p) (MEDParameters.M_feed p * 0.12 / 5.14),
   preheated p).

(** The state the forward pass ends in satisfies [passes_post]. *)
Definition passes_post (p : MEDParameters.t) (st : t * locals) : Prop :=
  forward_inv p (M_vapor_preheat (preheated p)) (T_feed_in (preheated p) !!! 0%nat)
    (MEDParameters.n_effects p) st.

(** What [final_metrics] computes from the object the passes leave. *)
Definition metrics_post (self : t) (out : t * Results.t) : Prop :=
  let '(self', r) := out in
  let p := params self in
  let distillate := Py.sum (M_vapor self) in
  let total_area := Py.sum (A_effect self) in
  (T_effect self' = T_effect self /\ M_feed self' = M_feed self /\
   M_brine self' = M_brine self /\ M_vapor self' = M_vapor self /\
   S_brine self' = S_brine self /\ A_effect self' = A_effect self) /\
  Results.M_total_distillate r = distillate /\
  Results.M_steam r = M_steam self /\
  Results.GOR r = (if M_steam self >? 0 then distillate / M_steam self else 0.0) /\
  Results.A_total r = total_area /\
  Results.As r = (if distillate >? 0 then total_area / distillate else 0.0) /\
  Results.Q_nominal_W r = M_steam self * _latent_heat (MEDParameters.T_steam p) /\
  Results.WRR r =
    option_map (fun w => w * 100)
      (Py.np_div_stored distillate (MEDParameters.M_feed p)) /\
  Results.S_brine_final r = S_brine self !!! (length (S_brine self) - 1)%nat /\
  Results.T_top r = T_effect self !!! 0%nat.

(** Parameter ranges of a seawater plant: at least one effect, a feed that
    flows forward, temperatures between freezing and boiling, and a total
    temperature drop that covers the boiling point elevation of every
    effect. *)
Definition operating_range (p : MEDParameters.t) : Prop :=
  (1 <= MEDParameters.n_effects p)%nat /\
  0 <= MEDParameters.M_feed p /\
  0 <= MEDParameters.BPE p /\
  0 <= MEDParameters.T_cw p /\
  MEDParameters.T_steam p <= 100 /\
  Py.of_int (MEDParameters.n_effects p) * MEDParameters.BPE p
    <= MEDParameters.T_steam p - MEDParameters.T_cw p.

(** Ranges under which the brine bound is proved: fresh to hypersaline feed
    above freezing, and no more effects than the steam target can feed. *)
Definition brine_range (p : MEDParameters.t) : Prop :=
  0 <= MEDParameters.T_feed p /\
  0 <= Py.val (MEDParameters.S_feed p) <= 70000 /\
  (MEDParameters.n_effects p <= 42)%nat.

(** The default plant cut down to two effects. *)
Definition two_effects : MEDParameters.t :=
  MEDParameters.mk 2 70.0 25.0 20.0 30.0 (Py.Int 42000) 0.8 1.5 "forward"
    10000.0 50000.0 0.7.


(** The default plant without feed. *)
Definition zero_feed : MEDParameters.t :=
  MEDParameters.mk 8 70.0 25.0 20.0 0.0 (Py.Int 42000) 0.8 1.5 "forward"
    10000.0 50000.0 0.7.

(** Two effects between steam at 21 and cooling water at 20: less drop than
    the two boiling point elevations of 0.8. *)
Definition flat_ladder : MEDParameters.t :=
  MEDParameters.mk 2 21.0 25.0 20.0 30.0 (Py.Int 42000) 0.8 1.5 "forward"
    10000.0 50000.0 0.7.

(** Two effects between steam at 23 and cooling water at 20: the drop covers
    the two boiling point elevations, and the interval of the ladder is less
    than one of them. *)
Definition thin_ladder : MEDParameters.t :=
  MEDParameters.mk 2 23.0 25.0 20.0 30.0 (Py.Int 42000) 0.8 1.5 "forward"
    10000.0 50000.0 0.7.


(** The two-effect plant with its feed salinity written as a float. *)
Definition two_effects_float : MEDParameters.t :=
  MEDParameters.mk 2 70.0 25.0 20.0 30.0 (Py.Float 42000.0) 0.8 1.5 "forward"
    10000.0 50000.0 0.7.

(** An object as a solve for the parameters [p] may find it: it holds [p],
    and its arrays have one entry per effect, with any content. *)
Definition shaped (p : MEDParameters.t) (self : t) : Prop :=
  params self = p /\ n self = MEDParameters.n_effects p /\
  length (T_effect self) = MEDParameters.n_effects p /\
  length (M_feed self) = MEDParameters.n_effects p /\
  length (M_brine self) = MEDParameters.n_effects p /\
  length (M_vapor self) = MEDParameters.n_effects p /\
  length (S_brine self) = MEDParameters.n_effects p /\
  length (A_effect self) = MEDParameters.n_effects p.

End SolverVocabulary.

(** * Properties *)

(** ** Comparisons and arithmetic *)

Lemma ge_spec a b : reflect (b <= a) (a >=? b).
Proof.
  unfold Py.ge. destruct (Qle_bool b a) eqn:E; constructor.
  - now apply Qle_bool_iff.
  - intros H. apply Qle_bool_iff in H. congruence.
Qed.

Lemma gt_spec a b : reflect (b < a) (a >? b).
Proof.
  unfold Py.gt. destruct (Qle_bool a b) eqn:E; constructor.
  - apply Qle_bool_iff in E. now apply Qle_not_lt.
  - apply Qnot_le_lt. intros H. apply Qle_bool_iff in H. congruence.
Qed.

Lemma lt_spec a b : reflect (a < b) (a <? b).
Proof. unfold Py.lt. change (negb (Qle_bool b a)) with (b >? a). apply gt_spec. Qed.

Lemma eq_spec a b : reflect (a == b) (a =? b).
Proof.
  unfold Py.eq. destruct (Qeq_bool a b) eqn:E; constructor.
  - now apply Qeq_bool_iff.
  - intros H. apply Qeq_bool_iff in H. congruence.
Qed.

Ltac cmp :=
  repeat match goal with
  | |- context [?a >=? ?b] => destruct (ge_spec a b)
  | |- context [?a >? ?b] => destruct (gt_spec a b)
  | |- context [?a <? ?b] => destruct (lt_spec a b)
  | |- context [?a =? ?b] => destruct (eq_spec a b)
  end.

Ltac closedQ c :=
  lazymatch c with
  | Qmake _ _ => idtac
  | Qmult ?a ?b => closedQ a; closedQ b
  | Qplus ?a ?b => closedQ a; closedQ b
  | Qinv ?a => closedQ a
  end.

Ltac qnorm :=
  unfold Qdiv in *;
  repeat match goal with
  | |- context [Z.pow_pos ?b ?e] =>
      let v := eval vm_compute in (Z.pow_pos b e) in
      change (Z.pow_pos b e) with v
  | H : context [Z.pow_pos ?b ?e] |- _ =>
      let v := eval vm_compute in (Z.pow_pos b e) in
      change (Z.pow_pos b e) with v in H
  | |- context [Qinv ?c] =>
      closedQ c;
      let v := eval vm_compute in (Qinv c) in
      change (Qinv c) with v
  | H : context [Qinv ?c] |- _ =>
      closedQ c;
      let v := eval vm_compute in (Qinv c) in
      change (Qinv c) with v in H
  end.

Ltac qlra := qnorm; lra.

(** ** Dispatch simulator *)

Section DispatchProperties.
Import SolarIntegratedMEDModel.

Lemma gt_true a b : b < a -> (a >? b) = true.
Proof. intros. destruct (gt_spec a b); auto; lra. Qed.

Lemma gt_false a b : a <= b -> (a >? b) = false.
Proof. intros. destruct (gt_spec a b); auto; lra. Qed.

Lemma ge_true a b : b <= a -> (a >=? b) = true.
Proof. intros. destruct (ge_spec a b); auto; lra. Qed.

Lemma ge_false a b : a < b -> (a >=? b) = false.
Proof. intros. destruct (ge_spec a b); auto; lra. Qed.

Lemma energy_management_bounds self Qs S :
  0 <= S <= storage_capacity_J self ->
  0 <= (energy_management self Qs S).1.2 <= storage_capacity_J self.
Proof.
  intros H. unfold energy_management, Py.min. cmp; simpl; lra.
Qed.

Lemma wp_bind {A B} E nf (P : B -> Prop) (c : Py.outcome A) k :
  wp E nf (fun a => wp E nf P (k a)) c -> wp E nf P (Py.bind c k).
Proof. destruct c; simpl; auto. Qed.

Lemma wp_mono {A} E nf (P P' : A -> Prop) o :
  (forall a, P a -> P' a) -> wp E nf P o -> wp E nf P' o.
Proof. destruct o; simpl; auto. Qed.

Lemma wp_for_each {A S} E nf (I : nat -> S -> Prop) (body : A -> S -> Py.outcome S) xs :
  forall st,
  I 0%nat st ->
  (forall k x s, xs !! k = Some x -> I k s -> wp E nf (I (Datatypes.S k)) (body x s)) ->
  wp E nf (I (length xs)) (Py.for_each body xs st).
Proof.
  revert I. induction xs as [|x xs IH]; intros I st H0 Hstep; simpl; auto.
  apply wp_bind. eapply wp_mono; [|apply (Hstep 0%nat x st); auto].
  intros s Hs. apply (IH (fun k => I (Datatypes.S k))); auto.
Qed.

Lemma wp_py_div E nf (P : Q -> Prop) a b :
  (b == 0 -> E ZeroDivisionError) -> (~ b == 0 -> P (a / b)) ->
  wp E nf P (Py.py_div a b).
Proof. intros H1 H2. unfold Py.py_div. cmp; simpl; auto. Qed.

(** One hour of the loop, when the latent heat at [T_steam] is not zero. *)
Lemma hour_body_wp self hour irradiance st :
  ~ lambda_s self == 0 ->
  wp no_exn False
    (fun st' =>
       let em := energy_management self (_solar_heat_input self irradiance)
                   (current_storage_J st) in
       current_storage_J st' = em.1.2 /\
       exists d,
         hourly_results st' =
           hourly_results st ++
           [ HourlyRecord.mk hour irradiance (em.1.1 / 1e6)
               (em.1.2 / J_TO_KWH / 1000) d em.2 ] /\
         (em.1.1 <= 0 -> d == 0))
    (hour_body self (hour, irradiance) st).
Proof.
  intros Hl. unfold hour_body.
  destruct (energy_management _ _ _) as [[Qm S'] m] eqn:Eem. simpl.
  apply wp_bind.
  destruct (gt_spec Qm 0); simpl.
  - destruct (gt_spec (GOR self) 0); simpl.
    + apply wp_bind, wp_py_div; [intros; now apply Hl|]. intros _. simpl.
      split; auto. eexists; split; [reflexivity|]. intros; lra.
    + split; auto. eexists; split; [reflexivity|]. intros; lra.
  - split; auto. eexists; split; [reflexivity|]. intros; lra.
Qed.

Lemma wp_ok_elim {A} (P : A -> Prop) o :
  wp no_exn False P o -> exists a, o = Ok a /\ P a.
Proof. unfold wp, no_exn. destruct o; intros H; [eauto | contradiction ..]. Qed.

Lemma run_hours_wp self res :
  0 <= storage_capacity_J self ->
  ~ lambda_s self == 0 ->
  wp no_exn False
    (fun st =>
       level_in_range self (current_storage_J st) /\
       length (hourly_results st) = length res /\
       Forall (fun h => level_in_range self (recorded_level h)) (hourly_results st))
    (run_hours self res).
Proof.
  intros Hc Hl. unfold run_hours.
  apply (wp_for_each no_exn False
    (fun k st =>
       level_in_range self (current_storage_J st) /\
       length (hourly_results st) = k /\
       Forall (fun h => level_in_range self (recorded_level h)) (hourly_results st))).
  - unfold initial_day, level_in_range; cbn [current_storage_J hourly_results].
    split; [qlra|split; [reflexivity|constructor]].
  - intros k [hour irr] s _ (HS & Hlen & Hall).
    eapply wp_mono; [|apply hour_body_wp; exact Hl].
    intros s' (HS' & d & Hrec & _).
    pose proof (energy_management_bounds self (_solar_heat_input self irr) _ HS) as Hb.
    rewrite <- HS' in Hb. repeat split; try apply Hb.
    + rewrite Hrec, length_app, Hlen. simpl. lia.
    + rewrite Hrec. apply Forall_app. split; auto.
      constructor; [|constructor]. unfold level_in_range, recorded_level, J_TO_KWH.
      cbn [HourlyRecord.storage_MWh]. rewrite <- HS'. unfold level_in_range in Hb.
      qlra.
Qed.

Lemma simulate_of_run self res st :
  run_hours self res = Ok st ->
  simulate_daily_operation self res =
    Ok (DailyResults.mk (daily_distillate_kg st) (Q_nominal_W self)
          (daily_solar_collection_J st) (hourly_results st)).
Proof. intros H. unfold simulate_daily_operation. rewrite H. reflexivity. Qed.

(** C2.  Starting from half of the capacity, for every finite sequence of
    (hour, irradiance) pairs the simulation returns, and the storage level
    after every hourly step, as left in the loop variable and as recorded
    for each hour, lies within [0, storage_capacity_J].  The capacity is
    taken non-negative and the latent heat at [T_steam] non-zero (the
    distillate of an hour is divided by it). *)
Theorem storage_level_within_capacity (self : t) (solar_resource : list (Z * Q)) :
  0 <= storage_capacity_J self ->
  ~ lambda_s self == 0 ->
  exists st r,
    run_hours self solar_resource = Ok st /\
    simulate_daily_operation self solar_resource = Ok r /\
    DailyResults.hourly_data r = hourly_results st /\
    length (DailyResults.hourly_data r) = length solar_resource /\
    level_in_range self (current_storage_J st) /\
    Forall (fun h => level_in_range self (recorded_level h))
      (DailyResults.hourly_data r).
Proof.
  intros Hc Hl.
  destruct (wp_ok_elim _ _ (run_hours_wp self solar_resource Hc Hl))
    as (st & Hrun & HS & Hlen & Hall).
  exists st. eexists. split; [exact Hrun|].
  split; [apply simulate_of_run; exact Hrun|]. cbn. auto.
Qed.

Lemma default_plant_latent_heat : ~ lambda_s default_plant == 0.
Proof. vm_compute. discriminate. Qed.

(** Three hours of the default plant: night, a cloudy hour, full sun. *)
Lemma storage_level_within_capacity_witness :
  exists st r,
    run_hours default_plant [(0%Z, 0); (1%Z, 232); (2%Z, 800)] = Ok st /\
    simulate_daily_operation default_plant [(0%Z, 0); (1%Z, 232); (2%Z, 800)] = Ok r /\
    DailyResults.hourly_data r = hourly_results st /\
    length (DailyResults.hourly_data r) = 3%nat /\
    level_in_range default_plant (current_storage_J st) /\
    Forall (fun h => level_in_range default_plant (recorded_level h))
      (DailyResults.hourly_data r).
Proof.
  apply (storage_level_within_capacity default_plant [(0%Z, 0); (1%Z, 232); (2%Z, 800)]).
  - vm_compute. discriminate.
  - exact default_plant_latent_heat.
Defined.

(** C1, as the code has it.  In an hour with [0 < Q_solar < Q_nominal] whose
    storage level covers the deficit [(Q_nominal - Q_solar) * 3600] J, the
    step succeeds, labels the record [Solar + Draw] and takes exactly the
    deficit out of storage; but this branch never assigns [Q_med_W], so the
    heat recorded as delivered to the plant is 0 and not [Q_nominal], and the
    distillate of the hour is 0. *)
Theorem solar_draw_delivers_no_heat (self : t) (hour : Z) (irradiance : Q) (st : day) :
  0 < _solar_heat_input self irradiance ->
  _solar_heat_input self irradiance < Q_nominal_W self ->
  (Q_nominal_W self - _solar_heat_input self irradiance) * 3600
    <= current_storage_J st ->
  exists st' h,
    hour_body self (hour, irradiance) st = Ok st' /\
    current_storage_J st' =
      current_storage_J st
      - (Q_nominal_W self - _solar_heat_input self irradiance) * 3600 /\
    hourly_results st' = hourly_results st ++ [h] /\
    HourlyRecord.mode h = "Solar + Draw"%string /\
    HourlyRecord.Q_med_MW h == 0 /\
    HourlyRecord.distillate_kg_s h == 0 /\
    ~ HourlyRecord.Q_med_MW h == Q_nominal_W self / 1e6.
Proof.
  intros H0 H1 H2.
  set (Qs := _solar_heat_input self irradiance) in *.
  set (Qd := (Q_nominal_W self - Qs) * 3600) in *.
  assert (Hem : energy_management self Qs (current_storage_J st)
                = (0.0, current_storage_J st - Qd, "Solar + Draw"%string)).
  { unfold energy_management. fold Qd.
    rewrite ge_false, gt_true, ge_true by lra.
    destruct (lt_spec Qs (Q_nominal_W self)); [|lra]. reflexivity. }
  unfold hour_body. fold Qs. rewrite Hem.
  rewrite (gt_false 0.0 0) by lra.
  cbn [andb Py.bind].
  eexists. eexists. split; [reflexivity|].
  repeat split;
    cbn [current_storage_J hourly_results HourlyRecord.mode
         HourlyRecord.Q_med_MW HourlyRecord.distillate_kg_s];
    try reflexivity; qlra.
Qed.

(** Hour 6 of the default plant under 232 W/m2: 1.624 MW of sun against a
    load of 1.64 MW, a deficit of 5.76e7 J against 9e7 J in store. *)
Lemma solar_draw_delivers_no_heat_witness :
  exists st' h,
    hour_body default_plant (6%Z, 232) (initial_day default_plant) = Ok st' /\
    current_storage_J st' =
      current_storage_J (initial_day default_plant)
      - (Q_nominal_W default_plant - _solar_heat_input default_plant 232) * 3600 /\
    hourly_results st' = hourly_results (initial_day default_plant) ++ [h] /\
    HourlyRecord.mode h = "Solar + Draw"%string /\
    HourlyRecord.Q_med_MW h == 0 /\
    HourlyRecord.distillate_kg_s h == 0 /\
    ~ HourlyRecord.Q_med_MW h == Q_nominal_W default_plant / 1e6.
Proof.
  apply (solar_draw_delivers_no_heat default_plant 6%Z 232 (initial_day default_plant)).
  - vm_compute. reflexivity.
  - vm_compute. reflexivity.
  - vm_compute. discriminate.
Defined.

(** The same hour through [simulate_daily_operation]: the plant is recorded
    as idle while the storage is debited. *)
Example solar_draw_day :
  exists r h,
    simulate_daily_operation default_plant [(6%Z, 232)] = Ok r /\
    DailyResults.hourly_data r = [h] /\
    HourlyRecord.mode h = "Solar + Draw"%string /\
    HourlyRecord.Q_med_MW h == 0 /\
    HourlyRecord.storage_MWh h * 1000 * J_TO_KWH == 90000000 - 57600000 /\
    DailyResults.daily_distillate r == 0 /\
    DailyResults.Q_nominal_W r == 1640000.
Proof.
  eexists. eexists. split; [vm_compute; reflexivity|].
  repeat split; vm_compute; reflexivity.
Qed.

Lemma take_app_replicate {A} (l : list A) (o : A) len m :
  (len <= m)%nat -> take len (l ++ replicate m o) = take len (l ++ replicate len o).
Proof.
  intros H. rewrite !take_app, !take_replicate. f_equal. f_equal. lia.
Qed.

Lemma depletion_profile_full {A} k rem len (f p o : A) :
  depletion_profile (S k) rem (S len) f p o = f :: depletion_profile k rem len f p o.
Proof.
  unfold depletion_profile.
  change (replicate (S k) f ++ (if rem then [p] else []) ++ replicate (S len) o)
    with (f :: replicate k f ++ (if rem then [p] else []) ++ replicate (S len) o).
  cbn [take]. f_equal.
  rewrite !app_assoc. apply (take_app_replicate _ o len (S len)). lia.
Qed.

Lemma depletion_profile_off {A} len (f p o : A) :
  depletion_profile 0 false len f p o = replicate len o.
Proof.
  unfold depletion_profile.
  change (replicate 0 f ++ [] ++ replicate len o) with (replicate len o).
  rewrite take_replicate. f_equal. lia.
Qed.

Lemma depletion_profile_part {A} len (f p o : A) :
  depletion_profile 0 true (S len) f p o = p :: replicate len o.
Proof.
  unfold depletion_profile.
  change (replicate 0 f ++ [p] ++ replicate (S len) o)
    with (p :: replicate (S len) o).
  cbn [take]. f_equal. rewrite take_replicate. f_equal. lia.
Qed.

Lemma of_int_S k : Py.of_int (S k) == Py.of_int k + 1.
Proof.
  unfold Py.of_int. rewrite Nat2Z.inj_succ. unfold Z.succ.
  rewrite inject_Z_plus. reflexivity.
Qed.

Lemma of_int_0 : Py.of_int 0 == 0.
Proof. reflexivity. Qed.

Lemma gt_shift a a' b b' : a - b == a' - b' -> (a >? b) = (a' >? b').
Proof. intros H. destruct (gt_spec a b), (gt_spec a' b'); auto; lra. Qed.

Lemma energy_management_night self Qs S :
  Qs == 0 -> 0 < Q_nominal_W self ->
  energy_management self Qs S =
    if S >? 0 then
      if S >=? Q_nominal_W self * 3600
      then (Q_nominal_W self, S - Q_nominal_W self * 3600, "Storage Only"%string)
      else (S / 3600, 0.0, "Partial Storage"%string)
    else (0.0, S, "Off"%string).
Proof.
  intros H0 Hn. unfold energy_management.
  destruct (ge_spec Qs (Q_nominal_W self)); [lra|].
  destruct (gt_spec Qs 0); [lra|].
  destruct (eq_spec Qs 0); [|lra].
  cbn [andb]. reflexivity.
Qed.

Lemma solar_heat_zero self irr : irr == 0 -> _solar_heat_input self irr == 0.
Proof. intros H. unfold _solar_heat_input. rewrite H. ring. Qed.

Lemma depletion_run self :
  0 < Q_nominal_W self -> ~ lambda_s self == 0 ->
  forall res st k y,
  Forall (fun x : Z * Q => x.2 == 0) res ->
  Py.of_int k * (Q_nominal_W self * 3600) <= current_storage_J st ->
  current_storage_J st < (Py.of_int k + 1) * (Q_nominal_W self * 3600) ->
  y == (current_storage_J st - Py.of_int k * (Q_nominal_W self * 3600)) / 3600 / 1e6 ->
  exists st' new,
    Py.for_each (hour_body self) res st = Ok st' /\
    hourly_results st' = hourly_results st ++ new /\
    map HourlyRecord.mode new =
      depletion_profile k
        (current_storage_J st >? Py.of_int k * (Q_nominal_W self * 3600))
        (length res) "Storage Only"%string "Partial Storage"%string "Off"%string /\
    Forall2 (fun h q => HourlyRecord.Q_med_MW h == q) new
      (depletion_profile k
         (current_storage_J st >? Py.of_int k * (Q_nominal_W self * 3600))
         (length res) (Q_nominal_W self / 1e6) y 0).
Proof.
  intros Hn Hl. induction res as [|[hour irr] res IH]; intros st k y Hz Hlo Hhi Hy.
  - exists st, []. cbn [Py.for_each length]. rewrite app_nil_r.
    unfold depletion_profile. cbn [take map]. repeat split; constructor.
  - apply Forall_cons in Hz as [Hirr Hz]. cbn [snd] in Hirr.
    destruct (wp_ok_elim _ _ (hour_body_wp self hour irr st Hl))
      as (st1 & Hbody & HS1 & d & Hrec & _).
    rewrite (energy_management_night self _ (current_storage_J st)
               (solar_heat_zero self irr Hirr) Hn) in HS1, Hrec.
    cbn [Py.for_each length]. rewrite Hbody. cbn [Py.bind].
    destruct k as [|k].
    + (* no full hour left *)
      rewrite of_int_0 in Hlo, Hhi.
      rewrite (ge_false (current_storage_J st)) in HS1, Hrec by lra.
      destruct (gt_spec (current_storage_J st) 0) as [Hpos|Hnpos].
      * (* a partial hour, then off *)
        cbn [fst snd] in HS1, Hrec.
        destruct (IH st1 0%nat 0 Hz) as (st' & new & Hrun & Hres & Hmode & Hheat).
        { rewrite HS1, of_int_0. lra. }
        { rewrite HS1, of_int_0. lra. }
        { rewrite HS1, of_int_0. qnorm. lra. }
        rewrite gt_false in Hmode, Hheat by (rewrite HS1, of_int_0; lra).
        rewrite depletion_profile_off in Hmode. rewrite depletion_profile_off in Hheat.
        rewrite gt_true by (rewrite of_int_0; lra).
        rewrite !depletion_profile_part.
        eexists st', (_ :: new). split; [exact Hrun|].
        split; [rewrite Hres, Hrec, <- app_assoc; reflexivity|].
        split; [cbn [map HourlyRecord.mode]; now rewrite Hmode|].
        constructor; [|exact Hheat].
        cbn [HourlyRecord.Q_med_MW]. rewrite Hy, of_int_0. qnorm. lra.
      * (* already empty *)
        cbn [fst snd] in HS1, Hrec.
        destruct (IH st1 0%nat y Hz) as (st' & new & Hrun & Hres & Hmode & Hheat).
        { rewrite HS1. now rewrite of_int_0. }
        { rewrite HS1. now rewrite of_int_0. }
        { rewrite HS1. exact Hy. }
        rewrite gt_false in Hmode, Hheat by (rewrite HS1, of_int_0; lra).
        rewrite depletion_profile_off in Hmode. rewrite depletion_profile_off in Hheat.
        rewrite gt_false by (rewrite of_int_0; lra).
        rewrite !depletion_profile_off.
        eexists st', (_ :: new). split; [exact Hrun|].
        split; [rewrite Hres, Hrec, <- app_assoc; reflexivity|].
        split; [cbn [map HourlyRecord.mode replicate]; now rewrite Hmode|].
        cbn [replicate]. constructor; [|exact Hheat].
        cbn [HourlyRecord.Q_med_MW]. qnorm. lra.
    + (* a full hour *)
      rewrite of_int_S in Hlo, Hhi.
      assert (0 <= Py.of_int k) as Hk.
      { unfold Py.of_int. change 0 with (inject_Z 0). rewrite <- Zle_Qle. lia. }
      rewrite (gt_true (current_storage_J st) 0) in HS1, Hrec by nra.
      rewrite (ge_true (current_storage_J st)) in HS1, Hrec by nra.
      cbn [fst snd] in HS1, Hrec.
      destruct (IH st1 k y Hz) as (st' & new & Hrun & Hres & Hmode & Hheat).
      { rewrite HS1. lra. }
      { rewrite HS1. lra. }
      { rewrite HS1, Hy, of_int_S. qnorm. ring. }
      rewrite (gt_shift _ (current_storage_J st) _
                 (Py.of_int (S k) * (Q_nominal_W self * 3600))) in Hmode, Hheat
        by (rewrite ?HS1, ?of_int_S; ring).
      rewrite !depletion_profile_full.
      eexists st', (_ :: new). split; [exact Hrun|].
      split; [rewrite Hres, Hrec, <- app_assoc; reflexivity|].
      split; [cbn [map HourlyRecord.mode]; now rewrite Hmode|].
      constructor; [|exact Hheat].
      cbn [HourlyRecord.Q_med_MW]. reflexivity.
Qed.

(** C3, amended.  With a positive nominal load and zero irradiance in every
    hour, let [k] be the number of whole hourly demands [Q_nominal * 3600] J
    contained in the initial level (half of [storage_capacity_J]).  Then the
    first [k] hours run in mode [Storage Only] and deliver [Q_nominal]; if a
    remainder is left, one hour in mode [Partial Storage] delivers it; every
    later hour is [Off] and delivers nothing. *)
Theorem zero_irradiance_depletion (self : t) (solar_resource : list (Z * Q)) (k : nat) :
  0 < Q_nominal_W self -> ~ lambda_s self == 0 ->
  Forall (fun x : Z * Q => x.2 == 0) solar_resource ->
  Py.of_int k * (Q_nominal_W self * 3600) <= storage_capacity_J self / 2 ->
  storage_capacity_J self / 2 < (Py.of_int k + 1) * (Q_nominal_W self * 3600) ->
  exists r,
    simulate_daily_operation self solar_resource = Ok r /\
    map HourlyRecord.mode (DailyResults.hourly_data r) =
      depletion_profile k
        (storage_capacity_J self / 2 >? Py.of_int k * (Q_nominal_W self * 3600))
        (length solar_resource)
        "Storage Only"%string "Partial Storage"%string "Off"%string /\
    Forall2 (fun h q => HourlyRecord.Q_med_MW h == q) (DailyResults.hourly_data r)
      (depletion_profile k
         (storage_capacity_J self / 2 >? Py.of_int k * (Q_nominal_W self * 3600))
         (length solar_resource)
         (Q_nominal_W self / 1e6)
         ((storage_capacity_J self / 2 - Py.of_int k * (Q_nominal_W self * 3600))
          / 3600 / 1e6)
         0).
Proof.
  intros Hn Hl Hz Hlo Hhi.
  destruct (depletion_run self Hn Hl solar_resource (initial_day self) k
              ((storage_capacity_J self / 2 - Py.of_int k * (Q_nominal_W self * 3600))
               / 3600 / 1e6) Hz Hlo Hhi) as (st & new & Hrun & Hres & Hmode & Hheat).
  { reflexivity. }
  cbn [initial_day hourly_results current_storage_J app] in Hres, Hmode, Hheat.
  eexists. split; [apply simulate_of_run; exact Hrun|].
  cbn [DailyResults.hourly_data]. rewrite Hres. auto.
Qed.

(** Twenty-four dark hours on the large store: two full hours, a partial
    one, then off. *)
Lemma zero_irradiance_depletion_witness :
  exists r,
    simulate_daily_operation large_store_plant (night 24) = Ok r /\
    map HourlyRecord.mode (DailyResults.hourly_data r) =
      depletion_profile 2
        (storage_capacity_J large_store_plant / 2 >? Py.of_int 2 * (Q_nominal_W large_store_plant * 3600))
        (length (night 24))
        "Storage Only"%string "Partial Storage"%string "Off"%string /\
    Forall2 (fun h q => HourlyRecord.Q_med_MW h == q) (DailyResults.hourly_data r)
      (depletion_profile 2
         (storage_capacity_J large_store_plant / 2 >? Py.of_int 2 * (Q_nominal_W large_store_plant * 3600))
         (length (night 24))
         (Q_nominal_W large_store_plant / 1e6)
         ((storage_capacity_J large_store_plant / 2 - Py.of_int 2 * (Q_nominal_W large_store_plant * 3600))
          / 3600 / 1e6)
         0).
Proof.
  apply (zero_irradiance_depletion large_store_plant (night 24) 2).
  - vm_compute. reflexivity.
  - vm_compute. discriminate.
  - vm_compute. repeat constructor.
  - vm_compute. discriminate.
  - vm_compute. reflexivity.
Defined.

Example depletion_profile_example :
  depletion_profile 2 true 6 "Storage Only"%string "Partial Storage"%string "Off"%string
  = ["Storage Only"; "Storage Only"; "Partial Storage"; "Off"; "Off"; "Off"]%string.
Proof. reflexivity. Qed.

(** C3 as stated fails on the small store: 10000 kWh over 1000 kW promise
    ten hours at full load, and the run has none. *)
Lemma zero_irradiance_hours_counterexample :
  exists r,
    simulate_daily_operation small_store_plant (night 24) = Ok r /\
    MEDParameters.storage_capacity_kWh (params small_store_plant) / (Q_nominal_W small_store_plant / 1000) == 10 /\
    map HourlyRecord.mode (DailyResults.hourly_data r) =
      "Partial Storage"%string :: replicate 23 "Off"%string /\
    full_output_hours small_store_plant r = 0%nat /\
    ~ full_hours_as_stated small_store_plant r.
Proof.
  eexists. split; [vm_compute; reflexivity|].
  split; [vm_compute; reflexivity|].
  split; [vm_compute; reflexivity|].
  split; [vm_compute; reflexivity|].
  vm_compute. intros H. apply H. reflexivity.
Qed.

(** C10.  The capacity the simulator works with is
    [storage_capacity_kWh * 3600], a thousand times less than the same
    energy converted with [J_TO_KWH = 3.6e6]; the initial level is
    [storage_capacity_kWh * 1800]; and charging is capped at that capacity. *)
Theorem capacity_in_joules_is_kWh_times_3600 (p : MEDParameters.t) (nominal : Results.t) :
  storage_capacity_J (__init__ p nominal)
    == MEDParameters.storage_capacity_kWh p * 3600 /\
  current_storage_J (initial_day (__init__ p nominal))
    == MEDParameters.storage_capacity_kWh p * 1800 /\
  storage_capacity_J (__init__ p nominal) * 1000
    == MEDParameters.storage_capacity_kWh p * J_TO_KWH /\
  forall Q_solar_W level,
    Q_nominal_W (__init__ p nominal) <= Q_solar_W ->
    (energy_management (__init__ p nominal) Q_solar_W level).1.2
      <= MEDParameters.storage_capacity_kWh p * 3600.
Proof.
  unfold __init__, initial_day, J_TO_KWH.
  cbn [storage_capacity_J current_storage_J Q_nominal_W].
  repeat split; try qlra.
  intros Qs S H. unfold energy_management.
  cbn [storage_capacity_J current_storage_J Q_nominal_W].
  rewrite ge_true by exact H. cbn [fst snd]. unfold Py.min. cmp; lra.
Qed.

(** *** Accounting of a simulated day *)

Lemma hour_body_update self x st :
  ~ lambda_s self == 0 \/ GOR self <= 0 ->
  hour_body self x st = Ok (hour_update self x st).
Proof.
  intros H. destruct x as [hour irr]. unfold hour_body, hour_update, distillate_rate.
  cbn [fst snd].
  destruct (energy_management self (_solar_heat_input self irr) (current_storage_J st))
    as [[Qm S'] m]. cbn [fst snd].
  destruct (gt_spec Qm 0); cbn [andb]; [|reflexivity].
  destruct (gt_spec (GOR self) 0); [|reflexivity].
  destruct H as [H|H]; [|lra].
  unfold Py.py_div. fold (lambda_s self).
  destruct (eq_spec (lambda_s self) 0); [contradiction|]. reflexivity.
Qed.

Lemma for_each_fold {A S} (body : A -> S -> Py.outcome S) (f : A -> S -> S) xs :
  (forall x s, body x s = Ok (f x s)) ->
  forall st, Py.for_each body xs st = Ok (fold_left (fun s x => f x s) xs st).
Proof.
  intros H. induction xs as [|x xs IH]; intros st; [reflexivity|].
  cbn [Py.for_each fold_left]. rewrite H. cbn [Py.bind]. apply IH.
Qed.

Lemma run_hours_fold self res :
  ~ lambda_s self == 0 \/ GOR self <= 0 ->
  run_hours self res =
    Ok (fold_left (fun st x => hour_update self x st) res (initial_day self)).
Proof.
  intros H. unfold run_hours. apply for_each_fold. intros x s.
  now apply hour_body_update.
Qed.

(** Induction over the hours of a day, the last hour last. *)
Lemma day_ind self (P : list (Z * Q) -> day -> Prop) :
  P [] (initial_day self) ->
  (forall res x st, P res st -> P (res ++ [x]) (hour_update self x st)) ->
  forall res, P res (fold_left (fun st x => hour_update self x st) res (initial_day self)).
Proof.
  intros H0 Hstep res. induction res as [|x res IH] using rev_ind; [exact H0|].
  rewrite fold_left_app. cbn [fold_left]. apply Hstep, IH.
Qed.

Lemma builtin_sum_snoc xs x : Py.builtin_sum (xs ++ [x]) = Py.builtin_sum xs + x.
Proof. unfold Py.builtin_sum. rewrite fold_left_app. reflexivity. Qed.

Lemma sum_snoc xs x : Py.sum (xs ++ [x]) == Py.sum xs + x.
Proof.
  unfold Py.sum. induction xs as [|y xs IH]; cbn [app fold_right]; [ring|].
  rewrite IH. ring.
Qed.

Ltac dayfields :=
  cbn [hour_update initial_day current_storage_J daily_distillate_kg
       daily_solar_collection_J hourly_results fst snd
       HourlyRecord.hour HourlyRecord.irradiance_W_m2 HourlyRecord.Q_med_MW
       HourlyRecord.storage_MWh HourlyRecord.distillate_kg_s HourlyRecord.mode
       DailyResults.daily_distillate DailyResults.Q_nominal_W
       DailyResults.daily_solar_collection_J DailyResults.hourly_data].

Lemma simulate_fold self res :
  ~ lambda_s self == 0 \/ GOR self <= 0 ->
  exists st,
    st = fold_left (fun st x => hour_update self x st) res (initial_day self) /\
    run_hours self res = Ok st /\
    simulate_daily_operation self res =
      Ok (DailyResults.mk (daily_distillate_kg st) (Q_nominal_W self)
            (daily_solar_collection_J st) (hourly_results st)).
Proof.
  intros H. eexists. split; [reflexivity|].
  pose proof (run_hours_fold self res H) as Hrun.
  split; [exact Hrun|]. now apply simulate_of_run.
Qed.

Lemma energy_management_heat self Qs S :
  0 <= Q_nominal_W self -> 0 <= S ->
  0 <= (energy_management self Qs S).1.1 <= Q_nominal_W self.
Proof.
  intros Hn HS. unfold energy_management. cmp; cbn [andb fst snd]; qlra.
Qed.

Lemma energy_management_balance self Qs S :
  0 <= Qs ->
  (energy_management self Qs S).1.1 * 3600 + (energy_management self Qs S).1.2
    <= Qs * 3600 + S.
Proof.
  intros HQ. unfold energy_management, Py.min. cmp; cbn [andb fst snd]; qlra.
Qed.

Lemma energy_management_direction self Qs S :
  0 <= S <= storage_capacity_J self ->
  (Q_nominal_W self <= Qs -> S <= (energy_management self Qs S).1.2) /\
  (Qs < Q_nominal_W self -> (energy_management self Qs S).1.2 <= S).
Proof.
  intros HS. unfold energy_management, Py.min. cmp; cbn [andb fst snd]; split; intros; qlra.
Qed.

(** X1.  One record per input pair, in the order of the input, carrying its
    hour and its irradiance. *)
Theorem hourly_records_follow_input (self : t) (solar_resource : list (Z * Q)) :
  ~ lambda_s self == 0 \/ GOR self <= 0 ->
  exists r,
    simulate_daily_operation self solar_resource = Ok r /\
    map (fun h => (HourlyRecord.hour h, HourlyRecord.irradiance_W_m2 h))
      (DailyResults.hourly_data r) = solar_resource.
Proof.
  intros H. destruct (simulate_fold self solar_resource H) as (st & Hst & _ & Hsim).
  eexists. split; [exact Hsim|]. dayfields. rewrite Hst.
  apply (day_ind self (fun res st =>
    map (fun h => (HourlyRecord.hour h, HourlyRecord.irradiance_W_m2 h))
      (hourly_results st) = res)).
  - reflexivity.
  - intros res x st' IH. dayfields. rewrite map_app, IH. cbn [map]. dayfields.
    now destruct x.
Qed.

Lemma hourly_records_follow_input_witness :
  exists r,
    simulate_daily_operation default_plant [(0%Z, 0); (7%Z, 300); (12%Z, 800)] = Ok r /\
    map (fun h => (HourlyRecord.hour h, HourlyRecord.irradiance_W_m2 h))
      (DailyResults.hourly_data r) = [(0%Z, 0); (7%Z, 300); (12%Z, 800)].
Proof.
  apply (hourly_records_follow_input default_plant [(0%Z, 0); (7%Z, 300); (12%Z, 800)]).
  left. vm_compute. discriminate.
Defined.

(** X2.  The daily solar collection counts the irradiance of every hour,
    whether the heat was used, stored or neither. *)
Theorem solar_collection_counts_every_hour (self : t) (solar_resource : list (Z * Q)) :
  ~ lambda_s self == 0 \/ GOR self <= 0 ->
  exists r,
    simulate_daily_operation self solar_resource = Ok r /\
    DailyResults.daily_solar_collection_J r ==
      Py.sum (map snd solar_resource)
      * MEDParameters.solar_collector_area (params self)
      * MEDParameters.solar_efficiency (params self) * 3600.
Proof.
  intros H. destruct (simulate_fold self solar_resource H) as (st & Hst & _ & Hsim).
  eexists. split; [exact Hsim|]. dayfields. rewrite Hst.
  apply (day_ind self (fun res st =>
    daily_solar_collection_J st ==
      Py.sum (map snd res)
      * MEDParameters.solar_collector_area (params self)
      * MEDParameters.solar_efficiency (params self) * 3600)).
  - dayfields. cbn [map Py.sum fold_right]. ring.
  - intros res x st' IH. dayfields. rewrite map_app. cbn [map].
    rewrite sum_snoc, IH. unfold _solar_heat_input. ring.
Qed.

Lemma solar_collection_counts_every_hour_witness :
  exists r,
    simulate_daily_operation default_plant [(0%Z, 0); (7%Z, 300); (12%Z, 800)] = Ok r /\
    DailyResults.daily_solar_collection_J r ==
      Py.sum (map snd [(0%Z, 0); (7%Z, 300); (12%Z, 800)])
      * MEDParameters.solar_collector_area (params default_plant)
      * MEDParameters.solar_efficiency (params default_plant) * 3600.
Proof.
  apply (solar_collection_counts_every_hour default_plant
           [(0%Z, 0); (7%Z, 300); (12%Z, 800)]).
  left. vm_compute. discriminate.
Defined.

(** X3.  The daily distillate is the total of the hourly rates, each held for
    3600 s. *)
Theorem daily_distillate_is_hourly_total (self : t) (solar_resource : list (Z * Q)) :
  ~ lambda_s self == 0 \/ GOR self <= 0 ->
  exists r,
    simulate_daily_operation self solar_resource = Ok r /\
    DailyResults.daily_distillate r ==
      Py.sum (map (fun h => HourlyRecord.distillate_kg_s h * 3600)
                (DailyResults.hourly_data r)).
Proof.
  intros H. destruct (simulate_fold self solar_resource H) as (st & Hst & _ & Hsim).
  eexists. split; [exact Hsim|]. dayfields. rewrite Hst.
  apply (day_ind self (fun res st =>
    daily_distillate_kg st ==
      Py.sum (map (fun h => HourlyRecord.distillate_kg_s h * 3600)
                (hourly_results st)))).
  - dayfields. cbn [map Py.sum fold_right]. ring.
  - intros res x st' IH. dayfields. rewrite map_app. cbn [map].
    rewrite sum_snoc, IH. dayfields. ring.
Qed.

Lemma daily_distillate_is_hourly_total_witness :
  exists r,
    simulate_daily_operation default_plant [(0%Z, 0); (7%Z, 300); (12%Z, 800)] = Ok r /\
    DailyResults.daily_distillate r ==
      Py.sum (map (fun h => HourlyRecord.distillate_kg_s h * 3600)
                (DailyResults.hourly_data r)).
Proof.
  apply (daily_distillate_is_hourly_total default_plant
           [(0%Z, 0); (7%Z, 300); (12%Z, 800)]).
  left. vm_compute. discriminate.
Defined.

(** X4.  With a non-negative capacity and nominal load, the heat delivered in
    every hour lies between zero and the nominal load. *)
Theorem delivered_heat_within_nominal (self : t) (solar_resource : list (Z * Q)) :
  0 <= storage_capacity_J self -> 0 <= Q_nominal_W self ->
  ~ lambda_s self == 0 \/ GOR self <= 0 ->
  exists r,
    simulate_daily_operation self solar_resource = Ok r /\
    Forall (fun h => 0 <= HourlyRecord.Q_med_MW h * 1e6 <= Q_nominal_W self)
      (DailyResults.hourly_data r).
Proof.
  intros Hc Hn H.
  destruct (simulate_fold self solar_resource H) as (st & Hst & _ & Hsim).
  eexists. split; [exact Hsim|]. dayfields. rewrite Hst.
  apply (day_ind self (fun res st =>
    level_in_range self (current_storage_J st) /\
    Forall (fun h => 0 <= HourlyRecord.Q_med_MW h * 1e6 <= Q_nominal_W self)
      (hourly_results st))).
  - split; [|constructor]. unfold level_in_range. dayfields. qlra.
  - intros res x st' [HS IH]. dayfields.
    split; [now apply energy_management_bounds|].
    apply Forall_app. split; [exact IH|]. constructor; [|constructor]. dayfields.
    pose proof (energy_management_heat self (_solar_heat_input self x.2)
                  (current_storage_J st') Hn (proj1 HS)).
    qlra.
Qed.

Lemma delivered_heat_within_nominal_witness :
  exists r,
    simulate_daily_operation default_plant [(0%Z, 0); (7%Z, 300); (12%Z, 800)] = Ok r /\
    Forall (fun h => 0 <= HourlyRecord.Q_med_MW h * 1e6 <= Q_nominal_W default_plant)
      (DailyResults.hourly_data r).
Proof.
  apply (delivered_heat_within_nominal default_plant
           [(0%Z, 0); (7%Z, 300); (12%Z, 800)]).
  - vm_compute. discriminate.
  - vm_compute. discriminate.
  - left. vm_compute. discriminate.
Defined.

Lemma total_energy_snoc hs h :
  total_energy_consumed_J (hs ++ [h])
  = total_energy_consumed_J hs + HourlyRecord.Q_med_MW h * 1e6 * 3600.
Proof. unfold total_energy_consumed_J. rewrite map_app. apply builtin_sum_snoc. Qed.

Lemma distillate_rate_heat self Qm :
  ~ lambda_s self == 0 \/ GOR self <= 0 -> 0 <= Qm -> 0 <= GOR self ->
  distillate_rate self Qm * lambda_s self == GOR self * Qm.
Proof.
  intros H HQ HG. unfold distillate_rate.
  destruct (gt_spec Qm 0); cbn [andb]; [|nra].
  destruct (gt_spec (GOR self) 0); [|nra].
  destruct H as [H|H]; [|lra]. field. exact H.
Qed.

(** X5.  With a non-negative capacity, nominal load and gain ratio, the daily
    distillate times the latent heat at [T_steam] is the gain ratio times the
    heat delivered over the day. *)
Theorem daily_distillate_from_delivered_heat (self : t) (solar_resource : list (Z * Q)) :
  0 <= storage_capacity_J self -> 0 <= Q_nominal_W self -> 0 <= GOR self ->
  ~ lambda_s self == 0 \/ GOR self <= 0 ->
  exists r,
    simulate_daily_operation self solar_resource = Ok r /\
    DailyResults.daily_distillate r * lambda_s self ==
      GOR self * total_energy_consumed_J (DailyResults.hourly_data r).
Proof.
  intros Hc Hn HG H.
  destruct (simulate_fold self solar_resource H) as (st & Hst & _ & Hsim).
  eexists. split; [exact Hsim|]. dayfields. rewrite Hst.
  apply (day_ind self (fun res st =>
    level_in_range self (current_storage_J st) /\
    daily_distillate_kg st * lambda_s self ==
      GOR self * total_energy_consumed_J (hourly_results st))).
  - split; [unfold level_in_range; dayfields; qlra|].
    dayfields. unfold total_energy_consumed_J, Py.builtin_sum. cbn [map fold_left]. ring.
  - intros res x st' [HS IH]. dayfields.
    split; [now apply energy_management_bounds|].
    rewrite total_energy_snoc. dayfields.
    pose proof (energy_management_heat self (_solar_heat_input self x.2)
                  (current_storage_J st') Hn (proj1 HS)) as [Hq _].
    pose proof (distillate_rate_heat self _ H Hq HG) as Hd.
    set (Qm := (energy_management self (_solar_heat_input self x.2)
                  (current_storage_J st')).1.1) in *.
    assert (E : (daily_distillate_kg st' + distillate_rate self Qm * 3600)
                * lambda_s self
                == daily_distillate_kg st' * lambda_s self
                   + distillate_rate self Qm * lambda_s self * 3600) by ring.
    rewrite E, IH, Hd. qnorm. ring.
Qed.

Lemma daily_distillate_from_delivered_heat_witness :
  exists r,
    simulate_daily_operation default_plant [(0%Z, 0); (7%Z, 300); (12%Z, 800)] = Ok r /\
    DailyResults.daily_distillate r * lambda_s default_plant ==
      GOR default_plant * total_energy_consumed_J (DailyResults.hourly_data r).
Proof.
  apply (daily_distillate_from_delivered_heat default_plant
           [(0%Z, 0); (7%Z, 300); (12%Z, 800)]).
  - vm_compute. discriminate.
  - vm_compute. discriminate.
  - vm_compute. discriminate.
  - left. vm_compute. discriminate.
Defined.

(** X6.  With a non-negative collector area, efficiency and irradiance, the
    heat delivered over the day plus the energy left in the store is at most
    the solar collection of the day plus the initial half store. *)
Theorem dispatch_creates_no_energy (self : t) (solar_resource : list (Z * Q)) :
  0 <= MEDParameters.solar_collector_area (params self) ->
  0 <= MEDParameters.solar_efficiency (params self) ->
  Forall (fun x : Z * Q => 0 <= x.2) solar_resource ->
  ~ lambda_s self == 0 \/ GOR self <= 0 ->
  exists st r,
    run_hours self solar_resource = Ok st /\
    simulate_daily_operation self solar_resource = Ok r /\
    total_energy_consumed_J (DailyResults.hourly_data r) + current_storage_J st
      <= DailyResults.daily_solar_collection_J r + storage_capacity_J self / 2.
Proof.
  intros Ha He Hirr H.
  destruct (simulate_fold self solar_resource H) as (st & Hst & Hrun & Hsim).
  exists st. eexists. split; [exact Hrun|]. split; [exact Hsim|]. dayfields.
  rewrite Hst. clear Hst Hrun Hsim. revert Hirr.
  apply (day_ind self (fun res st =>
    Forall (fun x : Z * Q => 0 <= x.2) res ->
    total_energy_consumed_J (hourly_results st) + current_storage_J st
      <= daily_solar_collection_J st + storage_capacity_J self / 2)).
  - intros _. dayfields. unfold total_energy_consumed_J, Py.builtin_sum.
    cbn [map fold_left]. lra.
  - intros res x st' IH Hall. apply Forall_app in Hall as [Hres Hx].
    apply Forall_cons in Hx as [Hx _]. specialize (IH Hres). dayfields.
    rewrite total_energy_snoc. dayfields.
    assert (HQ : 0 <= _solar_heat_input self x.2).
    { unfold _solar_heat_input. repeat apply Qmult_le_0_compat; assumption. }
    pose proof (energy_management_balance self _ (current_storage_J st') HQ).
    qnorm. lra.
Qed.

Lemma dispatch_creates_no_energy_witness :
  exists st r,
    run_hours default_plant [(0%Z, 0); (7%Z, 300); (12%Z, 800)] = Ok st /\
    simulate_daily_operation default_plant [(0%Z, 0); (7%Z, 300); (12%Z, 800)] = Ok r /\
    total_energy_consumed_J (DailyResults.hourly_data r) + current_storage_J st
      <= DailyResults.daily_solar_collection_J r + storage_capacity_J default_plant / 2.
Proof.
  apply (dispatch_creates_no_energy default_plant [(0%Z, 0); (7%Z, 300); (12%Z, 800)]).
  - vm_compute. discriminate.
  - vm_compute. discriminate.
  - repeat constructor; vm_compute; discriminate.
  - left. vm_compute. discriminate.
Defined.

(** X7.  From a level within the capacity, an hour whose solar power covers
    the nominal load does not lower the level, and an hour whose solar power
    falls short of it does not raise it. *)
Theorem storage_moves_with_the_solar_surplus (self : t) (hour : Z) (irradiance : Q)
    (st : day) :
  level_in_range self (current_storage_J st) ->
  ~ lambda_s self == 0 \/ GOR self <= 0 ->
  exists st',
    hour_body self (hour, irradiance) st = Ok st' /\
    (Q_nominal_W self <= _solar_heat_input self irradiance ->
     current_storage_J st <= current_storage_J st') /\
    (_solar_heat_input self irradiance < Q_nominal_W self ->
     current_storage_J st' <= current_storage_J st).
Proof.
  intros HS H. eexists. split; [apply hour_body_update, H|]. dayfields.
  now apply energy_management_direction.
Qed.

Lemma storage_moves_with_the_solar_surplus_witness :
  exists st',
    hour_body default_plant (12%Z, 800) (initial_day default_plant) = Ok st' /\
    (Q_nominal_W default_plant <= _solar_heat_input default_plant 800 ->
     current_storage_J (initial_day default_plant) <= current_storage_J st') /\
    (_solar_heat_input default_plant 800 < Q_nominal_W default_plant ->
     current_storage_J st' <= current_storage_J (initial_day default_plant)).
Proof.
  apply (storage_moves_with_the_solar_surplus default_plant 12%Z 800
           (initial_day default_plant)).
  - split; vm_compute; discriminate.
  - left. vm_compute. discriminate.
Defined.

Lemma distillate_rate_idle self Qm : GOR self <= 0 -> distillate_rate self Qm = 0.0.
Proof.
  intros H. unfold distillate_rate. rewrite (gt_false (GOR self) 0) by exact H.
  now rewrite andb_false_r.
Qed.

(** X8.  With a gain ratio that is not positive the simulation divides by
    nothing: it returns whatever the latent heat is, and no hour and no day
    has any distillate. *)
Theorem no_distillate_without_gain (self : t) (solar_resource : list (Z * Q)) :
  GOR self <= 0 ->
  exists r,
    simulate_daily_operation self solar_resource = Ok r /\
    DailyResults.daily_distillate r == 0 /\
    Forall (fun h => HourlyRecord.distillate_kg_s h == 0) (DailyResults.hourly_data r).
Proof.
  intros HG.
  destruct (simulate_fold self solar_resource (or_intror HG)) as (st & Hst & _ & Hsim).
  eexists. split; [exact Hsim|]. dayfields. rewrite Hst.
  apply (day_ind self (fun res st =>
    daily_distillate_kg st == 0 /\
    Forall (fun h => HourlyRecord.distillate_kg_s h == 0) (hourly_results st))).
  - split; [reflexivity|constructor].
  - intros res x st' [IH1 IH2]. dayfields.
    rewrite distillate_rate_idle by exact HG. split; [rewrite IH1; reflexivity|].
    apply Forall_app. split; [exact IH2|]. constructor; [|constructor]. reflexivity.
Qed.

Lemma no_distillate_without_gain_witness :
  exists r,
    simulate_daily_operation idle_plant [(0%Z, 0); (7%Z, 300); (12%Z, 800)] = Ok r /\
    DailyResults.daily_distillate r == 0 /\
    Forall (fun h => HourlyRecord.distillate_kg_s h == 0) (DailyResults.hourly_data r).
Proof.
  apply (no_distillate_without_gain idle_plant [(0%Z, 0); (7%Z, 300); (12%Z, 800)]).
  vm_compute. discriminate.
Defined.

End DispatchProperties.

(** ** Solver *)

Section SolverProperties.
Import MEDModel.

Lemma wp_get E nf (P : Q -> Prop) a i :
  (i < length a)%nat -> P (a !!! i) -> wp E nf P (Py.get a i).
Proof.
  intros Hi HP. unfold Py.get.
  rewrite (list_lookup_lookup_total_lt a i Hi). exact HP.
Qed.

Lemma wp_set E nf (P : list Q -> Prop) a i v :
  (i < length a)%nat -> P (<[i := v]> a) -> wp E nf P (Py.set a i v).
Proof.
  intros Hi HP. unfold Py.set.
  destruct (Nat.ltb_spec i (length a)); [exact HP|lia].
Qed.

Lemma wp_np_div E (nf : Prop) (P : Q -> Prop) site a b :
  (b == 0 -> nf) -> (~ b == 0 -> P (a / b)) -> wp E nf P (Py.np_div site a b).
Proof. intros H1 H2. unfold Py.np_div. destruct (eq_spec b 0); simpl; auto. Qed.

Lemma ladder_length p : length (map (ladder_temp p) (seq 0 (MEDParameters.n_effects p)))
                        = MEDParameters.n_effects p.
Proof. now rewrite length_map, length_seq. Qed.

Lemma ladder_lookup p i :
  (i < MEDParameters.n_effects p)%nat ->
  map (ladder_temp p) (seq 0 (MEDParameters.n_effects p)) !!! i = ladder_temp p i.
Proof.
  intros Hi. apply list_lookup_total_correct.
  rewrite list_lookup_fmap, lookup_seq_lt by exact Hi. reflexivity.
Qed.

Ltac fields :=
  cbn [params n T_effect M_feed M_brine M_vapor S_brine A_effect
       M_total_distillate M_steam GOR As
       set_T_effect set_M_feed set_M_brine set_M_vapor set_S_brine set_A_effect
       set_M_total_distillate set_M_steam set_GOR set_As
       S_feed S_feed_dtype T_feed_in M_vapor_preheat
       set_S_feed set_T_feed_in set_M_vapor_preheat fst snd] in *.

Ltac len := fields; rewrite ?length_insert; lia.

Ltac wstep :=
  lazymatch goal with
  | |- wp _ _ _ (Py.bind (Py.get _ _) _) =>
      apply wp_bind, wp_get; [len | cbv beta]
  | |- wp _ _ _ (Py.bind (Py.set _ _ _) _) =>
      apply wp_bind, wp_set; [len | cbv beta]
  | |- wp _ _ _ (Py.bind (Ok _) _) => cbn [Py.bind]
  end.

Lemma Q_input_block_wp nf (P : Q * locals -> Prop) self l k :
  (k < length (T_effect self))%nat -> (k < length (M_vapor self))%nat ->
  (k < length (M_vapor_preheat l))%nat -> (k < length (T_feed_in l))%nat ->
  P (Q_input_at self l k,
     if (k =? 0)%nat then l
     else set_T_feed_in l (<[k := T_effect self !!! (k - 1)%nat]> (T_feed_in l))) ->
  wp no_exn nf P
    (if (k =? 0)%nat then
       let lambda_s := _latent_heat (MEDParameters.T_steam (params self)) in
       let Q_input := M_steam self * lambda_s in
       Ok (Q_input, l)
     else
       let* T_prev := Py.get (T_effect self) (k - 1) in
       let lambda_v_prev := _latent_heat T_prev in
       let* M_vapor_heating := Py.get (M_vapor self) (k - 1) in
       let* extracted := Py.get (M_vapor_preheat l) (k - 1) in
       let M_vapor_available := M_vapor_heating - extracted in
       let M_vapor_available := Py.max 0.0 M_vapor_available in
       let Q_input := M_vapor_available * lambda_v_prev in
       let* T_prev := Py.get (T_effect self) (k - 1) in
       let* a := Py.set (T_feed_in l) k T_prev in
       Ok (Q_input, set_T_feed_in l a)).
Proof.
  intros H1 H2 H3 H4. unfold Q_input_at.
  destruct (k =? 0)%nat; [intros HP; exact HP|]. intros HP.
  repeat wstep. exact HP.
Qed.

Lemma S_brine_block_wp nf (P : t -> Prop) self k F S B :
  (k < length (S_brine self))%nat ->
  P (set_S_brine self
       (<[k := if B >? 1e-6 then F * S / B else S]> (S_brine self))) ->
  wp no_exn nf P
    (if B >? 1e-6 then
       let* s := Py.np_div "S_brine" (F * S) B in
       let* a := Py.set (S_brine self) k s in
       Ok (set_S_brine self a)
     else
       let* a := Py.set (S_brine self) k S in
       Ok (set_S_brine self a)).
Proof.
  intros Hk. destruct (gt_spec B 1e-6) as [HB|HB]; intros HP.
  - apply wp_bind, wp_np_div; [intros H0; exfalso; qnorm; lra|intros _].
    wstep. exact HP.
  - wstep. exact HP.
Qed.

Lemma delta_T_drive_block_wp nf (P : Q -> Prop) self self0 k :
  (k < length (T_effect self0))%nat ->
  T_effect self0 = T_effect self ->
  P (delta_T_drive_at self k) ->
  wp no_exn nf P
    (if (k =? 0)%nat then
       Ok (MEDParameters.T_steam (params self) - T_effect self !!! k
           - MEDParameters.BPE (params self))
     else
       let* T_prev := Py.get (T_effect self0) (k - 1) in
       Ok (T_prev - T_effect self !!! k - MEDParameters.BPE (params self))).
Proof.
  intros Hk HT. unfold delta_T_drive_at.
  destruct (k =? 0)%nat; [intros HP; exact HP|]. intros HP.
  wstep. rewrite HT. exact HP.
Qed.

Lemma A_effect_block_wp (nf : Prop) (P : t -> Prop) self k Q_input h d :
  (k < length (A_effect self))%nat ->
  (h == 0 -> nf) ->
  P (set_A_effect self
       (<[k := if d >? 0 then Q_input / (h * d) else 0.0]> (A_effect self))) ->
  wp no_exn nf P
    (if d >? 0 then
       let* area := Py.np_div "A_effect" Q_input (h * d) in
       let* a := Py.set (A_effect self) k area in
       Ok (set_A_effect self a)
     else
       let* a := Py.set (A_effect self) k 0.0 in
       Ok (set_A_effect self a)).
Proof.
  intros Hk Hh. destruct (gt_spec d 0) as [Hd|Hd]; intros HP.
  - apply wp_bind, wp_np_div.
    + intros H0. apply Hh. apply Qmult_integral in H0 as [H0|H0]; [exact H0|lra].
    + intros _. wstep. exact HP.
  - wstep. exact HP.
Qed.

Ltac fieldsg :=
  cbn [params n T_effect M_feed M_brine M_vapor S_brine A_effect
       M_total_distillate M_steam GOR As
       set_T_effect set_M_feed set_M_brine set_M_vapor set_S_brine set_A_effect
       set_M_total_distillate set_M_steam set_GOR set_As
       S_feed S_feed_dtype T_feed_in M_vapor_preheat
       set_S_feed set_T_feed_in set_M_vapor_preheat fst snd].

Ltac leng := fieldsg; rewrite ?length_insert; lia.

Ltac look :=
  repeat match goal with
  | |- context [<[?i := ?v]> ?a !!! ?i] =>
      rewrite (list_lookup_total_insert_eq a i v) by leng
  | |- context [<[?i := ?v]> ?a !!! ?j] =>
      rewrite (list_lookup_total_insert_ne a i j v) by lia
  end.

Ltac wget := apply wp_bind, wp_get; [leng | cbv beta; look].

Ltac wset := apply wp_bind, wp_set; [leng | cbv beta].

Lemma forward_body_wp p E T0 (nf : Prop) k st :
  (k < MEDParameters.n_effects p)%nat -> forward_inv p E T0 k st ->
  (_latent_heat (ladder_temp p k) == 0 -> nf) ->
  (_heat_transfer_coefficient_evaporator (ladder_temp p k) == 0 -> nf) ->
  wp no_exn nf (forward_inv p E T0 (S k)) (forward_body k st).
Proof.
  intros Hk [Hbase Hrows] Hlat Hhtc. destruct st as [self l].
  destruct Hbase as (Hp & Hn & Hsteam & HT & HE & Hd & Hlen & HF0 & HS0 & HT0).
  destruct Hlen as (LF & LB & LV & LS & LA & LSf & LTi & LE).
  assert (LT : length (T_effect self) = MEDParameters.n_effects p)
    by (rewrite HT; apply ladder_length).
  assert (HTk : T_effect self !!! k = ladder_temp p k)
    by (rewrite HT; apply ladder_lookup, Hk).
  unfold forward_body.
  apply wp_bind, Q_input_block_wp; try lia; [rewrite HE; lia|].
  set (l1 := if (k =? 0)%nat then l else _).
  assert (Hl1 : S_feed l1 = S_feed l /\ S_feed_dtype l1 = S_feed_dtype l /\
                M_vapor_preheat l1 = M_vapor_preheat l /\
                length (T_feed_in l1) = length (T_feed_in l) /\
                (forall j, j <> k -> T_feed_in l1 !!! j = T_feed_in l !!! j) /\
                (T_feed_in l1 !!! 0%nat = T_feed_in l !!! 0%nat) /\
                ((0 < k)%nat -> T_feed_in l1 !!! k = T_effect self !!! (k - 1)%nat)).
  { subst l1. destruct (Nat.eqb_spec k 0) as [->|Hk0]; fieldsg.
    - repeat split; auto. lia.
    - rewrite length_insert. repeat split; auto.
      + intros j Hj. now rewrite list_lookup_total_insert_ne by lia.
      + now rewrite list_lookup_total_insert_ne by lia.
      + intros _. now rewrite list_lookup_total_insert_eq by lia. }
  clearbody l1.
  destruct Hl1 as (E1 & E2 & E3 & E4 & E5 & E6 & E7).
  assert (LSf1 : length (S_feed l1) = MEDParameters.n_effects p)
    by (rewrite E1; exact LSf).
  wget. wget. wget. wget.
  apply wp_bind, wp_np_div; [rewrite HTk; exact Hlat|intros _; cbv beta].
  set (v := Py.max 0.0 _).
  wset. wget. wset. wget.
  apply wp_bind, S_brine_block_wp; [leng|].
  set (sb := if _ >? 1e-6 then _ else _).
  apply wp_bind.
  apply (delta_T_drive_block_wp nf _ self); [leng|reflexivity|].
  apply wp_bind, A_effect_block_wp; [leng|rewrite HTk; exact Hhtc|].
  set (ar := if _ >? 0 then _ else _).
  fieldsg. rewrite Hn.
  assert (Hold : forall j, (j < k)%nat ->
            forall (self' : t) (l' : locals),
            (forall i, (i <= j)%nat -> M_vapor self' !!! i = M_vapor self !!! i) ->
            (forall i, (i <= j)%nat -> M_brine self' !!! i = M_brine self !!! i) ->
            (forall i, (i <= j)%nat -> S_brine self' !!! i = S_brine self !!! i) ->
            (forall i, (i <= j)%nat -> A_effect self' !!! i = A_effect self !!! i) ->
            (forall i, (i <= j + 1)%nat -> M_feed self' !!! i = M_feed self !!! i) ->
            (forall i, (i <= j + 1)%nat -> S_feed l' !!! i = S_feed l !!! i) ->
            (forall i, (i <= j)%nat -> T_feed_in l' !!! i = T_feed_in l !!! i) ->
            T_effect self' = T_effect self -> params self' = params self ->
            M_steam self' = M_steam self -> n self' = n self ->
            M_vapor_preheat l' = M_vapor_preheat l ->
            S_feed_dtype l' = S_feed_dtype l ->
            row (self', l') j).
  { intros j Hj self' l' HV HB HSb HA HF HSf HTi HTe Hpar Hst Hn' Hpre Hdt.
    specialize (Hrows j Hj).
    unfold row, Q_input_at, sensible_heat_at, delta_T_drive_at in *.
    rewrite HTe, Hpar, Hst, Hn', Hpre, Hdt.
    rewrite (HV j), (HB j), (HSb j), (HA j), (HF j), (HSf j), (HTi j),
            (HF (j + 1)%nat), (HSf (j + 1)%nat) by lia.
    revert Hrows. destruct (Nat.eqb_spec j 0) as [Hj0|Hj0]; intros Hrows;
      [exact Hrows|].
    rewrite (HV (j - 1)%nat) by lia. exact Hrows. }
  destruct (Nat.ltb_spec k (MEDParameters.n_effects p - 1)) as [Hlast|Hlast].
  - wget. wset. wget. wset. cbn [wp].
    split.
    + unfold base. fieldsg. rewrite !length_insert.
      repeat split; try assumption; look; try congruence; try lia.
    + intros j Hj.
      destruct (Nat.eq_dec j k) as [->|Hjk].
      * unfold row, Q_input_at, sensible_heat_at, delta_T_drive_at.
        fieldsg. rewrite Hn. subst v sb ar.
        unfold Q_input_at, delta_T_drive_at. fieldsg.
        destruct (Nat.eqb_spec k 0) as [Hk0|Hk0]; look; rewrite ?E3;
          repeat split; try reflexivity; try (intros; lia); auto.
      * apply Hold; [lia|..]; fieldsg; try reflexivity; try assumption;
          intros i Hi; look; auto; try (apply E5; lia); rewrite ?E1; reflexivity.
  - cbn [wp]. split.
    + unfold base. fieldsg. rewrite !length_insert.
      repeat split; try assumption; look; try congruence; try lia.
    + intros j Hj.
      destruct (Nat.eq_dec j k) as [->|Hjk].
      * unfold row, Q_input_at, sensible_heat_at, delta_T_drive_at.
        fieldsg. rewrite Hn. subst v sb ar.
        unfold Q_input_at, delta_T_drive_at. fieldsg.
        destruct (Nat.eqb_spec k 0) as [Hk0|Hk0]; look; rewrite ?E3;
          repeat split; try reflexivity; try (intros; lia); auto.
      * apply Hold; [lia|..]; fieldsg; try reflexivity; try assumption;
          intros i Hi; look; auto; try (apply E5; lia); rewrite ?E1; reflexivity.
Qed.

Lemma range_lookup n k x : Py.range n !! k = Some x -> x = k /\ (k < n)%nat.
Proof.
  unfold Py.range. intros H. apply lookup_seq in H. lia.
Qed.

Lemma range_down_lookup n k x :
  Py.range_down_to_1 n !! k = Some x -> (1 <= x < n)%nat.
Proof.
  unfold Py.range_down_to_1. intros H.
  apply list_elem_of_lookup_2, list_elem_of_In in H.
  apply in_rev, in_seq in H. lia.
Qed.

(** The ladder loop writes [ladder_temp p i] at every index. *)
Lemma ladder_loop_wp nf self :
  let p := params self in
  n self = MEDParameters.n_effects p ->
  length (T_effect self) = MEDParameters.n_effects p ->
  wp no_exn nf
    (fun s => s = set_T_effect self
                    (map (ladder_temp p) (seq 0 (MEDParameters.n_effects p))))
    (Py.for_each (ladder_body (delta_T_total p)) (Py.range (n self)) self).
Proof.
  intros p Hn Hlen.
  eapply wp_mono;
    [|apply (wp_for_each no_exn nf
        (fun k s => exists T, s = set_T_effect self T /\
                      length T = MEDParameters.n_effects p /\
                      forall j, (j < k)%nat -> T !!! j = ladder_temp p j))].
  - intros s (T & -> & HT & Hall). f_equal.
    unfold Py.range in Hall. rewrite length_seq, Hn in Hall.
    apply (list_eq_same_length _ _ (MEDParameters.n_effects p));
      [apply ladder_length|exact HT|].
    intros i x y Hi Hx Hy.
    apply list_lookup_total_correct in Hx, Hy.
    rewrite <- Hx, <- Hy, Hall, ladder_lookup by lia. reflexivity.
  - exists (T_effect self). split; [now destruct self|]. split; [exact Hlen|].
    intros j Hj. lia.
  - intros k x s Hx (T & -> & HT & Hall).
    apply range_lookup in Hx as [-> Hk]. unfold ladder_body.
    wset. cbn [wp]. eexists. split; [reflexivity|].
    rewrite length_insert. split; [exact HT|].
    intros j Hj. destruct (Nat.eq_dec j k) as [->|Hjk].
    + look. reflexivity.
    + look. apply Hall. lia.
Qed.

Lemma preheat_body_wp (nf : Prop) self mass_flow_feed i l n :
  (1 <= i < n)%nat ->
  length (T_effect self) = n -> length (T_feed_in l) = n ->
  length (M_vapor_preheat l) = n ->
  (_latent_heat (T_effect self !!! (i - 1)%nat) == 0 -> nf) ->
  wp no_exn nf
    (fun l' => l' = preheat_update self mass_flow_feed l i)
    (preheat_body self mass_flow_feed i l).
Proof.
  intros Hi LT LTi LE Hlat. unfold preheat_body, preheat_update.
  wget. wget.
  destruct (_ >? _); [|reflexivity].
  wget. apply wp_bind, wp_np_div; [exact Hlat|intros _; cbv beta].
  wset. wset. reflexivity.
Qed.

Lemma preheat_update_shape n self mff l0 l i :
  preheat_shape n l0 l -> preheat_shape n l0 (preheat_update self mff l i).
Proof.
  intros (H1 & H2 & H3 & H4). unfold preheat_update, preheat_shape.
  destruct (_ >? _); fieldsg; rewrite ?length_insert; auto.
Qed.

Lemma preheat_loop_wp (nf : Prop) self mass_flow_feed l0 n :
  length (T_effect self) = n -> length (T_feed_in l0) = n ->
  length (M_vapor_preheat l0) = n ->
  (forall j, (j < n)%nat -> _latent_heat (T_effect self !!! j) == 0 -> nf) ->
  wp no_exn nf
    (fun l => l = fold_left (preheat_update self mass_flow_feed)
                    (Py.range_down_to_1 n) l0 /\
              preheat_shape n l0 l)
    (Py.for_each (preheat_body self mass_flow_feed) (Py.range_down_to_1 n) l0).
Proof.
  intros LT LTi LE Hlat.
  eapply wp_mono;
    [|apply (wp_for_each no_exn nf
        (fun k l => l = fold_left (preheat_update self mass_flow_feed)
                          (take k (Py.range_down_to_1 n)) l0 /\
                    preheat_shape n l0 l))].
  - intros l [Hl Hs]. rewrite firstn_all in Hl. auto.
  - split; [reflexivity|]. repeat split; auto.
  - intros k x l Hx [Hl Hs].
    pose proof (range_down_lookup _ _ _ Hx) as Hi.
    destruct Hs as (H1 & H2 & H3 & H4).
    eapply wp_mono; [|apply (preheat_body_wp nf self mass_flow_feed x l n); auto].
    + intros l' ->. split.
      * rewrite (take_S_r _ _ _ Hx), fold_left_app. cbn [fold_left]. now rewrite <- Hl.
      * apply preheat_update_shape. repeat split; auto.
    + apply Hlat. lia.
Qed.

Lemma zeros_length n : length (Py.zeros n) = n.
Proof. apply length_replicate. Qed.

Ltac fieldsi :=
  cbn [MEDModel.__init__ params n T_effect M_feed M_brine M_vapor S_brine A_effect
       M_total_distillate M_steam GOR As
       set_T_effect set_M_feed set_M_brine set_M_vapor set_S_brine set_A_effect
       set_M_total_distillate set_M_steam set_GOR set_As
       S_feed S_feed_dtype T_feed_in M_vapor_preheat
       set_S_feed set_T_feed_in set_M_vapor_preheat fst snd].

Lemma prepare_wp (nf : Prop) p :
  (1 <= MEDParameters.n_effects p)%nat ->
  (forall j, (j < MEDParameters.n_effects p)%nat ->
     _latent_heat (ladder_temp p j) == 0 -> nf) ->
  wp no_exn nf (fun st => st = prepared p) (prepare (__init__ p)).
Proof.
  intros Hn Hlat. unfold prepare, _distribute_feed_water.
  apply wp_bind, wp_bind, wp_set; [fieldsi; rewrite zeros_length; lia|].
  cbn [wp Py.bind]. apply wp_bind.
  set (self0 := set_M_feed (__init__ p) _).
  eapply wp_mono;
    [|apply (ladder_loop_wp nf self0); subst self0;
      fieldsi; rewrite ?zeros_length; reflexivity].
  intros s ->. subst self0. fieldsi.
  apply wp_bind, wp_get; [rewrite length_insert, zeros_length; lia|].
  apply wp_bind, wp_set; [rewrite zeros_length; lia|].
  apply wp_bind.
  rewrite list_lookup_total_insert_eq by (rewrite zeros_length; lia).
  eapply wp_mono;
    [|apply (preheat_loop_wp nf _ (MEDParameters.M_feed p) _
               (MEDParameters.n_effects p))].
  - intros l [-> _]. reflexivity.
  - fieldsi. apply ladder_length.
  - fieldsi. now rewrite length_insert, zeros_length.
  - fieldsi. apply zeros_length.
  - intros j Hj. fieldsi. rewrite ladder_lookup by exact Hj.
    now apply Hlat.
Qed.

Lemma preheated_shape p :
  preheat_shape (MEDParameters.n_effects p) (initial_locals p) (preheated p).
Proof.
  unfold preheated.
  generalize (Py.range_down_to_1 (MEDParameters.n_effects p)) as xs.
  assert (H0 : preheat_shape (MEDParameters.n_effects p) (initial_locals p)
                 (initial_locals p)).
  { unfold preheat_shape, initial_locals. fieldsg.
    rewrite length_insert, !zeros_length. auto. }
  revert H0. generalize (initial_locals p) at 2 4 as l.
  intros l Hl xs. revert l Hl. induction xs as [|x xs IH]; intros l Hl; [exact Hl|].
  cbn [fold_left]. apply IH. now apply preheat_update_shape.
Qed.

Lemma prepared_inv p :
  (1 <= MEDParameters.n_effects p)%nat ->
  forward_inv p (M_vapor_preheat (preheated p)) (T_feed_in (preheated p) !!! 0%nat)
    0 (prepared p).
Proof.
  intros Hn. destruct (preheated_shape p) as (H1 & H2 & H3 & H4).
  split; [|intros j Hj; lia].
  unfold prepared, base, ladder_self. fieldsi.
  rewrite H1, H2. unfold initial_locals. fieldsi.
  rewrite !length_insert, !zeros_length, length_replicate.
  repeat split; auto.
  - now rewrite list_lookup_total_insert_eq by (rewrite zeros_length; lia).
  - now rewrite lookup_total_replicate_2 by lia.
Qed.

Lemma run_passes_wp (nf : Prop) p :
  (1 <= MEDParameters.n_effects p)%nat ->
  (forall j, (j < MEDParameters.n_effects p)%nat ->
     _latent_heat (ladder_temp p j) == 0 -> nf) ->
  (forall j, (j < MEDParameters.n_effects p)%nat ->
     _heat_transfer_coefficient_evaporator (ladder_temp p j) == 0 -> nf) ->
  wp no_exn nf (passes_post p) (run_passes (__init__ p)).
Proof.
  intros Hn Hlat Hhtc. unfold run_passes.
  apply wp_bind. eapply wp_mono; [|apply prepare_wp; assumption].
  intros st ->. unfold prepared at 1. fieldsg.
  eapply wp_mono;
    [|apply (wp_for_each no_exn nf
               (forward_inv p (M_vapor_preheat (preheated p))
                  (T_feed_in (preheated p) !!! 0%nat)))].
  - intros st. unfold passes_post, Py.range, ladder_self. fieldsg.
    now rewrite length_seq.
  - apply prepared_inv, Hn.
  - intros k x st Hx Hinv. unfold ladder_self in Hx. fieldsi.
    cbn [MEDModel.__init__ n set_M_feed set_T_effect] in Hx.
    apply range_lookup in Hx as [-> Hk].
    apply forward_body_wp; [exact Hk|exact Hinv|apply Hlat, Hk|apply Hhtc, Hk].
Qed.

Lemma wp_get_last E nf (P : Q -> Prop) a :
  (1 <= length a)%nat -> P (a !!! (length a - 1)%nat) -> wp E nf P (Py.get_last a).
Proof.
  intros Hlen HP. unfold Py.get_last. destruct a as [|x a]; [cbn in Hlen; lia|].
  apply wp_get; [cbn [length]; lia|exact HP].
Qed.

Lemma final_metrics_wp (nf : Prop) self :
  (1 <= length (S_brine self))%nat -> (1 <= length (T_effect self))%nat ->
  wp no_exn nf (metrics_post self) (final_metrics self).
Proof.
  intros LS LT. unfold final_metrics, metrics_post. fieldsg.
  apply wp_bind.
  destruct (gt_spec (M_steam self) 0) as [Hs|Hs].
  - apply wp_bind, wp_np_div; [intros H0; exfalso; lra|intros _].
    cbn [wp]. fieldsg. apply wp_bind.
    destruct (gt_spec (Py.sum (M_vapor self)) 0) as [Hd|Hd].
    + apply wp_bind, wp_np_div; [intros H0; exfalso; lra|intros _].
      cbn [wp]. fieldsg.
      apply wp_bind, wp_get_last; [exact LS|].
      apply wp_bind, wp_get; [lia|]. cbn [wp]. fieldsg.
      cbn [Results.GOR Results.As Results.M_total_distillate Results.M_steam
           Results.Q_nominal_W Results.A_total Results.WRR Results.S_brine_final
           Results.T_top].
      repeat split.
    + cbn [wp]. fieldsg.
      apply wp_bind, wp_get_last; [exact LS|].
      apply wp_bind, wp_get; [lia|]. cbn [wp]. fieldsg.
      cbn [Results.GOR Results.As Results.M_total_distillate Results.M_steam
           Results.Q_nominal_W Results.A_total Results.WRR Results.S_brine_final
           Results.T_top].
      repeat split.
  - cbn [wp]. fieldsg. apply wp_bind.
    destruct (gt_spec (Py.sum (M_vapor self)) 0) as [Hd|Hd].
    + apply wp_bind, wp_np_div; [intros H0; exfalso; lra|intros _].
      cbn [wp]. fieldsg.
      apply wp_bind, wp_get_last; [exact LS|].
      apply wp_bind, wp_get; [lia|]. cbn [wp]. fieldsg.
      cbn [Results.GOR Results.As Results.M_total_distillate Results.M_steam
           Results.Q_nominal_W Results.A_total Results.WRR Results.S_brine_final
           Results.T_top].
      repeat split.
    + cbn [wp]. fieldsg.
      apply wp_bind, wp_get_last; [exact LS|].
      apply wp_bind, wp_get; [lia|]. cbn [wp]. fieldsg.
      cbn [Results.GOR Results.As Results.M_total_distillate Results.M_steam
           Results.Q_nominal_W Results.A_total Results.WRR Results.S_brine_final
           Results.T_top].
      repeat split.
Qed.

Lemma solve_wp (nf : Prop) p :
  (1 <= MEDParameters.n_effects p)%nat ->
  (forall j, (j < MEDParameters.n_effects p)%nat ->
     _latent_heat (ladder_temp p j) == 0 -> nf) ->
  (forall j, (j < MEDParameters.n_effects p)%nat ->
     _heat_transfer_coefficient_evaporator (ladder_temp p j) == 0 -> nf) ->
  wp no_exn nf
    (fun out => exists st, run_passes (__init__ p) = Ok st /\
                  passes_post p st /\ metrics_post st.1 out)
    (solve (__init__ p)).
Proof.
  intros Hn Hlat Hhtc. unfold solve.
  pose proof (run_passes_wp nf p Hn Hlat Hhtc) as Hrun.
  destruct (run_passes (__init__ p)) as [[self l]| |]; cbn [wp Py.bind] in *; auto.
  eapply wp_mono; [|apply final_metrics_wp].
  - intros out Hout. exists (self, l). auto.
  - destruct Hrun as [Hbase _]. unfold base in Hbase. lia.
  - destruct Hrun as [Hbase _]. unfold base in Hbase.
    destruct Hbase as (_ & _ & _ & -> & _). rewrite ladder_length. lia.
Qed.

Lemma wp_ok_inv {A} E (P : A -> Prop) o a : wp E True P o -> o = Ok a -> P a.
Proof. intros H ->. exact H. Qed.


Lemma run_passes_needs_an_effect p st :
  run_passes (__init__ p) = Ok st -> (1 <= MEDParameters.n_effects p)%nat.
Proof.
  intros H. destruct (MEDParameters.n_effects p) as [|n] eqn:En; [|lia].
  exfalso. revert H. unfold run_passes, prepare, _distribute_feed_water, Py.set.
  cbn [MEDModel.__init__ M_feed]. rewrite En. cbn. discriminate.
Qed.

Lemma run_passes_post p st :
  run_passes (__init__ p) = Ok st -> passes_post p st.
Proof.
  intros H. pose proof (run_passes_needs_an_effect p st H) as Hn.
  apply (wp_ok_inv no_exn _ _ _ (run_passes_wp True p Hn (fun _ _ _ => I)
                                    (fun _ _ _ => I)) H).
Qed.

Lemma solve_post p out :
  solve (__init__ p) = Ok out ->
  exists st, run_passes (__init__ p) = Ok st /\ passes_post p st /\
             metrics_post st.1 out.
Proof.
  intros H. unfold solve in H.
  destruct (run_passes (__init__ p)) as [[self l]| |] eqn:Hrun;
    cbn [Py.bind] in H; try discriminate.
  pose proof (run_passes_post p _ Hrun) as Hpost.
  pose proof (run_passes_needs_an_effect p _ Hrun) as Hn.
  exists (self, l). split; [reflexivity|]. split; [exact Hpost|].
  destruct Hpost as [Hbase _]. unfold base in Hbase.
  destruct Hbase as (_ & _ & _ & HT & _ & _ & Hlen & _).
  apply (wp_ok_inv no_exn _ _ _ (final_metrics_wp True self ltac:(lia)
           ltac:(rewrite HT, ladder_length; lia)) H).
Qed.

Lemma of_int_nonneg k : 0 <= Py.of_int k.
Proof. unfold Py.of_int. change 0 with (inject_Z 0). rewrite <- Zle_Qle. lia. Qed.

Lemma of_int_le j k : (j <= k)%nat -> Py.of_int j <= Py.of_int k.
Proof. intros H. unfold Py.of_int. rewrite <- Zle_Qle. lia. Qed.

Lemma of_int_plus_1 k : Py.of_int (k + 1) == Py.of_int k + 1.
Proof. replace (k + 1)%nat with (S k) by lia. apply of_int_S. Qed.

Lemma latent_heat_expand T :
  _latent_heat T == 2501000 - 2369 * T + (1676 # 1000) * (T * T)
                    - (1517 # 100000) * (T * T * T).
Proof. unfold _latent_heat. qnorm. ring. Qed.

Lemma latent_heat_pos T : 0 <= T -> T <= 100 -> 0 < _latent_heat T.
Proof.
  intros H0 H1. rewrite latent_heat_expand.
  assert (0 <= T * T) by nra.
  assert (T * T * T <= 100 * (T * T)) by nra.
  assert (T * T <= 100 * T) by nra.
  nra.
Qed.

Lemma latent_heat_decreasing a b :
  0 <= a -> a <= b -> b <= 100 -> _latent_heat b <= _latent_heat a.
Proof.
  intros H0 Hab H1. rewrite !latent_heat_expand.
  assert (Hfac : (2501000 - 2369 * a + (1676 # 1000) * (a * a)
                  - (1517 # 100000) * (a * a * a))
                 - (2501000 - 2369 * b + (1676 # 1000) * (b * b)
                    - (1517 # 100000) * (b * b * b))
                 == (b - a) * (2369 - (1676 # 1000) * (a + b)
                               + (1517 # 100000) * (a * a + a * b + b * b))) by ring.
  assert (0 <= a * a + a * b + b * b) by nra.
  assert (0 <= 2369 - (1676 # 1000) * (a + b)
               + (1517 # 100000) * (a * a + a * b + b * b)) by nra.
  nra.
Qed.

Lemma htc_pos T : 0 <= T -> 0 < _heat_transfer_coefficient_evaporator T.
Proof. intros H. unfold _heat_transfer_coefficient_evaporator. lra. Qed.

Lemma delta_T_total_nonneg p : operating_range p -> 0 <= delta_T_total p.
Proof.
  intros (Hn & _ & _ & _ & _ & Hdrop). unfold delta_T_total.
  apply Qle_shift_div_l; [|lra].
  pose proof (of_int_nonneg (MEDParameters.n_effects p)).
  rewrite of_int_plus_1. lra.
Qed.

Lemma delta_T_total_times p :
  delta_T_total p * (Py.of_int (MEDParameters.n_effects p) + 1)
  == MEDParameters.T_steam p - MEDParameters.T_cw p
     - Py.of_int (MEDParameters.n_effects p) * MEDParameters.BPE p.
Proof.
  unfold delta_T_total. rewrite of_int_plus_1.
  pose proof (of_int_nonneg (MEDParameters.n_effects p)).
  field. lra.
Qed.

Lemma ladder_temp_range p j :
  operating_range p -> (j < MEDParameters.n_effects p)%nat ->
  MEDParameters.T_cw p <= ladder_temp p j /\ ladder_temp p j <= MEDParameters.T_steam p.
Proof.
  intros Hop Hj. pose proof (delta_T_total_nonneg p Hop) as Hd.
  destruct Hop as (Hn & _ & Hb & _ & _ & Hdrop).
  pose proof (delta_T_total_times p) as Ht.
  pose proof (of_int_nonneg (j + 1)) as H0.
  pose proof (of_int_le (j + 1) (MEDParameters.n_effects p) ltac:(lia)) as H1.
  pose proof (of_int_le 1 (MEDParameters.n_effects p) Hn) as H2.
  change (Py.of_int 1) with 1 in H2.
  unfold ladder_temp. split; nra.
Qed.

Lemma ladder_temp_decreasing p i j :
  operating_range p -> (i <= j)%nat -> ladder_temp p j <= ladder_temp p i.
Proof.
  intros Hop Hij. pose proof (delta_T_total_nonneg p Hop) as Hd.
  pose proof (of_int_le (i + 1) (j + 1) ltac:(lia)) as H1.
  unfold ladder_temp. nra.
Qed.

(** Within the operating range every quotient of the passes is finite. *)
Lemma solve_returns (p : MEDParameters.t) :
  operating_range p ->
  exists self r, solve (__init__ p) = Ok (self, r).
Proof.
  intros Hop.
  assert (Hlad : forall j, (j < MEDParameters.n_effects p)%nat ->
            0 <= ladder_temp p j <= 100).
  { intros j Hj. destruct (ladder_temp_range p j Hop Hj).
    destruct Hop as (_ & _ & _ & Hc & Hs & _). lra. }
  pose proof (solve_wp False p) as H.
  destruct (wp_ok_elim _ _ (H ltac:(apply Hop) ltac:(intros j Hj H0;
      pose proof (Hlad j Hj); pose proof (latent_heat_pos (ladder_temp p j)); lra)
      ltac:(intros j Hj H0; pose proof (Hlad j Hj);
            pose proof (htc_pos (ladder_temp p j)); lra)))
    as ([self r] & Hs & _).
  eauto.
Qed.

Lemma lookup_of_total (a : list Q) i : (i < length a)%nat -> a !! i = Some (a !!! i).
Proof. apply list_lookup_lookup_total_lt. Qed.

(** C6.  After the passes of a solve, for every effect [i]: the feed flow is
    the brine flow plus the vapor flow, the brine salinity is
    [feed * S_in / brine] when [brine > 1e-6], and it is the inlet salinity
    unchanged otherwise.  [S_in] is the entry of the local array [S_feed]. *)
Theorem mass_and_salt_balance (p : MEDParameters.t) (self : t) (l : locals) :
  run_passes (__init__ p) = Ok (self, l) ->
  forall i, (i < MEDParameters.n_effects p)%nat ->
  exists feed brine vapor S_in S_out,
    M_feed self !! i = Some feed /\ M_brine self !! i = Some brine /\
    M_vapor self !! i = Some vapor /\ S_feed l !! i = Some S_in /\
    S_brine self !! i = Some S_out /\
    feed == brine + vapor /\
    (1e-6 < brine -> S_out == feed * S_in / brine) /\
    (brine <= 1e-6 -> S_out = S_in).
Proof.
  intros Hrun i Hi.
  destruct (run_passes_post p _ Hrun) as [Hbase Hrows].
  destruct Hbase as (_ & _ & _ & _ & _ & _ & Hlen & _).
  destruct (Hrows i Hi) as (_ & HB & HS & _).
  exists (M_feed self !!! i), (M_brine self !!! i), (M_vapor self !!! i),
    (S_feed l !!! i), (S_brine self !!! i).
  rewrite !lookup_of_total by lia.
  repeat split; try reflexivity.
  - rewrite HB. ring.
  - intros H. rewrite HS, gt_true by exact H. reflexivity.
  - intros H. rewrite HS, gt_false by exact H. reflexivity.
Qed.

Lemma ladder_after_solve p self r :
  solve (__init__ p) = Ok (self, r) ->
  (forall i, (i < MEDParameters.n_effects p)%nat ->
     T_effect self !! i = Some (ladder_temp p i)) /\
  Results.T_top r = ladder_temp p 0.
Proof.
  intros Hsolve.
  destruct (solve_post p _ Hsolve) as ([self0 l] & Hrun & [Hbase _] & Hm).
  pose proof (run_passes_needs_an_effect p _ Hrun) as Hn.
  destruct Hbase as (_ & _ & _ & HT & _).
  destruct Hm as ((HT' & _) & _ & _ & _ & _ & _ & _ & _ & _ & Htop).
  cbn [fst] in HT', Htop. rewrite HT in HT', Htop.
  split.
  - intros i Hi. rewrite HT', lookup_of_total by (rewrite ladder_length; exact Hi).
    rewrite ladder_lookup by exact Hi. reflexivity.
  - rewrite Htop, ladder_lookup by lia. reflexivity.
Qed.

(** C7.  After a solve, effect [i] boils at
    [T_steam - (i + 1) * delta - BPE] with
    [delta = (T_steam - T_cw - n * BPE) / (n + 1)]; with 8 effects,
    [T_steam = 70], [T_cw = 20] and [BPE = 0.8] the top temperature is
    [5792 / 90], within 0.005 of 64.36. *)
Theorem effect_temperature_ladder (p : MEDParameters.t) (self : t) (r : Results.t) :
  solve (__init__ p) = Ok (self, r) ->
  (forall i, (i < MEDParameters.n_effects p)%nat ->
     T_effect self !! i =
       Some (MEDParameters.T_steam p - Py.of_int (i + 1) * delta_T_total p
             - MEDParameters.BPE p)) /\
  (MEDParameters.n_effects p = 8%nat -> MEDParameters.T_steam p == 70 ->
   MEDParameters.T_cw p == 20 -> MEDParameters.BPE p == 0.8 ->
   Results.T_top r == 5792 # 90 /\ Qabs (Results.T_top r - 64.36) <= 0.005).
Proof.
  intros Hsolve. destruct (ladder_after_solve p self r Hsolve) as [Hlad Htop].
  split; [exact Hlad|].
  intros H8 Hs Hc Hb.
  assert (Htop' : Results.T_top r == 5792 # 90).
  { rewrite Htop. unfold ladder_temp, delta_T_total.
    rewrite H8, Hs, Hc, Hb. vm_compute. reflexivity. }
  split; [exact Htop'|]. rewrite Htop'. vm_compute. discriminate.
Qed.

(** C8, amended.  After a solve, if the total temperature drop exceeds the
    boiling point elevations, [n * BPE < T_steam - T_cw], then the effect
    temperatures strictly decrease with the effect index. *)
Theorem temperatures_strictly_decrease (p : MEDParameters.t) (self : t) (r : Results.t) :
  solve (__init__ p) = Ok (self, r) ->
  Py.of_int (MEDParameters.n_effects p) * MEDParameters.BPE p
    < MEDParameters.T_steam p - MEDParameters.T_cw p ->
  forall i, (i + 1 < MEDParameters.n_effects p)%nat ->
  exists hotter colder,
    T_effect self !! i = Some hotter /\ T_effect self !! (i + 1)%nat = Some colder /\
    colder < hotter.
Proof.
  intros Hsolve Hdrop i Hi.
  destruct (ladder_after_solve p self r Hsolve) as [Hlad _].
  eexists. eexists. split; [apply Hlad; lia|]. split; [apply Hlad; lia|].
  unfold ladder_temp.
  assert (Hpos : 0 < Py.of_int (MEDParameters.n_effects p + 1)).
  { unfold Py.of_int. change 0 with (inject_Z 0). rewrite <- Zlt_Qlt. lia. }
  assert (Hd : 0 < delta_T_total p).
  { unfold delta_T_total. apply Qlt_shift_div_l; [exact Hpos|]. lra. }
  replace (i + 1 + 1)%nat with (S (i + 1)) by lia. rewrite of_int_S. nra.
Qed.

Lemma max_0_spec x :
  0 <= Py.max 0.0 x /\ (0 <= x -> Py.max 0.0 x == x) /\ (x <= 0 -> Py.max 0.0 x == 0).
Proof. unfold Py.max. destruct (gt_spec x 0.0); repeat split; intros; lra. Qed.

(** C4, amended.  After the passes of a solve, for every stage [i] in
    [1 .. n - 1], the heating vapor of effect [i] is the vapor produced by
    effect [i - 1] minus the extraction recorded for it, floored at zero: it
    is the remainder when the extraction does not exceed the production, and
    nothing otherwise; and the vapor of effect [i] is computed from that
    heating vapor. *)
Theorem heating_vapor_is_floored_remainder (p : MEDParameters.t) (self : t) (l : locals) :
  run_passes (__init__ p) = Ok (self, l) ->
  forall i, (1 <= i < MEDParameters.n_effects p)%nat ->
  exists produced extracted T_prev T_i vapor,
    M_vapor self !! (i - 1)%nat = Some produced /\
    M_vapor_preheat l !! (i - 1)%nat = Some extracted /\
    T_effect self !! (i - 1)%nat = Some T_prev /\
    T_effect self !! i = Some T_i /\
    M_vapor self !! i = Some vapor /\
    let heating := Py.max 0.0 (produced - extracted) in
    0 <= heating /\
    (extracted <= produced -> heating == produced - extracted) /\
    (produced <= extracted -> heating == 0) /\
    vapor = Py.max 0.0 ((heating * _latent_heat T_prev - sensible_heat_at self l i)
                        / _latent_heat T_i).
Proof.
  intros Hrun i Hi.
  destruct (run_passes_post p _ Hrun) as [Hbase Hrows].
  destruct Hbase as (_ & _ & _ & HT & HE & _ & Hlen & _).
  destruct (Hrows i ltac:(lia)) as (HV & _).
  assert (LT : length (T_effect self) = MEDParameters.n_effects p)
    by (rewrite HT; apply ladder_length).
  exists (M_vapor self !!! (i - 1)%nat), (M_vapor_preheat l !!! (i - 1)%nat),
    (T_effect self !!! (i - 1)%nat), (T_effect self !!! i), (M_vapor self !!! i).
  rewrite !lookup_of_total by (rewrite ?HE; lia).
  repeat split; try reflexivity.
  - apply max_0_spec.
  - intros H. apply max_0_spec. lra.
  - intros H. apply max_0_spec. lra.
  - rewrite HV at 1. unfold Q_input_at.
    destruct (Nat.eqb_spec i 0) as [Hi0|_]; [lia|]. reflexivity.
Qed.

(** The two-effect plant runs, and has one stage to which C4 applies. *)
Lemma heating_vapor_is_floored_remainder_witness :
  exists self l,
    run_passes (__init__ two_effects) = Ok (self, l) /\
    forall i, (1 <= i < 2)%nat ->
    exists produced extracted T_prev T_i vapor,
      M_vapor self !! (i - 1)%nat = Some produced /\
      M_vapor_preheat l !! (i - 1)%nat = Some extracted /\
      T_effect self !! (i - 1)%nat = Some T_prev /\
      T_effect self !! i = Some T_i /\
      M_vapor self !! i = Some vapor /\
      let heating := Py.max 0.0 (produced - extracted) in
      0 <= heating /\
      (extracted <= produced -> heating == produced - extracted) /\
      (produced <= extracted -> heating == 0) /\
      vapor = Py.max 0.0 ((heating * _latent_heat T_prev - sensible_heat_at self l i)
                          / _latent_heat T_i).
Proof.
  destruct (run_passes (__init__ two_effects)) as [[self l]| |] eqn:Hrun;
    [|vm_compute in Hrun; discriminate Hrun..].
  exists self, l. split; [reflexivity|].
  exact (heating_vapor_is_floored_remainder two_effects self l Hrun).
Defined.

(** C4 as stated fails on the two-effect plant: more vapor is recorded as
    extracted from effect 0 than effect 0 produces. *)
Lemma extraction_exceeds_vapor_counterexample :
  exists self l produced extracted,
    run_passes (__init__ two_effects) = Ok (self, l) /\
    M_vapor self !! 0%nat = Some produced /\
    M_vapor_preheat l !! 0%nat = Some extracted /\
    produced < extracted /\
    ~ extracted <= produced.
Proof.
  destruct (run_passes (__init__ two_effects)) as [[self l]| |] eqn:Hrun;
    [|vm_compute in Hrun; discriminate Hrun..].
  vm_compute in Hrun. injection Hrun as <- <-.
  do 4 eexists. split; [reflexivity|]. split; [reflexivity|]. split; [reflexivity|].
  split; [vm_compute; reflexivity|]. vm_compute. intros H. apply H. reflexivity.
Qed.

Lemma square_nonneg (x : Q) : 0 <= x * x.
Proof.
  destruct (Qlt_le_dec x 0) as [H|H].
  - assert (E : x * x == (- x) * (- x)) by ring.
    rewrite E. apply Qmult_le_0_compat; lra.
  - apply Qmult_le_0_compat; lra.
Qed.

Lemma specific_heat_nonneg T S :
  0 <= T -> 0 <= S -> S <= 70000 -> 0 <= _specific_heat_capacity T S.
Proof.
  intros HT H0 H1. unfold _specific_heat_capacity.
  assert (E : 4187 - 7.55 * T + 0.046 * T ^ 2 + S / 1000 * (- 54.6 + 0.38 * T)
              == (46 # 1000) * ((T - (3775 # 46)) * (T - (3775 # 46)))
                 + (178351375 # 46000) - (546 # 10000) * S
                 + (38 # 100000) * (S * T)) by (qnorm; ring).
  rewrite E. pose proof (square_nonneg (T - (3775 # 46))).
  assert (0 <= S * T) by (apply Qmult_le_0_compat; assumption). lra.
Qed.

Lemma ladder_self_T_effect p i :
  (i < MEDParameters.n_effects p)%nat ->
  T_effect (ladder_self p) !!! i = ladder_temp p i.
Proof. intros Hi. unfold ladder_self. fieldsi. now apply ladder_lookup. Qed.

Lemma ladder_temp_0_100 p j :
  operating_range p -> (j < MEDParameters.n_effects p)%nat ->
  0 <= ladder_temp p j <= 100.
Proof.
  intros Hop Hj. destruct (ladder_temp_range p j Hop Hj).
  destruct Hop as (_ & _ & _ & Hc & Hs & _). lra.
Qed.

Lemma lookup_total_insert_cases (a : list Q) i j v :
  <[i := v]> a !!! j = v \/ <[i := v]> a !!! j = a !!! j.
Proof.
  destruct (Nat.eq_dec i j) as [->|Hij].
  - destruct (Nat.lt_ge_cases j (length a)).
    + left. now apply list_lookup_total_insert_eq.
    + right. now rewrite list_insert_ge by lia.
  - right. now apply list_lookup_total_insert_ne.
Qed.

Lemma preheat_update_nonneg p l i :
  operating_range p -> brine_range p ->
  (1 <= i < MEDParameters.n_effects p)%nat ->
  (forall j, 0 <= M_vapor_preheat l !!! j) ->
  MEDParameters.T_feed p <= T_feed_in l !!! 0%nat ->
  length (T_feed_in l) = MEDParameters.n_effects p ->
  let l' := preheat_update (ladder_self p) (MEDParameters.M_feed p) l i in
  (forall j, 0 <= M_vapor_preheat l' !!! j) /\
  MEDParameters.T_feed p <= T_feed_in l' !!! 0%nat /\
  length (T_feed_in l') = MEDParameters.n_effects p.
Proof.
  intros Hop (HTf & HS & _) Hi HE HT0 Hlen. unfold preheat_update.
  change (params (ladder_self p)) with p.
  destruct (gt_spec (T_effect (ladder_self p) !!! i - MEDParameters.TTD_preheater p)
              (T_feed_in l !!! 0%nat)) as [Hgt|_]; [|auto].
  fieldsi. rewrite length_insert.
  rewrite list_lookup_total_insert_eq by lia.
  split; [|split; [lra|exact Hlen]].
  intros j.
  destruct (lookup_total_insert_cases (M_vapor_preheat l) (i - 1) j
              (MEDParameters.M_feed p
               * _specific_heat_capacity
                   ((T_effect (ladder_self p) !!! i - MEDParameters.TTD_preheater p
                     + T_feed_in l !!! 0%nat) / 2)
                   (Py.val (MEDParameters.S_feed p))
               * (T_effect (ladder_self p) !!! i - MEDParameters.TTD_preheater p
                  - T_feed_in l !!! 0%nat)
               / _latent_heat (T_effect (ladder_self p) !!! (i - 1)%nat)))
    as [-> | ->]; [|apply HE].
  rewrite !ladder_self_T_effect in * by lia.
  pose proof (ladder_temp_0_100 p (i - 1) Hop ltac:(lia)) as Hr.
  pose proof (latent_heat_pos _ (proj1 Hr) (proj2 Hr)) as Hlam.
  apply Qle_shift_div_l; [exact Hlam|].
  assert (HCp : 0 <= _specific_heat_capacity
                       ((ladder_temp p i - MEDParameters.TTD_preheater p
                         + T_feed_in l !!! 0%nat) / 2)
                       (Py.val (MEDParameters.S_feed p))).
  { apply specific_heat_nonneg; try lra. qnorm. lra. }
  destruct Hop as (_ & HM & _).
  assert (0 <= MEDParameters.M_feed p * _specific_heat_capacity
                   ((ladder_temp p i - MEDParameters.TTD_preheater p
                     + T_feed_in l !!! 0%nat) / 2)
                   (Py.val (MEDParameters.S_feed p))) by nra.
  nra.
Qed.

Lemma preheated_nonneg p :
  operating_range p -> brine_range p ->
  forall j, 0 <= M_vapor_preheat (preheated p) !!! j.
Proof.
  intros Hop Hbr. unfold preheated.
  assert (Hxs : Forall (fun i => (1 <= i < MEDParameters.n_effects p)%nat)
                  (Py.range_down_to_1 (MEDParameters.n_effects p))).
  { apply Forall_lookup. intros k x Hx. now apply range_down_lookup in Hx. }
  revert Hxs. generalize (Py.range_down_to_1 (MEDParameters.n_effects p)) as xs.
  assert (H0 : (forall j, 0 <= M_vapor_preheat (initial_locals p) !!! j) /\
               MEDParameters.T_feed p <= T_feed_in (initial_locals p) !!! 0%nat /\
               length (T_feed_in (initial_locals p)) = MEDParameters.n_effects p).
  { unfold initial_locals. fieldsi. rewrite length_insert, zeros_length.
    destruct Hop as (Hn & _).
    rewrite list_lookup_total_insert_eq by (rewrite zeros_length; lia).
    repeat split; try lra.
    intros j. unfold Py.zeros.
    destruct (Nat.lt_ge_cases j (MEDParameters.n_effects p)).
    - rewrite lookup_total_replicate_2 by lia. lra.
    - rewrite list_lookup_total_alt, (proj1 (lookup_replicate_None _ _ _)) by lia.
      cbn. lra. }
  revert H0. generalize (initial_locals p) as l.
  intros l Hl xs. revert l Hl.
  induction xs as [|x xs IH]; intros l Hl Hxs; [apply Hl|].
  apply Forall_cons in Hxs as [Hx Hxs]. cbn [fold_left].
  apply IH; [|exact Hxs].
  destruct Hl as (H1 & H2 & H3).
  apply (preheat_update_nonneg p l x Hop Hbr Hx H1 H2 H3).
Qed.

Lemma vapor_energy_bound lam Qin sens B :
  0 < lam -> 0 <= sens -> Qin <= B -> 0 <= B ->
  0 <= Py.max 0.0 ((Qin - sens) / lam) /\
  Py.max 0.0 ((Qin - sens) / lam) * lam <= B.
Proof.
  intros Hl Hs HQ HB. split; [apply max_0_spec|].
  unfold Py.max. destruct (gt_spec ((Qin - sens) / lam) 0.0) as [Hq|Hq].
  - assert (E : (Qin - sens) / lam * lam == Qin - sens) by (field; lra).
    rewrite E. lra.
  - lra.
Qed.

Lemma steam_target_nonneg p :
  0 <= MEDParameters.M_feed p -> 0 <= MEDParameters.M_feed p * 0.12 / 5.14.
Proof. intros H. qnorm. lra. Qed.

Lemma steam_temperature_range p :
  operating_range p -> 0 <= MEDParameters.T_steam p <= 100.
Proof.
  intros (Hn & _ & Hb & Hc & Hs & Hdrop).
  pose proof (of_int_nonneg (MEDParameters.n_effects p)). split; [nra|lra].
Qed.

(** Every effect evaporates at most the steam target, so the feed loses at
    most that much per effect. *)
Lemma forward_bounds p self l :
  passes_post p (self, l) -> operating_range p -> brine_range p ->
  forall i, (i < MEDParameters.n_effects p)%nat ->
  0 <= M_vapor self !!! i /\
  M_vapor self !!! i * _latent_heat (ladder_temp p i)
    <= M_steam self * _latent_heat (MEDParameters.T_steam p) /\
  MEDParameters.M_feed p - Py.of_int i * M_steam self <= M_feed self !!! i.
Proof.
  intros [Hbase Hrows] Hop Hbr.
  destruct Hbase as (Hp & Hn & Hsteam & HT & HE & _ & Hlen & HF0 & _).
  pose proof (steam_temperature_range p Hop) as HTs.
  pose proof (latent_heat_pos _ (proj1 HTs) (proj2 HTs)) as Hls.
  assert (HMs : 0 <= M_steam self).
  { rewrite Hsteam. apply steam_target_nonneg, Hop. }
  assert (HB : 0 <= M_steam self * _latent_heat (MEDParameters.T_steam p)) by nra.
  assert (Hlam : forall j, (j < MEDParameters.n_effects p)%nat ->
            0 < _latent_heat (ladder_temp p j) /\
            _latent_heat (MEDParameters.T_steam p) <= _latent_heat (ladder_temp p j)).
  { intros j Hj. pose proof (ladder_temp_0_100 p j Hop Hj) as Hr.
    destruct (ladder_temp_range p j Hop Hj) as [_ Hup].
    split; [apply latent_heat_pos; lra|apply latent_heat_decreasing; lra]. }
  induction i as [|i IH]; intros Hi.
  - destruct (Hrows 0%nat Hi) as (HV & _).
    unfold Q_input_at in HV. cbn [Nat.eqb] in HV.
    rewrite HT, ladder_lookup, Hp in HV by exact Hi.
    rewrite HV, HF0, of_int_0.
    destruct (vapor_energy_bound (_latent_heat (ladder_temp p 0))
                (M_steam self * _latent_heat (MEDParameters.T_steam p))
                (sensible_heat_at self l 0)
                (M_steam self * _latent_heat (MEDParameters.T_steam p))
                (proj1 (Hlam 0%nat Hi)) (proj1 (max_0_spec _))
                ltac:(lra) HB)
      as [H1 H2].
    repeat split; [exact H1|exact H2|lra].
  - destruct (IH ltac:(lia)) as (IH1 & IH2 & IH3).
    destruct (Hrows i ltac:(lia)) as (_ & HBi & _ & _ & _ & Hnext).
    destruct (Hrows (S i) Hi) as (HV & _).
    unfold Q_input_at in HV. cbn [Nat.eqb] in HV.
    replace (S i - 1)%nat with i in HV by lia.
    rewrite HT, !ladder_lookup in HV by lia.
    rewrite Hn in Hnext. destruct (Hnext ltac:(lia)) as [HF _].
    replace (i + 1)%nat with (S i) in HF by lia.
    destruct (Hlam i ltac:(lia)) as [Hli Hlsi].
    destruct (Hlam (S i) Hi) as [HlS _].
    pose proof (preheated_nonneg p Hop Hbr i) as He. rewrite <- HE in He.
    destruct (max_0_spec (M_vapor self !!! i - M_vapor_preheat l !!! i))
      as (Hm0 & Hm1 & Hm2).
    assert (Hheat : Py.max 0.0 (M_vapor self !!! i - M_vapor_preheat l !!! i)
                    <= M_vapor self !!! i).
    { destruct (Qlt_le_dec (M_vapor self !!! i - M_vapor_preheat l !!! i) 0);
        [rewrite Hm2 by lra; lra|rewrite Hm1 by lra; lra]. }
    assert (HQ : Py.max 0.0 (M_vapor self !!! i - M_vapor_preheat l !!! i)
                 * _latent_heat (ladder_temp p i)
                 <= M_steam self * _latent_heat (MEDParameters.T_steam p)).
    { assert (0 <= (M_vapor self !!! i
                    - Py.max 0.0 (M_vapor self !!! i - M_vapor_preheat l !!! i))
                   * _latent_heat (ladder_temp p i))
        by (apply Qmult_le_0_compat; lra).
      lra. }
    destruct (vapor_energy_bound (_latent_heat (ladder_temp p (S i)))
                (Py.max 0.0 (M_vapor self !!! i - M_vapor_preheat l !!! i)
                 * _latent_heat (ladder_temp p i))
                (sensible_heat_at self l (S i))
                (M_steam self * _latent_heat (MEDParameters.T_steam p))
                HlS (proj1 (max_0_spec _)) HQ HB)
      as [H1 H2].
    rewrite HV, HF, HBi, of_int_S.
    repeat split; [exact H1|exact H2|].
    assert (Hcap : M_vapor self !!! i <= M_steam self).
    { assert (M_steam self * _latent_heat (MEDParameters.T_steam p)
              <= M_steam self * _latent_heat (ladder_temp p i)) by nra.
      destruct (Qlt_le_dec (M_steam self) (M_vapor self !!! i)) as [Hlt|Hle];
        [|exact Hle].
      assert (0 < (M_vapor self !!! i - M_steam self)
                  * _latent_heat (ladder_temp p i))
        by (apply Qmult_lt_0_compat; lra).
      lra. }
    lra.
Qed.

Lemma Forall_total (P : Q -> Prop) (a : list Q) :
  (forall i, (i < length a)%nat -> P (a !!! i)) -> Forall P a.
Proof.
  intros H. apply Forall_lookup. intros i x Hx.
  pose proof (lookup_lt_Some _ _ _ Hx) as Hi.
  apply list_lookup_total_correct in Hx. rewrite <- Hx. now apply H.
Qed.




Lemma default_in_operating_range : operating_range MEDParameters.default.
Proof.
  unfold operating_range. cbn [MEDParameters.default MEDParameters.n_effects
    MEDParameters.M_feed MEDParameters.BPE MEDParameters.T_cw MEDParameters.T_steam].
  repeat split; try lia; vm_compute; discriminate.
Qed.

Lemma default_in_brine_range : brine_range MEDParameters.default.
Proof.
  unfold brine_range. cbn [MEDParameters.default MEDParameters.n_effects
    MEDParameters.T_feed MEDParameters.S_feed Py.val].
  repeat split; try lia; vm_compute; discriminate.
Qed.






(** The two guarded ratios, and the one that is not. *)
Lemma ratios_of_a_solve p self r :
  solve (__init__ p) = Ok (self, r) ->
  (Results.M_steam r <= 0 -> Results.GOR r == 0) /\
  (Results.M_total_distillate r <= 0 -> Results.As r == 0) /\
  (MEDParameters.M_feed p == 0 <-> Results.WRR r = None).
Proof.
  intros Hsolve.
  destruct (solve_post p _ Hsolve) as ([self0 l] & Hrun & [Hbase _] & Hm).
  destruct Hbase as (Hp & _).
  destruct Hm as (_ & HD & HS & HG & _ & HA & _ & HW & _). cbn [fst] in *.
  rewrite HD, HS, HG, HA, HW, Hp. split; [|split].
  - intros H. rewrite gt_false by exact H. reflexivity.
  - intros H. rewrite gt_false by exact H. reflexivity.
  - unfold Py.np_div_stored.
    destruct (eq_spec (MEDParameters.M_feed p) 0) as [H0|H0]; cbn [option_map].
    + split; auto.
    + split; [intros H; contradiction|discriminate].
Qed.

(** C9, at a zero feed flow.  The solve returns without an exception and
    reports [GOR = 0] and [As = 0] through their guards, but the water
    recovery ratio is the unguarded quotient of zero by zero: it is not
    finite, and in particular not 0. *)
Theorem zero_feed_recovery_ratio_is_not_finite :
  exists self r,
    solve (__init__ zero_feed) = Ok (self, r) /\
    Results.M_steam r == 0 /\ Results.M_total_distillate r == 0 /\
    Results.GOR r == 0 /\ Results.As r == 0 /\
    Results.WRR r = None /\ Results.WRR r <> Some 0.
Proof.
  destruct (solve (__init__ zero_feed)) as [[self r]| |] eqn:Hsolve;
    [|vm_compute in Hsolve; discriminate Hsolve..].
  exists self, r. split; [reflexivity|].
  destruct (ratios_of_a_solve zero_feed self r Hsolve) as (HG & HA & HW).
  vm_compute in Hsolve. injection Hsolve as <- <-.
  repeat split; try reflexivity. discriminate.
Qed.

(** C8 as stated fails when the drop does not cover the boiling point
    elevations: the second effect is hotter than the first. *)
Lemma temperatures_increase_counterexample :
  exists self r first second,
    solve (__init__ flat_ladder) = Ok (self, r) /\
    T_effect self !! 0%nat = Some first /\
    T_effect self !! 1%nat = Some second /\
    first < second /\ ~ second < first.
Proof.
  destruct (solve (__init__ flat_ladder)) as [[self r]| |] eqn:Hsolve;
    [|vm_compute in Hsolve; discriminate Hsolve..].
  vm_compute in Hsolve. injection Hsolve as <- <-.
  do 4 eexists. split; [reflexivity|]. split; [reflexivity|]. split; [reflexivity|].
  split; [vm_compute; reflexivity|]. vm_compute. discriminate.
Qed.

(** The default plant: a drop of 50 against 6.4. *)
Lemma temperatures_strictly_decrease_witness :
  exists self r,
    solve (__init__ MEDParameters.default) = Ok (self, r) /\
    forall i, (i + 1 < 8)%nat ->
    exists hotter colder,
      T_effect self !! i = Some hotter /\ T_effect self !! (i + 1)%nat = Some colder /\
      colder < hotter.
Proof.
  destruct (solve_returns MEDParameters.default default_in_operating_range)
    as (self & r & Hsolve).
  exists self, r. split; [exact Hsolve|].
  apply (temperatures_strictly_decrease MEDParameters.default self r Hsolve).
  vm_compute. reflexivity.
Defined.

(** The scenario of C7 is the default plant. *)
Lemma effect_temperature_ladder_witness :
  exists self r,
    solve (__init__ MEDParameters.default) = Ok (self, r) /\
    (forall i, (i < 8)%nat ->
       T_effect self !! i =
         Some (70.0 - Py.of_int (i + 1) * delta_T_total MEDParameters.default - 0.8)) /\
    Results.T_top r == 5792 # 90 /\ Qabs (Results.T_top r - 64.36) <= 0.005.
Proof.
  destruct (solve_returns MEDParameters.default default_in_operating_range)
    as (self & r & Hsolve).
  exists self, r. split; [exact Hsolve|].
  destruct (effect_temperature_ladder MEDParameters.default self r Hsolve)
    as [Hlad Htop].
  split; [exact Hlad|].
  apply Htop; vm_compute; reflexivity.
Defined.

(** The two-effect plant runs, so C6 speaks about its two effects. *)
Lemma mass_and_salt_balance_witness :
  exists self l,
    run_passes (__init__ two_effects) = Ok (self, l) /\
    forall i, (i < 2)%nat ->
    exists feed brine vapor S_in S_out,
      M_feed self !! i = Some feed /\ M_brine self !! i = Some brine /\
      M_vapor self !! i = Some vapor /\ S_feed l !! i = Some S_in /\
      S_brine self !! i = Some S_out /\
      feed == brine + vapor /\
      (1e-6 < brine -> S_out == feed * S_in / brine) /\
      (brine <= 1e-6 -> S_out = S_in).
Proof.
  destruct (run_passes (__init__ two_effects)) as [[self l]| |] eqn:Hrun;
    [|vm_compute in Hrun; discriminate Hrun..].
  exists self, l. split; [reflexivity|].
  exact (mass_and_salt_balance two_effects self l Hrun).
Defined.

(** Forward feed: the brine of one effect is the feed of the next, and its
    salinity goes through the element type of [S_feed]. *)
Lemma forward_feed_propagation p self l i :
  run_passes (__init__ p) = Ok (self, l) ->
  (i + 1 < MEDParameters.n_effects p)%nat ->
  exists brine S_out,
    M_brine self !! i = Some brine /\ S_brine self !! i = Some S_out /\
    M_feed self !! (i + 1)%nat = Some brine /\
    S_feed l !! (i + 1)%nat
      = Some (Py.cast (Py.dtype_of (MEDParameters.S_feed p)) S_out).
Proof.
  intros Hrun Hi.
  destruct (run_passes_post p _ Hrun) as [Hbase Hrows].
  destruct Hbase as (_ & Hn & _ & _ & _ & Hd & Hlen & _).
  destruct (Hrows i ltac:(lia)) as (_ & _ & _ & _ & _ & Hnext).
  rewrite Hn in Hnext. destruct (Hnext Hi) as [HF HS].
  exists (M_brine self !!! i), (S_brine self !!! i).
  rewrite !lookup_of_total by lia. rewrite HF, HS, Hd. auto.
Qed.

(** *** Balances, bounds and edge cases of a solve *)

(** What a solve that returns leaves behind, in one place. *)
Lemma solve_inv p self r :
  solve (__init__ p) = Ok (self, r) ->
  exists self0 l,
    run_passes (__init__ p) = Ok (self0, l) /\ passes_post p (self0, l) /\
    metrics_post self0 (self, r) /\
    (1 <= MEDParameters.n_effects p)%nat.
Proof.
  intros Hsolve. destruct (solve_post p _ Hsolve) as ([self0 l] & Hrun & Hpost & Hm).
  exists self0, l. split; [exact Hrun|]. split; [exact Hpost|]. split; [exact Hm|].
  apply (run_passes_needs_an_effect p _ Hrun).
Qed.

Lemma take_S_total (a : list Q) k :
  (k < length a)%nat -> take (S k) a = take k a ++ [a !!! k].
Proof.
  intros Hk. apply take_S_r. now apply list_lookup_lookup_total_lt.
Qed.

(** Telescoping the per-effect balances: the vapor of effects [0 .. k] and
    the brine of effect [k] make up the feed. *)
Lemma mass_telescope p self l :
  passes_post p (self, l) ->
  forall k, (k < MEDParameters.n_effects p)%nat ->
  Py.sum (take (S k) (M_vapor self)) + M_brine self !!! k == MEDParameters.M_feed p.
Proof.
  intros [Hbase Hrows].
  destruct Hbase as (_ & Hn & _ & _ & _ & _ & Hlen & HF0 & _).
  induction k as [|k IH]; intros Hk.
  - destruct (Hrows 0%nat Hk) as (_ & HB & _).
    rewrite take_S_total by lia. rewrite take_0. cbn [app]. rewrite HB, HF0.
    unfold Py.sum. cbn [fold_right]. ring.
  - destruct (Hrows (S k) Hk) as (_ & HB & _).
    destruct (Hrows k ltac:(lia)) as (_ & _ & _ & _ & _ & Hnext).
    rewrite Hn in Hnext. destruct (Hnext ltac:(lia)) as [HF _].
    replace (k + 1)%nat with (S k) in HF by lia.
    rewrite (take_S_total _ (S k)) by lia. rewrite sum_snoc, HB, HF.
    specialize (IH ltac:(lia)). lra.
Qed.

(** X9.  Overall mass balance of a solve: the total distillate and the brine
    leaving the last effect make up the feed flow. *)
Theorem distillate_and_last_brine_make_up_the_feed (p : MEDParameters.t) (self : t)
    (r : Results.t) :
  solve (__init__ p) = Ok (self, r) ->
  exists brine,
    M_brine self !! (MEDParameters.n_effects p - 1)%nat = Some brine /\
    Results.M_total_distillate r + brine == MEDParameters.M_feed p.
Proof.
  intros Hsolve.
  destruct (solve_inv p self r Hsolve) as (self0 & l & _ & Hpost & Hm & Hn).
  pose proof (mass_telescope p self0 l Hpost (MEDParameters.n_effects p - 1)
                ltac:(lia)) as Htel.
  destruct Hpost as [Hbase _].
  destruct Hbase as (_ & _ & _ & _ & _ & _ & Hlen & _).
  destruct Hm as ((_ & _ & HB & _) & HD & _).
  exists (M_brine self0 !!! (MEDParameters.n_effects p - 1)%nat).
  rewrite HB, lookup_of_total by lia. split; [reflexivity|].
  rewrite HD. rewrite take_ge in Htel by lia. exact Htel.
Qed.

Lemma distillate_and_last_brine_make_up_the_feed_witness :
  exists self r brine,
    solve (__init__ MEDParameters.default) = Ok (self, r) /\
    M_brine self !! 7%nat = Some brine /\
    Results.M_total_distillate r + brine == 30.0.
Proof.
  destruct (solve_returns MEDParameters.default default_in_operating_range)
    as (self & r & Hsolve).
  destruct (distillate_and_last_brine_make_up_the_feed MEDParameters.default self r
              Hsolve) as (brine & H1 & H2).
  exists self, r, brine. auto.
Defined.

Lemma vapor_row_nonneg p self l i :
  passes_post p (self, l) -> (i < MEDParameters.n_effects p)%nat ->
  0 <= M_vapor self !!! i.
Proof.
  intros [_ Hrows] Hi. destruct (Hrows i Hi) as (HV & _). rewrite HV.
  apply max_0_spec.
Qed.

Lemma feed_chain p self l :
  passes_post p (self, l) ->
  forall i d, (i + d < MEDParameters.n_effects p)%nat ->
  M_brine self !!! (i + d)%nat <= M_feed self !!! (i + d)%nat /\
  M_feed self !!! (i + d)%nat <= M_feed self !!! i.
Proof.
  intros Hpost i. pose proof Hpost as [Hbase Hrows].
  destruct Hbase as (_ & Hn & _).
  assert (Hb : forall j, (j < MEDParameters.n_effects p)%nat ->
            M_brine self !!! j <= M_feed self !!! j).
  { intros j Hj. destruct (Hrows j Hj) as (_ & HB & _). rewrite HB.
    pose proof (vapor_row_nonneg p self l j Hpost Hj). lra. }
  induction d as [|d IH]; intros Hd.
  - replace (i + 0)%nat with i by lia. split; [apply Hb; lia|lra].
  - split; [apply Hb; lia|].
    destruct (IH ltac:(lia)) as [IH1 IH2].
    destruct (Hrows (i + d)%nat ltac:(lia)) as (_ & _ & _ & _ & _ & Hnext).
    rewrite Hn in Hnext. destruct (Hnext ltac:(lia)) as [HF _].
    replace (i + S d)%nat with (i + d + 1)%nat by lia. rewrite HF. lra.
Qed.

Lemma feed_order p self l i j :
  passes_post p (self, l) -> (i <= j < MEDParameters.n_effects p)%nat ->
  M_brine self !!! j <= M_feed self !!! j /\ M_feed self !!! j <= M_feed self !!! i.
Proof.
  intros Hpost Hij. pose proof (feed_chain p self l Hpost i (j - i)) as H.
  replace (i + (j - i))%nat with j in H by lia. apply H. lia.
Qed.

(** X10.  Along the train the feed never grows: every effect passes on no
    more brine than the feed it received, whatever the parameters. *)
Theorem feed_flow_never_grows (p : MEDParameters.t) (self : t) (r : Results.t) :
  solve (__init__ p) = Ok (self, r) ->
  forall i j, (i <= j < MEDParameters.n_effects p)%nat ->
  exists feed_i feed_j brine_j,
    M_feed self !! i = Some feed_i /\ M_feed self !! j = Some feed_j /\
    M_brine self !! j = Some brine_j /\
    brine_j <= feed_j /\ feed_j <= feed_i /\ feed_i <= MEDParameters.M_feed p.
Proof.
  intros Hsolve i j Hij.
  destruct (solve_inv p self r Hsolve) as (self0 & l & _ & Hpost & Hm & Hn).
  destruct Hm as ((_ & HF & HB & _) & _).
  pose proof Hpost as [Hbase _].
  destruct Hbase as (_ & _ & _ & _ & _ & _ & Hlen & HF0 & _).
  exists (M_feed self0 !!! i), (M_feed self0 !!! j), (M_brine self0 !!! j).
  rewrite HF, HB, !lookup_of_total by lia.
  repeat split; try reflexivity.
  - apply (feed_order p self0 l j j Hpost). lia.
  - apply (feed_order p self0 l i j Hpost). lia.
  - rewrite <- HF0. apply (feed_order p self0 l 0 i Hpost). lia.
Qed.

Lemma feed_flow_never_grows_witness :
  exists self r,
    solve (__init__ MEDParameters.default) = Ok (self, r) /\
    forall i j, (i <= j < 8)%nat ->
    exists feed_i feed_j brine_j,
      M_feed self !! i = Some feed_i /\ M_feed self !! j = Some feed_j /\
      M_brine self !! j = Some brine_j /\
      brine_j <= feed_j /\ feed_j <= feed_i /\ feed_i <= 30.0.
Proof.
  destruct (solve_returns MEDParameters.default default_in_operating_range)
    as (self & r & Hsolve).
  exists self, r. split; [exact Hsolve|].
  exact (feed_flow_never_grows MEDParameters.default self r Hsolve).
Defined.

(** Rounding toward zero does not fall below a whole number that the
    argument reaches. *)
Lemma trunc_lower z q : (0 <= z)%Z -> inject_Z z <= q -> inject_Z z <= inject_Z (Py.trunc q).
Proof.
  intros Hz Hq. unfold Py.trunc. rewrite <- Zle_Qle.
  destruct q as [a b]. unfold Qle in Hq. cbn [Qnum Qden inject_Z] in *.
  rewrite Z.mul_1_r in Hq.
  assert (0 <= a)%Z by nia.
  rewrite Z.quot_div_nonneg by lia.
  apply Z.div_le_lower_bound; lia.
Qed.

Lemma cast_lower (s : Py.num) v :
  0 <= Py.val s -> Py.val s <= v -> Py.val s <= Py.cast (Py.dtype_of s) v.
Proof.
  destruct s as [z|q]; cbn [Py.val Py.dtype_of Py.cast]; intros H0 Hv; [|exact Hv].
  apply trunc_lower; [|exact Hv]. change 0 with (inject_Z 0) in H0.
  now rewrite <- Zle_Qle in H0.
Qed.

Lemma salinity_chain p self l :
  passes_post p (self, l) -> 0 <= Py.val (MEDParameters.S_feed p) ->
  forall i, (i < MEDParameters.n_effects p)%nat ->
  Py.val (MEDParameters.S_feed p) <= S_feed l !!! i /\
  S_feed l !!! i <= S_brine self !!! i.
Proof.
  intros Hpost H0. pose proof Hpost as [Hbase Hrows].
  destruct Hbase as (_ & Hn & _ & _ & _ & Hd & _ & _ & HS0 & _).
  assert (Hup : forall i, (i < MEDParameters.n_effects p)%nat ->
            0 <= S_feed l !!! i -> S_feed l !!! i <= S_brine self !!! i).
  { intros i Hi HSi. destruct (Hrows i Hi) as (_ & HB & HS & _). rewrite HS.
    destruct (gt_spec (M_brine self !!! i) 1e-6) as [Hb|Hb]; [|lra].
    pose proof (vapor_row_nonneg p self l i Hpost Hi) as HV.
    assert (Hb' : 0 < M_brine self !!! i) by (qnorm; lra).
    assert (HFB : M_brine self !!! i <= M_feed self !!! i) by (rewrite HB; lra).
    apply Qle_shift_div_l; [exact Hb'|].
    assert (0 <= S_feed l !!! i * (M_feed self !!! i - M_brine self !!! i))
      by (apply Qmult_le_0_compat; lra).
    lra. }
  induction i as [|i IH]; intros Hi.
  - split; [rewrite HS0; lra|]. apply Hup; [exact Hi|]. rewrite HS0. exact H0.
  - destruct (IH ltac:(lia)) as [IH1 IH2].
    destruct (Hrows i ltac:(lia)) as (_ & _ & _ & _ & _ & Hnext).
    rewrite Hn in Hnext. destruct (Hnext ltac:(lia)) as [_ HS].
    replace (i + 1)%nat with (S i) in HS by lia.
    assert (Hin : Py.val (MEDParameters.S_feed p) <= S_feed l !!! S i).
    { rewrite HS, Hd. apply cast_lower; lra. }
    split; [exact Hin|]. apply Hup; [exact Hi|lra].
Qed.

(** X11.  With a feed salinity that is not negative, no effect discharges brine
    less salty than the feed of the plant, and neither is the reported final
    brine. *)
Theorem brine_is_never_fresher_than_the_feed (p : MEDParameters.t) (self : t)
    (r : Results.t) :
  0 <= Py.val (MEDParameters.S_feed p) ->
  solve (__init__ p) = Ok (self, r) ->
  Forall (fun s => Py.val (MEDParameters.S_feed p) <= s) (S_brine self) /\
  Py.val (MEDParameters.S_feed p) <= Results.S_brine_final r.
Proof.
  intros H0 Hsolve.
  destruct (solve_inv p self r Hsolve) as (self0 & l & _ & Hpost & Hm & Hn).
  destruct Hm as ((_ & _ & _ & _ & HS & _) & _ & _ & _ & _ & _ & _ & _ & Hfin & _).
  pose proof Hpost as [Hbase _].
  destruct Hbase as (_ & _ & _ & _ & _ & _ & Hlen & _).
  assert (Hall : forall i, (i < MEDParameters.n_effects p)%nat ->
            Py.val (MEDParameters.S_feed p) <= S_brine self0 !!! i).
  { intros i Hi. destruct (salinity_chain p self0 l Hpost H0 i Hi). lra. }
  split.
  - rewrite HS. apply Forall_total. intros i Hi. apply Hall. lia.
  - rewrite Hfin. apply Hall. lia.
Qed.

Lemma brine_is_never_fresher_than_the_feed_witness :
  exists self r,
    solve (__init__ MEDParameters.default) = Ok (self, r) /\
    Forall (fun s => 42000 <= s) (S_brine self) /\
    42000 <= Results.S_brine_final r.
Proof.
  destruct (solve_returns MEDParameters.default default_in_operating_range)
    as (self & r & Hsolve).
  exists self, r. split; [exact Hsolve|].
  apply (brine_is_never_fresher_than_the_feed MEDParameters.default self r);
    [vm_compute; discriminate|exact Hsolve].
Defined.

(** The driving temperature difference the ladder leaves: one interval for
    the first effect, one interval less the boiling point elevation for every
    later one. *)
Lemma drive_of_ladder p self l i :
  passes_post p (self, l) -> (i < MEDParameters.n_effects p)%nat ->
  delta_T_drive_at self i ==
    if (i =? 0)%nat then delta_T_total p
    else delta_T_total p - MEDParameters.BPE p.
Proof.
  intros [Hbase _] Hi. destruct Hbase as (Hp & _ & _ & HT & _).
  unfold delta_T_drive_at. rewrite Hp, HT.
  destruct (Nat.eqb_spec i 0) as [->|Hi0].
  - rewrite ladder_lookup by exact Hi. unfold ladder_temp.
    change (Py.of_int (0 + 1)) with 1. ring.
  - rewrite !ladder_lookup by lia. unfold ladder_temp.
    replace (i - 1 + 1)%nat with i by lia. rewrite of_int_plus_1. ring.
Qed.

(** X12.  The boiling point elevation is charged on the driving force of every
    effect after the first on top of its place in the ladder: such an effect
    gets the area [Q_input / (h * (delta - BPE))] when the interval [delta]
    of the ladder exceeds the elevation, and the area 0 otherwise, whatever
    heat it receives. *)
Theorem later_effects_need_an_interval_above_the_elevation (p : MEDParameters.t)
    (self : t) (l : locals) :
  run_passes (__init__ p) = Ok (self, l) ->
  forall i, (1 <= i < MEDParameters.n_effects p)%nat ->
  exists area,
    A_effect self !! i = Some area /\
    (delta_T_total p <= MEDParameters.BPE p -> area = 0.0) /\
    (MEDParameters.BPE p < delta_T_total p ->
     area == Q_input_at self l i
             / (_heat_transfer_coefficient_evaporator (ladder_temp p i)
                * (delta_T_total p - MEDParameters.BPE p))).
Proof.
  intros Hrun i Hi. pose proof (run_passes_post p _ Hrun) as Hpost.
  pose proof (drive_of_ladder p self l i Hpost ltac:(lia)) as Hd.
  destruct (Nat.eqb_spec i 0) as [Hi0|_]; [lia|].
  destruct Hpost as [Hbase Hrows].
  destruct Hbase as (_ & _ & _ & HT & _ & _ & Hlen & _).
  destruct (Hrows i ltac:(lia)) as (_ & _ & _ & HA & _).
  exists (A_effect self !!! i). rewrite lookup_of_total by lia.
  split; [reflexivity|]. rewrite HA. split.
  - intros Hle. rewrite gt_false by lra. reflexivity.
  - intros Hlt. rewrite gt_true by lra.
    rewrite Hd, HT, ladder_lookup by lia. reflexivity.
Qed.

(** In the thin ladder the second effect gets no area. *)
Lemma later_effects_need_an_interval_above_the_elevation_witness :
  exists self l,
    run_passes (__init__ thin_ladder) = Ok (self, l) /\
    A_effect self !! 1%nat = Some 0.0.
Proof.
  destruct (run_passes (__init__ thin_ladder)) as [[self l]| |] eqn:Hrun;
    [|vm_compute in Hrun; discriminate Hrun..].
  exists self, l. split; [reflexivity|].
  destruct (later_effects_need_an_interval_above_the_elevation thin_ladder self l Hrun
              1%nat ltac:(cbn; lia)) as (area & Ha & H0 & _).
  rewrite Ha, H0; [reflexivity|]. vm_compute. discriminate.
Defined.

(** X13.  With a positive feed flow the reported water recovery ratio is the
    reported gain ratio times the constant [0.12 / 5.14 * 100]: both divide
    the same distillate, one by the feed and one by a steam flow that is a
    fixed fraction of the feed. *)
Theorem recovery_ratio_is_a_multiple_of_the_gain_ratio (p : MEDParameters.t) (self : t)
    (r : Results.t) :
  0 < MEDParameters.M_feed p ->
  solve (__init__ p) = Ok (self, r) ->
  Results.M_steam r == MEDParameters.M_feed p * 0.12 / 5.14 /\
  exists w, Results.WRR r = Some w /\ w == Results.GOR r * (0.12 / 5.14 * 100).
Proof.
  intros HM Hsolve.
  destruct (solve_inv p self r Hsolve) as (self0 & l & _ & Hpost & Hm & Hn).
  destruct Hpost as [Hbase _]. destruct Hbase as (Hp & _ & Hsteam & _).
  destruct Hm as (_ & _ & HS & HG & _ & _ & _ & HW & _).
  rewrite HS, HG, HW, Hp, Hsteam. split; [reflexivity|].
  unfold Py.np_div_stored.
  destruct (eq_spec (MEDParameters.M_feed p) 0) as [H0|H0]; [lra|].
  cbn [option_map]. eexists. split; [reflexivity|].
  rewrite gt_true by (qnorm; lra). qnorm. field. lra.
Qed.

Lemma recovery_ratio_is_a_multiple_of_the_gain_ratio_witness :
  exists self r,
    solve (__init__ MEDParameters.default) = Ok (self, r) /\
    Results.M_steam r == 30.0 * 0.12 / 5.14 /\
    exists w, Results.WRR r = Some w /\ w == Results.GOR r * (0.12 / 5.14 * 100).
Proof.
  destruct (solve_returns MEDParameters.default default_in_operating_range)
    as (self & r & Hsolve).
  exists self, r. split; [exact Hsolve|].
  apply (recovery_ratio_is_a_multiple_of_the_gain_ratio MEDParameters.default self r);
    [vm_compute; reflexivity|exact Hsolve].
Defined.

Lemma preheat_update_last self mff l i k :
  (1 <= i <= k)%nat ->
  M_vapor_preheat (preheat_update self mff l i) !!! k = M_vapor_preheat l !!! k.
Proof.
  intros Hi. unfold preheat_update. destruct (_ >? _); [|reflexivity].
  fieldsg. apply list_lookup_total_insert_ne. lia.
Qed.

Lemma preheated_last p :
  (1 <= MEDParameters.n_effects p)%nat ->
  M_vapor_preheat (preheated p) !!! (MEDParameters.n_effects p - 1)%nat = 0.
Proof.
  intros Hn. unfold preheated.
  assert (Hxs : Forall (fun i => (1 <= i <= MEDParameters.n_effects p - 1)%nat)
                  (Py.range_down_to_1 (MEDParameters.n_effects p))).
  { apply Forall_lookup. intros k x Hx. apply range_down_lookup in Hx. lia. }
  revert Hxs. generalize (Py.range_down_to_1 (MEDParameters.n_effects p)) as xs.
  assert (H0 : M_vapor_preheat (initial_locals p) !!! (MEDParameters.n_effects p - 1)%nat
               = 0).
  { unfold initial_locals, Py.zeros. fieldsg. apply lookup_total_replicate_2. lia. }
  revert H0. generalize (initial_locals p) as l.
  intros l Hl xs. revert l Hl.
  induction xs as [|x xs IH]; intros l Hl Hxs; [exact Hl|].
  apply Forall_cons in Hxs as [Hx Hxs]. cbn [fold_left].
  apply IH; [|exact Hxs]. now rewrite preheat_update_last.
Qed.

(** X14.  No vapor is recorded as extracted from the last effect: its entry
    of the preheating array is still the zero it was created with. *)
Theorem last_effect_feeds_no_preheater (p : MEDParameters.t) (self : t) (l : locals) :
  run_passes (__init__ p) = Ok (self, l) ->
  M_vapor_preheat l !! (MEDParameters.n_effects p - 1)%nat = Some 0.
Proof.
  intros Hrun. pose proof (run_passes_needs_an_effect p _ Hrun) as Hn.
  destruct (run_passes_post p _ Hrun) as [Hbase _].
  destruct Hbase as (_ & _ & _ & _ & HE & _ & Hlen & _).
  rewrite lookup_of_total by (rewrite HE; lia).
  rewrite HE, preheated_last by exact Hn. reflexivity.
Qed.

Lemma last_effect_feeds_no_preheater_witness :
  exists self l,
    run_passes (__init__ two_effects) = Ok (self, l) /\
    M_vapor_preheat l !! 1%nat = Some 0.
Proof.
  destruct (run_passes (__init__ two_effects)) as [[self l]| |] eqn:Hrun;
    [|vm_compute in Hrun; discriminate Hrun..].
  exists self, l. split; [reflexivity|].
  exact (last_effect_feeds_no_preheater two_effects self l Hrun).
Defined.




Lemma sum_bounds (a : list Q) c :
  Forall (fun v => 0 <= v <= c) a ->
  0 <= Py.sum a <= Py.of_int (length a) * c.
Proof.
  unfold Py.sum. induction 1 as [|v a Hv _ IH]; cbn [fold_right length].
  - rewrite of_int_0. lra.
  - rewrite of_int_S. lra.
Qed.

(** X17.  In the operating range, with a feed at 0 degrees or more whose salinity is
    within [0, 70000] and at most 42 effects, no effect evaporates more than
    the steam flow, so the gain ratio is at most the number of effects. *)
Theorem gain_ratio_at_most_the_number_of_effects (p : MEDParameters.t) :
  operating_range p -> brine_range p ->
  exists self r,
    solve (__init__ p) = Ok (self, r) /\
    Forall (fun v => 0 <= v <= Results.M_steam r) (M_vapor self) /\
    0 <= Results.M_total_distillate r
      <= Py.of_int (MEDParameters.n_effects p) * Results.M_steam r /\
    0 <= Results.GOR r <= Py.of_int (MEDParameters.n_effects p).
Proof.
  intros Hop Hbr. destruct (solve_returns p Hop) as (self & r & Hsolve).
  exists self, r. split; [exact Hsolve|].
  destruct (solve_inv p self r Hsolve) as (self0 & l & _ & Hpost & Hm & Hn).
  pose proof (forward_bounds p self0 l Hpost Hop Hbr) as Hb.
  destruct Hpost as [Hbase _].
  destruct Hbase as (_ & _ & Hsteam & _ & _ & _ & Hlen & _).
  destruct Hm as ((_ & _ & _ & HV & _) & HD & HS & HG & _).
  pose proof (steam_temperature_range p Hop) as HTs.
  pose proof (latent_heat_pos _ (proj1 HTs) (proj2 HTs)) as Hls.
  assert (HMs : 0 <= M_steam self0).
  { rewrite Hsteam. apply steam_target_nonneg, Hop. }
  assert (Hall : Forall (fun v => 0 <= v <= M_steam self0) (M_vapor self0)).
  { apply Forall_total. intros i Hi.
    destruct (Hb i ltac:(lia)) as (Hv0 & Hv1 & _). split; [exact Hv0|].
    pose proof (ladder_temp_0_100 p i Hop ltac:(lia)) as Hr.
    destruct (ladder_temp_range p i Hop ltac:(lia)) as [_ Hup].
    pose proof (latent_heat_pos _ (proj1 Hr) (proj2 Hr)) as Hli.
    pose proof (latent_heat_decreasing _ _ (proj1 Hr) Hup (proj2 HTs)) as Hdec.
    assert (M_steam self0 * _latent_heat (MEDParameters.T_steam p)
            <= M_steam self0 * _latent_heat (ladder_temp p i)) by nra.
    destruct (Qlt_le_dec (M_steam self0) (M_vapor self0 !!! i)) as [Hlt|Hle];
      [|exact Hle].
    assert (0 < (M_vapor self0 !!! i - M_steam self0)
                * _latent_heat (ladder_temp p i))
      by (apply Qmult_lt_0_compat; lra).
    lra. }
  pose proof (sum_bounds _ _ Hall) as Hsum.
  replace (length (M_vapor self0)) with (MEDParameters.n_effects p) in Hsum by lia.
  rewrite HV, HD, HS, HG. split; [exact Hall|]. split; [exact Hsum|].
  pose proof (of_int_nonneg (MEDParameters.n_effects p)).
  destruct (gt_spec (M_steam self0) 0) as [Hpos|_]; [|lra].
  split.
  - apply Qle_shift_div_l; lra.
  - apply Qle_shift_div_r; lra.
Qed.

Lemma gain_ratio_at_most_the_number_of_effects_witness :
  exists self r,
    solve (__init__ MEDParameters.default) = Ok (self, r) /\
    Forall (fun v => 0 <= v <= Results.M_steam r) (M_vapor self) /\
    0 <= Results.M_total_distillate r <= Py.of_int 8 * Results.M_steam r /\
    0 <= Results.GOR r <= Py.of_int 8.
Proof.
  apply (gain_ratio_at_most_the_number_of_effects MEDParameters.default).
  - unfold operating_range. cbn [MEDParameters.default MEDParameters.n_effects
      MEDParameters.M_feed MEDParameters.BPE MEDParameters.T_cw MEDParameters.T_steam].
    repeat split; try lia; vm_compute; discriminate.
  - unfold brine_range. cbn [MEDParameters.default MEDParameters.n_effects
      MEDParameters.T_feed MEDParameters.S_feed Py.val].
    repeat split; try lia; vm_compute; discriminate.
Defined.

Lemma max_0_of_zero x : x == 0 -> Py.max 0.0 x == 0.
Proof. intros H. apply max_0_spec. lra. Qed.

Lemma preheat_update_idle self l i :
  MEDParameters.M_feed (params self) == 0 ->
  (forall j, M_vapor_preheat l !!! j == 0) ->
  forall j,
    M_vapor_preheat (preheat_update self (MEDParameters.M_feed (params self)) l i) !!! j
    == 0.
Proof.
  intros HM HE j. unfold preheat_update. destruct (_ >? _); [|apply HE].
  fieldsg.
  match goal with
  | |- <[?k := ?v]> ?a !!! j == 0 =>
      destruct (lookup_total_insert_cases a k j v) as [-> | ->]; [|apply HE]
  end.
  rewrite HM. unfold Qdiv. ring.
Qed.

Lemma preheated_idle p :
  MEDParameters.M_feed p == 0 -> forall j, M_vapor_preheat (preheated p) !!! j == 0.
Proof.
  intros HM. unfold preheated.
  generalize (Py.range_down_to_1 (MEDParameters.n_effects p)) as xs.
  assert (H0 : forall j, M_vapor_preheat (initial_locals p) !!! j == 0).
  { intros j. unfold initial_locals, Py.zeros. fieldsg.
    destruct (Nat.lt_ge_cases j (MEDParameters.n_effects p)).
    - rewrite lookup_total_replicate_2 by lia. reflexivity.
    - rewrite list_lookup_total_alt, (proj1 (lookup_replicate_None _ _ _)) by lia.
      reflexivity. }
  revert H0. generalize (initial_locals p) as l.
  intros l Hl xs. revert l Hl.
  induction xs as [|x xs IH]; intros l Hl; [exact Hl|].
  cbn [fold_left]. apply IH.
  apply (preheat_update_idle (ladder_self p) l x HM Hl).
Qed.

Lemma idle_rows p self l :
  passes_post p (self, l) -> MEDParameters.M_feed p == 0 ->
  forall i, (i < MEDParameters.n_effects p)%nat ->
  M_feed self !!! i == 0 /\ M_vapor self !!! i == 0 /\ M_brine self !!! i == 0.
Proof.
  intros [Hbase Hrows] HM.
  destruct Hbase as (Hp & Hn & Hsteam & _ & HE & _ & _ & HF0 & _).
  assert (Hrow : forall i, (i < MEDParameters.n_effects p)%nat ->
            M_feed self !!! i == 0 -> Q_input_at self l i == 0 ->
            M_vapor self !!! i == 0 /\ M_brine self !!! i == 0).
  { intros i Hi HF HQ. destruct (Hrows i Hi) as (HV & HB & _).
    assert (HV0 : M_vapor self !!! i == 0).
    { rewrite HV. apply max_0_of_zero. rewrite HQ.
      unfold sensible_heat_at. rewrite max_0_of_zero by (rewrite HF; ring).
      unfold Qdiv. ring. }
    split; [exact HV0|]. rewrite HB, HF, HV0. ring. }
  induction i as [|i IH]; intros Hi.
  - assert (HF : M_feed self !!! 0%nat == 0) by (rewrite HF0; exact HM).
    split; [exact HF|]. apply Hrow; [exact Hi|exact HF|].
    unfold Q_input_at. cbn [Nat.eqb]. rewrite Hsteam, HM. unfold Qdiv. ring.
  - destruct (IH ltac:(lia)) as (_ & IHV & IHB).
    destruct (Hrows i ltac:(lia)) as (_ & _ & _ & _ & _ & Hnext).
    rewrite Hn in Hnext. destruct (Hnext ltac:(lia)) as [HFn _].
    replace (i + 1)%nat with (S i) in HFn by lia.
    assert (HF : M_feed self !!! S i == 0) by (rewrite HFn; exact IHB).
    split; [exact HF|]. apply Hrow; [exact Hi|exact HF|].
    unfold Q_input_at. cbn [Nat.eqb]. replace (S i - 1)%nat with i by lia.
    rewrite max_0_of_zero; [ring|].
    rewrite IHV, HE, (preheated_idle p HM i). ring.
Qed.

Lemma sum_of_zeros (a : list Q) :
  (forall i, (i < length a)%nat -> a !!! i == 0) -> Py.sum a == 0.
Proof.
  intros H. apply (Forall_total (fun v => v == 0)) in H. unfold Py.sum.
  induction H as [|v a Hv _ IH]; cbn [fold_right]; [reflexivity|].
  rewrite Hv, IH. ring.
Qed.

(** X18.  Whenever a solve without feed returns, no effect evaporates
    anything, the gain ratio, the specific area and the nominal load are
    reported as zero, and the water recovery ratio is not finite. *)
Theorem a_plant_without_feed_reports_zeros (p : MEDParameters.t) (self : t)
    (r : Results.t) :
  MEDParameters.M_feed p == 0 ->
  solve (__init__ p) = Ok (self, r) ->
  Forall (fun v => v == 0) (M_vapor self) /\
  Results.M_total_distillate r == 0 /\ Results.M_steam r == 0 /\
  Results.GOR r = 0.0 /\ Results.As r = 0.0 /\ Results.Q_nominal_W r == 0 /\
  Results.WRR r = None.
Proof.
  intros HM Hsolve.
  destruct (solve_inv p self r Hsolve) as (self0 & l & _ & Hpost & Hm & Hn).
  pose proof (idle_rows p self0 l Hpost HM) as Hrows.
  destruct Hpost as [Hbase _].
  destruct Hbase as (Hp & _ & Hsteam & _ & _ & _ & Hlen & _).
  destruct Hm as ((_ & _ & _ & HV & _) & HD & HS & HG & _ & HA & HQ & HW & _).
  assert (Hsum : Py.sum (M_vapor self0) == 0).
  { apply sum_of_zeros. intros i Hi. apply Hrows. lia. }
  assert (Hst : M_steam self0 == 0) by (rewrite Hsteam, HM; unfold Qdiv; ring).
  rewrite HV, HD, HS, HG, HA, HQ, HW, Hp.
  split; [apply Forall_total; intros i Hi; apply Hrows; lia|].
  split; [exact Hsum|]. split; [exact Hst|].
  rewrite !gt_false by lra. split; [reflexivity|]. split; [reflexivity|].
  split; [rewrite Hst; ring|].
  unfold Py.np_div_stored.
  destruct (eq_spec (MEDParameters.M_feed p) 0) as [_|H0]; [reflexivity|contradiction].
Qed.

Lemma zero_feed_in_operating_range : operating_range zero_feed.
Proof.
  unfold operating_range. cbn [zero_feed MEDParameters.n_effects
    MEDParameters.M_feed MEDParameters.BPE MEDParameters.T_cw MEDParameters.T_steam].
  repeat split; try lia; vm_compute; discriminate.
Qed.

Lemma a_plant_without_feed_reports_zeros_witness :
  exists self r,
    solve (__init__ zero_feed) = Ok (self, r) /\
    Forall (fun v => v == 0) (M_vapor self) /\
    Results.M_total_distillate r == 0 /\ Results.M_steam r == 0 /\
    Results.GOR r = 0.0 /\ Results.As r = 0.0 /\ Results.Q_nominal_W r == 0 /\
    Results.WRR r = None.
Proof.
  destruct (solve_returns zero_feed zero_feed_in_operating_range)
    as (self & r & Hsolve).
  exists self, r. split; [exact Hsolve|].
  apply (a_plant_without_feed_reports_zeros zero_feed self r);
    [vm_compute; reflexivity|exact Hsolve].
Defined.

Lemma latent_heat_difference a b :
  _latent_heat a - _latent_heat b
  == (b - a) * ((4551 # 400000) * ((a + b - (335200 # 4551)) * (a + b - (335200 # 4551)))
                + (1517 # 400000) * ((a - b) * (a - b))
                + (2369 - (4551 # 400000) * ((335200 # 4551) * (335200 # 4551)))).
Proof. rewrite !latent_heat_expand. ring. Qed.

(** X19.  The latent heat correlation falls strictly with the temperature, on
    all of its domain, and it is positive up to 480 degrees. *)
Theorem latent_heat_falls_and_is_positive_up_to_480 :
  (forall a b : Q, a < b -> _latent_heat b < _latent_heat a) /\
  (forall T : Q, T <= 480 -> 0 < _latent_heat T).
Proof.
  assert (Hfall : forall a b : Q, a < b -> _latent_heat b < _latent_heat a).
  { intros a b Hab. pose proof (latent_heat_difference a b) as E.
    pose proof (square_nonneg (a + b - (335200 # 4551))).
    pose proof (square_nonneg (a - b)).
    assert (Hc : 0 < 2369 - (4551 # 400000) * ((335200 # 4551) * (335200 # 4551)))
      by (vm_compute; reflexivity).
    assert (0 < (b - a)
                * ((4551 # 400000)
                   * ((a + b - (335200 # 4551)) * (a + b - (335200 # 4551)))
                   + (1517 # 400000) * ((a - b) * (a - b))
                   + (2369 - (4551 # 400000) * ((335200 # 4551) * (335200 # 4551)))))
      by (apply Qmult_lt_0_compat; lra).
    lra. }
  split; [exact Hfall|].
  intros T HT.
  assert (H480 : 0 < _latent_heat 480) by (vm_compute; reflexivity).
  destruct (Qlt_le_dec T 480) as [Hlt|Hge].
  - pose proof (Hfall T 480 Hlt). lra.
  - assert (E : T == 480) by lra. unfold _latent_heat in *. rewrite E. exact H480.
Qed.

(** The temperature the preheating loop leaves in [T_feed_in[0]]: it never
    falls, it reaches every target of the stages [xs], and it is the initial
    temperature or one of those targets. *)
Lemma preheat_fold_inlet self mff xs :
  forall l, (1 <= length (T_feed_in l))%nat ->
  let l' := fold_left (preheat_update self mff) xs l in
  let target x := T_effect self !!! x - MEDParameters.TTD_preheater (params self) in
  T_feed_in l !!! 0%nat <= T_feed_in l' !!! 0%nat /\
  Forall (fun x => target x <= T_feed_in l' !!! 0%nat) xs /\
  (T_feed_in l' !!! 0%nat = T_feed_in l !!! 0%nat \/
   Exists (fun x => T_feed_in l' !!! 0%nat = target x) xs).
Proof.
  induction xs as [|x xs IH]; intros l Hlen; cbn [fold_left].
  - split; [lra|]. split; [constructor|]. left. reflexivity.
  - set (l1 := preheat_update self mff l x).
    assert (H1 : (1 <= length (T_feed_in l1))%nat /\
                 T_feed_in l !!! 0%nat <= T_feed_in l1 !!! 0%nat /\
                 T_effect self !!! x - MEDParameters.TTD_preheater (params self)
                   <= T_feed_in l1 !!! 0%nat /\
                 (T_feed_in l1 !!! 0%nat = T_feed_in l !!! 0%nat \/
                  T_feed_in l1 !!! 0%nat
                  = T_effect self !!! x - MEDParameters.TTD_preheater (params self))).
    { subst l1. unfold preheat_update.
      destruct (gt_spec (T_effect self !!! x - MEDParameters.TTD_preheater (params self))
                  (T_feed_in l !!! 0%nat)) as [Hgt|Hle].
      - fieldsg. rewrite length_insert, list_lookup_total_insert_eq by lia.
        repeat split; try lia; try lra. right. reflexivity.
      - repeat split; try lia; try lra. left. reflexivity. }
    destruct H1 as (Hlen1 & Hup & Htx & Hval).
    destruct (IH l1 Hlen1) as (IH1 & IH2 & IH3).
    split; [lra|]. split.
    + constructor; [lra|exact IH2].
    + destruct IH3 as [IH3|IH3].
      * destruct Hval as [Hval|Hval].
        -- left. congruence.
        -- right. apply Exists_cons_hd. congruence.
      * right. apply Exists_cons_tl. exact IH3.
Qed.

(** X20.  In the operating range the feed enters the first effect at the
    feed temperature when the plant has one effect, and otherwise at the
    higher of the feed temperature and the preheating target of the second
    effect, [T_effect[1] - TTD_preheater]. *)
Theorem feed_enters_the_first_effect_preheated (p : MEDParameters.t) (self : t)
    (l : locals) :
  operating_range p ->
  run_passes (__init__ p) = Ok (self, l) ->
  exists T_in,
    T_feed_in l !! 0%nat = Some T_in /\
    (MEDParameters.n_effects p = 1%nat -> T_in = MEDParameters.T_feed p) /\
    ((2 <= MEDParameters.n_effects p)%nat ->
     T_in == Py.max (MEDParameters.T_feed p)
               (ladder_temp p 1 - MEDParameters.TTD_preheater p)).
Proof.
  intros Hop Hrun. pose proof (run_passes_needs_an_effect p _ Hrun) as Hn.
  destruct (run_passes_post p _ Hrun) as [Hbase _].
  destruct Hbase as (_ & _ & _ & _ & _ & _ & Hlen & _ & _ & HT0).
  exists (T_feed_in l !!! 0%nat). rewrite lookup_of_total by lia.
  split; [reflexivity|]. rewrite HT0. clear HT0.
  assert (Hinit : T_feed_in (initial_locals p) !!! 0%nat = MEDParameters.T_feed p).
  { unfold initial_locals. fieldsg.
    apply list_lookup_total_insert_eq. rewrite zeros_length. lia. }
  assert (Hlen0 : (1 <= length (T_feed_in (initial_locals p)))%nat).
  { unfold initial_locals. fieldsg. rewrite length_insert, zeros_length. lia. }
  split.
  - intros H1. unfold preheated, Py.range_down_to_1. rewrite H1. exact Hinit.
  - intros H2.
    destruct (preheat_fold_inlet (ladder_self p) (MEDParameters.M_feed p)
                (Py.range_down_to_1 (MEDParameters.n_effects p))
                (initial_locals p) Hlen0) as (Hup & Hall & Hval).
    fold (preheated p) in Hup, Hall, Hval. rewrite Hinit in Hup, Hval.
    change (params (ladder_self p)) with p in Hall, Hval.
    assert (Hin : In 1%nat (Py.range_down_to_1 (MEDParameters.n_effects p))).
    { unfold Py.range_down_to_1. apply -> in_rev. apply in_seq. lia. }
    rewrite Forall_forall in Hall.
    pose proof (Hall 1%nat ltac:(now apply list_elem_of_In)) as H1.
    rewrite ladder_self_T_effect in H1 by lia.
    assert (Hle : T_feed_in (preheated p) !!! 0%nat
                  <= Py.max (MEDParameters.T_feed p)
                       (ladder_temp p 1 - MEDParameters.TTD_preheater p)).
    { destruct Hval as [-> | Hex].
      - unfold Py.max. destruct (gt_spec (ladder_temp p 1 - MEDParameters.TTD_preheater p)
                                   (MEDParameters.T_feed p)); lra.
      - apply Exists_exists in Hex as (x & Hx & ->).
        apply list_elem_of_In, in_rev, in_seq in Hx. rewrite ladder_self_T_effect by lia.
        pose proof (ladder_temp_decreasing p 1 x Hop ltac:(lia)).
        unfold Py.max. destruct (gt_spec (ladder_temp p 1 - MEDParameters.TTD_preheater p)
                                   (MEDParameters.T_feed p)); lra. }
    assert (Hge : Py.max (MEDParameters.T_feed p)
                    (ladder_temp p 1 - MEDParameters.TTD_preheater p)
                  <= T_feed_in (preheated p) !!! 0%nat).
    { unfold Py.max. destruct (gt_spec (ladder_temp p 1 - MEDParameters.TTD_preheater p)
                                 (MEDParameters.T_feed p)); lra. }
    lra.
Qed.

Lemma feed_enters_the_first_effect_preheated_witness :
  exists self l T_in,
    run_passes (__init__ two_effects) = Ok (self, l) /\
    T_feed_in l !! 0%nat = Some T_in /\
    T_in == Py.max 25.0 (ladder_temp two_effects 1 - 1.5).
Proof.
  destruct (run_passes (__init__ two_effects)) as [[self l]| |] eqn:Hrun;
    [|vm_compute in Hrun; discriminate Hrun..].
  destruct (feed_enters_the_first_effect_preheated two_effects self l) as (T & H1 & _ & H2).
  - unfold operating_range. cbn [two_effects MEDParameters.n_effects
      MEDParameters.M_feed MEDParameters.BPE MEDParameters.T_cw MEDParameters.T_steam].
    repeat split; try lia; vm_compute; discriminate.
  - exact Hrun.
  - exists self, l, T. split; [reflexivity|]. split; [exact H1|].
    apply H2. cbn. lia.
Defined.

(** Rounding toward zero takes less than one off a number that is not
    negative. *)
Lemma trunc_within_one q :
  0 <= q -> inject_Z (Py.trunc q) <= q /\ q < inject_Z (Py.trunc q) + 1.
Proof.
  intros Hq. unfold Py.trunc. destruct q as [a b].
  unfold Qle in Hq. cbn [Qnum Qden] in *. rewrite Z.mul_1_r in Hq.
  cbn [Z.mul] in Hq.
  rewrite Z.quot_div_nonneg by lia.
  pose proof (Z.mul_div_le a (Z.pos b) ltac:(lia)).
  pose proof (Z.mul_succ_div_gt a (Z.pos b) ltac:(lia)).
  split.
  - unfold Qle. cbn [Qnum Qden inject_Z]. nia.
  - change 1 with (inject_Z 1). rewrite <- inject_Z_plus.
    unfold Qlt. cbn [Qnum Qden inject_Z]. nia.
Qed.

(** X21.  With a feed salinity that is not negative, the salinity handed to
    the next effect is the brine salinity of this one when the feed salinity
    of the parameters is a float, and that salinity rounded down to a whole
    number, less than one below it, when it is an integer. *)
Theorem salinity_is_passed_on_within_one_unit (p : MEDParameters.t) (self : t)
    (l : locals) :
  0 <= Py.val (MEDParameters.S_feed p) ->
  run_passes (__init__ p) = Ok (self, l) ->
  forall i, (i + 1 < MEDParameters.n_effects p)%nat ->
  exists S_out S_next,
    S_brine self !! i = Some S_out /\ S_feed l !! (i + 1)%nat = Some S_next /\
    S_next <= S_out /\ S_out < S_next + 1 /\
    (Py.dtype_of (MEDParameters.S_feed p) = Py.float64 -> S_next = S_out) /\
    (Py.dtype_of (MEDParameters.S_feed p) = Py.int64 ->
     S_next = inject_Z (Py.trunc S_out)).
Proof.
  intros H0 Hrun i Hi. pose proof (run_passes_post p _ Hrun) as Hpost.
  destruct (salinity_chain p self l Hpost H0 i ltac:(lia)) as [Hlo Hup].
  destruct Hpost as [Hbase Hrows].
  destruct Hbase as (_ & Hn & _ & _ & _ & Hd & Hlen & _).
  destruct (Hrows i ltac:(lia)) as (_ & _ & _ & _ & _ & Hnext).
  rewrite Hn in Hnext. destruct (Hnext Hi) as [_ HS].
  exists (S_brine self !!! i), (S_feed l !!! (i + 1)%nat).
  rewrite !lookup_of_total by lia. split; [reflexivity|]. split; [reflexivity|].
  rewrite HS, Hd.
  destruct (MEDParameters.S_feed p) as [z|q]; cbn [Py.dtype_of Py.cast].
  - destruct (trunc_within_one (S_brine self !!! i)) as [H1 H2];
      [cbn [Py.val] in *; lra|].
    repeat split; try assumption; try reflexivity. discriminate.
  - repeat split; try lra; try reflexivity. discriminate.
Qed.

Lemma salinity_is_passed_on_within_one_unit_witness :
  exists self l,
    run_passes (__init__ two_effects) = Ok (self, l) /\
    forall i, (i + 1 < 2)%nat ->
    exists S_out S_next,
      S_brine self !! i = Some S_out /\ S_feed l !! (i + 1)%nat = Some S_next /\
      S_next <= S_out /\ S_out < S_next + 1 /\
      (Py.dtype_of (Py.Int 42000) = Py.float64 -> S_next = S_out) /\
      (Py.dtype_of (Py.Int 42000) = Py.int64 -> S_next = inject_Z (Py.trunc S_out)).
Proof.
  destruct (run_passes (__init__ two_effects)) as [[self l]| |] eqn:Hrun;
    [|vm_compute in Hrun; discriminate Hrun..].
  exists self, l. split; [reflexivity|].
  apply (salinity_is_passed_on_within_one_unit two_effects self l);
    [vm_compute; discriminate|exact Hrun].
Defined.

Lemma salt_chain p self l :
  passes_post p (self, l) ->
  Py.dtype_of (MEDParameters.S_feed p) = Py.float64 ->
  (forall i, (i < MEDParameters.n_effects p)%nat -> 1e-6 < M_brine self !!! i) ->
  forall i, (i < MEDParameters.n_effects p)%nat ->
  M_feed self !!! i * S_feed l !!! i
    == MEDParameters.M_feed p * Py.val (MEDParameters.S_feed p) /\
  M_brine self !!! i * S_brine self !!! i
    == MEDParameters.M_feed p * Py.val (MEDParameters.S_feed p).
Proof.
  intros [Hbase Hrows] Hfl Hbr.
  destruct Hbase as (_ & Hn & _ & _ & _ & Hd & _ & HF0 & HS0 & _).
  assert (Hout : forall i, (i < MEDParameters.n_effects p)%nat ->
            M_brine self !!! i * S_brine self !!! i
            == M_feed self !!! i * S_feed l !!! i).
  { intros i Hi. destruct (Hrows i Hi) as (_ & _ & HS & _).
    pose proof (Hbr i Hi) as Hb. rewrite HS, gt_true by exact Hb.
    field. intros H0. revert Hb. rewrite H0. qnorm. lra. }
  induction i as [|i IH]; intros Hi.
  - split; [rewrite HF0, HS0; reflexivity|]. rewrite Hout by exact Hi.
    rewrite HF0, HS0. reflexivity.
  - destruct (IH ltac:(lia)) as [_ IH2].
    destruct (Hrows i ltac:(lia)) as (_ & _ & _ & _ & _ & Hnext).
    rewrite Hn in Hnext. destruct (Hnext ltac:(lia)) as [HF HS].
    replace (i + 1)%nat with (S i) in HF, HS by lia.
    rewrite Hd, Hfl in HS. cbn [Py.cast] in HS.
    assert (E : M_feed self !!! S i * S_feed l !!! S i
                == MEDParameters.M_feed p * Py.val (MEDParameters.S_feed p)).
    { rewrite HF, HS. exact IH2. }
    split; [exact E|]. rewrite Hout by exact Hi. exact E.
Qed.

(** X22.  When the feed salinity of the parameters is a float and every brine
    flow exceeds the guard of 1e-6, the salt leaving each effect with its
    brine is the salt of the feed: brine flow times brine salinity is feed
    flow times feed salinity. *)
Theorem salt_is_conserved_with_a_float_salinity (p : MEDParameters.t) (self : t)
    (r : Results.t) :
  Py.dtype_of (MEDParameters.S_feed p) = Py.float64 ->
  solve (__init__ p) = Ok (self, r) ->
  Forall (fun b => 1e-6 < b) (M_brine self) ->
  forall i, (i < MEDParameters.n_effects p)%nat ->
  exists brine salinity,
    M_brine self !! i = Some brine /\ S_brine self !! i = Some salinity /\
    brine * salinity == MEDParameters.M_feed p * Py.val (MEDParameters.S_feed p).
Proof.
  intros Hfl Hsolve Hbr i Hi.
  destruct (solve_inv p self r Hsolve) as (self0 & l & _ & Hpost & Hm & Hn).
  destruct Hm as ((_ & _ & HB & _ & HS & _) & _).
  pose proof Hpost as [Hbase _].
  destruct Hbase as (_ & _ & _ & _ & _ & _ & Hlen & _).
  rewrite HB in Hbr. rewrite HB, HS.
  exists (M_brine self0 !!! i), (S_brine self0 !!! i).
  rewrite !lookup_of_total by lia. split; [reflexivity|]. split; [reflexivity|].
  apply (salt_chain p self0 l Hpost Hfl); [|exact Hi].
  intros j Hj. rewrite Forall_lookup in Hbr. apply (Hbr j).
  apply lookup_of_total. lia.
Qed.

Lemma salt_is_conserved_with_a_float_salinity_witness :
  exists self r,
    solve (__init__ two_effects_float) = Ok (self, r) /\
    forall i, (i < 2)%nat ->
    exists brine salinity,
      M_brine self !! i = Some brine /\ S_brine self !! i = Some salinity /\
      brine * salinity == 30.0 * 42000.0.
Proof.
  destruct (solve (__init__ two_effects_float)) as [[self r]| |] eqn:Hsolve;
    [|vm_compute in Hsolve; discriminate Hsolve..].
  exists self, r. split; [reflexivity|].
  apply (salt_is_conserved_with_a_float_salinity two_effects_float self r);
    [reflexivity|exact Hsolve|].
  vm_compute in Hsolve. injection Hsolve as <- <-.
  repeat constructor.
Defined.

(** *** Solving twice *)

Lemma related_bind {A B} (R : A -> A -> Prop) (R' : B -> B -> Prop) c1 c2 k1 k2 :
  related R c1 c2 -> (forall a b, R a b -> related R' (k1 a) (k2 b)) ->
  related R' (Py.bind c1 k1) (Py.bind c2 k2).
Proof. destruct c1, c2; cbn; intros H Hk; auto; contradiction. Qed.

Lemma related_get (a1 a2 : list Q) i :
  (i < length a1)%nat -> (i < length a2)%nat -> a1 !!! i = a2 !!! i ->
  related eq (Py.get a1 i) (Py.get a2 i).
Proof.
  intros H1 H2 H. unfold Py.get. rewrite !lookup_of_total by assumption. exact H.
Qed.

Lemma related_np_div site a1 a2 b1 b2 :
  a1 = a2 -> b1 = b2 -> related eq (Py.np_div site a1 b1) (Py.np_div site a2 b2).
Proof. intros <- <-. unfold Py.np_div. destruct (b1 =? 0); reflexivity. Qed.

(** The rows written so far are the same in any two states of the forward
    pass at the same effect, and so are the feed and the salinity of the
    effect that comes next. *)
Lemma rows_determine p E T0 k s1 l1 s2 l2 :
  forward_inv p E T0 k (s1, l1) -> forward_inv p E T0 k (s2, l2) ->
  forall j, (j <= k)%nat -> (j < MEDParameters.n_effects p)%nat ->
  M_feed s1 !!! j = M_feed s2 !!! j /\
  S_feed l1 !!! j = S_feed l2 !!! j /\
  ((j < k)%nat ->
   T_feed_in l1 !!! j = T_feed_in l2 !!! j /\
   M_vapor s1 !!! j = M_vapor s2 !!! j /\
   M_brine s1 !!! j = M_brine s2 !!! j /\
   S_brine s1 !!! j = S_brine s2 !!! j /\
   A_effect s1 !!! j = A_effect s2 !!! j).
Proof.
  intros [Hb1 Hr1] [Hb2 Hr2].
  destruct Hb1 as (Hp1 & Hn1 & Hst1 & HT1 & HE1 & Hd1 & _ & HF1 & HS1 & HI1).
  destruct Hb2 as (Hp2 & Hn2 & Hst2 & HT2 & HE2 & Hd2 & _ & HF2 & HS2 & HI2).
  induction j as [|j IH]; intros Hjk Hjn.
  - split; [congruence|]. split; [congruence|]. intros H0.
    pose proof (Hr1 0%nat H0) as R1. pose proof (Hr2 0%nat H0) as R2.
    unfold row, Q_input_at, sensible_heat_at, delta_T_drive_at in R1, R2.
    cbn [Nat.eqb] in R1, R2.
    rewrite Hp1, Hst1, HT1, HF1, HS1, HI1 in R1.
    rewrite Hp2, Hst2, HT2, HF2, HS2, HI2 in R2.
    destruct R1 as (V1 & B1 & S1 & A1 & _), R2 as (V2 & B2 & S2 & A2 & _).
    assert (EV : M_vapor s1 !!! 0%nat = M_vapor s2 !!! 0%nat) by congruence.
    rewrite EV in B1.
    assert (EB : M_brine s1 !!! 0%nat = M_brine s2 !!! 0%nat) by congruence.
    rewrite EB in S1.
    repeat split; congruence.
  - destruct (IH ltac:(lia) ltac:(lia)) as (EF & ES & Hrow).
    destruct (Hrow ltac:(lia)) as (ET & EV & EB & ESb & EA).
    pose proof (Hr1 j ltac:(lia)) as R1. pose proof (Hr2 j ltac:(lia)) as R2.
    unfold row in R1, R2.
    destruct R1 as (_ & _ & _ & _ & _ & N1), R2 as (_ & _ & _ & _ & _ & N2).
    rewrite Hn1 in N1. rewrite Hn2 in N2.
    destruct (N1 ltac:(lia)) as [NF1 NS1]. destruct (N2 ltac:(lia)) as [NF2 NS2].
    replace (j + 1)%nat with (S j) in * by lia.
    assert (EF' : M_feed s1 !!! S j = M_feed s2 !!! S j) by congruence.
    assert (ES' : S_feed l1 !!! S j = S_feed l2 !!! S j) by congruence.
    split; [exact EF'|]. split; [exact ES'|]. intros HSk.
    pose proof (Hr1 (S j) HSk) as R1. pose proof (Hr2 (S j) HSk) as R2.
    unfold row, Q_input_at, sensible_heat_at, delta_T_drive_at in R1, R2.
    cbn [Nat.eqb] in R1, R2. replace (S j - 1)%nat with j in * by lia.
    rewrite Hp1, HT1, HE1 in R1. rewrite Hp2, HT2, HE2 in R2.
    destruct R1 as (V1 & B1 & S1 & A1 & I1 & _), R2 as (V2 & B2 & S2 & A2 & I2 & _).
    specialize (I1 ltac:(lia)). specialize (I2 ltac:(lia)).
    assert (ET' : T_feed_in l1 !!! S j = T_feed_in l2 !!! S j) by congruence.
    rewrite EV, EF', ES', ET' in V1.
    assert (EV' : M_vapor s1 !!! S j = M_vapor s2 !!! S j) by congruence.
    rewrite EV', EF' in B1.
    assert (EB' : M_brine s1 !!! S j = M_brine s2 !!! S j) by congruence.
    rewrite EB', EF', ES' in S1. rewrite EV in A1.
    repeat split; congruence.
Qed.

Lemma related_set_any (a1 a2 : list Q) i v1 v2 :
  (i < length a1)%nat -> (i < length a2)%nat ->
  related (fun b1 b2 => b1 = <[i := v1]> a1 /\ b2 = <[i := v2]> a2)
    (Py.set a1 i v1) (Py.set a2 i v2).
Proof.
  intros H1 H2. unfold Py.set.
  destruct (Nat.ltb_spec i (length a1)); [|lia].
  destruct (Nat.ltb_spec i (length a2)); [|lia]. cbn. auto.
Qed.

Lemma bind_assoc {A B C} (c : Py.outcome A) (f : A -> Py.outcome B)
    (g : B -> Py.outcome C) :
  Py.bind (Py.bind c f) g = Py.bind c (fun x => Py.bind (f x) g).
Proof. destruct c; reflexivity. Qed.

Ltac flat := rewrite ?bind_assoc; cbn [Py.bind]; cbv beta; fieldsg.

Ltac same := fieldsg; look; first [reflexivity | congruence].

Ltac rget := flat; eapply related_bind;
  [apply related_get; [leng|leng|same]|intros ? ? <-; cbv beta].

Ltac rset := flat; eapply related_bind;
  [apply related_set_any; [leng|leng]|intros ? ? [-> ->]; cbv beta].

Ltac rdiv := flat; eapply related_bind;
  [apply related_np_div; same|intros ? ? <-; cbv beta].

(** From two states of the forward pass at the same effect, the body ends
    alike: where one run divides by zero, so does the other. *)
Lemma forward_body_same_kind p E T0 k st1 st2 :
  (k < MEDParameters.n_effects p)%nat ->
  forward_inv p E T0 k st1 -> forward_inv p E T0 k st2 ->
  related (fun _ _ => True) (forward_body k st1) (forward_body k st2).
Proof.
  intros Hk H1 H2. destruct st1 as [s1 l1], st2 as [s2 l2].
  pose proof (rows_determine p E T0 k s1 l1 s2 l2 H1 H2) as Heq.
  destruct (Heq k ltac:(lia) Hk) as (EFk & ESk & _).
  assert (Eprev : (0 < k)%nat ->
            M_vapor s1 !!! (k - 1)%nat = M_vapor s2 !!! (k - 1)%nat).
  { intros H0. destruct (Heq (k - 1)%nat ltac:(lia) ltac:(lia)) as (_ & _ & Hrow).
    apply Hrow. lia. }
  clear Heq.
  destruct H1 as [Hb1 _], H2 as [Hb2 _].
  destruct Hb1 as (Hp1 & Hn1 & Hst1 & HT1 & HE1 & Hd1 & Hlen1 & _ & _ & HI1).
  destruct Hb2 as (Hp2 & Hn2 & Hst2 & HT2 & HE2 & Hd2 & Hlen2 & _ & _ & HI2).
  destruct Hlen1 as (LF1 & LB1 & LV1 & LS1 & LA1 & LSf1 & LTi1 & LE).
  destruct Hlen2 as (LF2 & LB2 & LV2 & LS2 & LA2 & LSf2 & LTi2 & _).
  assert (LT1 : length (T_effect s1) = MEDParameters.n_effects p)
    by (rewrite HT1; apply ladder_length).
  assert (LT2 : length (T_effect s2) = MEDParameters.n_effects p)
    by (rewrite HT2; apply ladder_length).
  assert (LE1 : length (M_vapor_preheat l1) = MEDParameters.n_effects p)
    by (rewrite HE1; exact LE).
  assert (LE2 : length (M_vapor_preheat l2) = MEDParameters.n_effects p)
    by (rewrite HE2; exact LE).
  assert (ET : T_effect s1 = T_effect s2) by congruence.
  assert (EE : M_vapor_preheat l1 = M_vapor_preheat l2) by congruence.
  assert (EI : T_feed_in l1 !!! 0%nat = T_feed_in l2 !!! 0%nat) by congruence.
  unfold forward_body. fieldsg.
  destruct (Nat.eqb_spec k 0) as [Hk0|Hk0].
  - subst k. flat.
    rget. rget. rget. rget. rdiv. rset. rget. rset. rget.
    flat. destruct (_ >? 1e-6).
    + rdiv. rset. flat. rewrite ?Hp1, ?Hp2. destruct (_ >? 0).
      * rdiv. rset. flat. rewrite ?Hn1, ?Hn2.
        destruct (Nat.ltb_spec 0 (MEDParameters.n_effects p - 1)).
        -- rget. rset. rget. rset. flat. exact I.
        -- exact I.
      * rset. flat. rewrite ?Hn1, ?Hn2.
        destruct (Nat.ltb_spec 0 (MEDParameters.n_effects p - 1)).
        -- rget. rset. rget. rset. flat. exact I.
        -- exact I.
    + rset. flat. rewrite ?Hp1, ?Hp2. destruct (_ >? 0).
      * rdiv. rset. flat. rewrite ?Hn1, ?Hn2.
        destruct (Nat.ltb_spec 0 (MEDParameters.n_effects p - 1)).
        -- rget. rset. rget. rset. flat. exact I.
        -- exact I.
      * rset. flat. rewrite ?Hn1, ?Hn2.
        destruct (Nat.ltb_spec 0 (MEDParameters.n_effects p - 1)).
        -- rget. rset. rget. rset. flat. exact I.
        -- exact I.
  - specialize (Eprev ltac:(lia)).
    rget. rget. rget. rget. rset.
    rget. rget. rget. rget. rdiv. rset. rget. rset. rget.
    flat. destruct (_ >? 1e-6).
    + rdiv. rset. rget. flat. rewrite ?Hp1, ?Hp2. destruct (_ >? 0).
      * rdiv. rset. flat. rewrite ?Hn1, ?Hn2.
        destruct (Nat.ltb_spec k (MEDParameters.n_effects p - 1)).
        -- rget. rset. rget. rset. flat. exact I.
        -- exact I.
      * rset. flat. rewrite ?Hn1, ?Hn2.
        destruct (Nat.ltb_spec k (MEDParameters.n_effects p - 1)).
        -- rget. rset. rget. rset. flat. exact I.
        -- exact I.
    + rset. rget. flat. rewrite ?Hp1, ?Hp2. destruct (_ >? 0).
      * rdiv. rset. flat. rewrite ?Hn1, ?Hn2.
        destruct (Nat.ltb_spec k (MEDParameters.n_effects p - 1)).
        -- rget. rset. rget. rset. flat. exact I.
        -- exact I.
      * rset. flat. rewrite ?Hn1, ?Hn2.
        destruct (Nat.ltb_spec k (MEDParameters.n_effects p - 1)).
        -- rget. rset. rget. rset. flat. exact I.
        -- exact I.
Qed.

Lemma for_each_same_kind {A S} (I : nat -> S -> Prop)
    (body : A -> S -> Py.outcome S) xs :
  (forall k x s, xs !! k = Some x -> I k s ->
     wp no_exn True (I (Datatypes.S k)) (body x s)) ->
  (forall k x s1 s2, xs !! k = Some x -> I k s1 -> I k s2 ->
     related (fun _ _ => True) (body x s1) (body x s2)) ->
  forall s1 s2, I 0%nat s1 -> I 0%nat s2 ->
  related (fun a b => I (length xs) a /\ I (length xs) b)
    (Py.for_each body xs s1) (Py.for_each body xs s2).
Proof.
  revert I. induction xs as [|x xs IH]; intros I Hone Htwo s1 s2 H1 H2.
  - cbn. auto.
  - cbn [Py.for_each length].
    pose proof (Hone 0%nat x s1 eq_refl H1) as W1.
    pose proof (Hone 0%nat x s2 eq_refl H2) as W2.
    pose proof (Htwo 0%nat x s1 s2 eq_refl H1 H2) as Hk.
    destruct (body x s1) as [a| |], (body x s2) as [b| |]; cbn in Hk, W1, W2 |- *;
      try contradiction; try exact Hk.
    apply (IH (fun k => I (Datatypes.S k))).
    + intros k y s Hy Hi. apply (Hone (Datatypes.S k) y s Hy Hi).
    + intros k y t1 t2 Hy. apply (Htwo (Datatypes.S k) y t1 t2 Hy).
    + exact W1.
    + exact W2.
Qed.

Lemma preheat_body_ext s1 s2 mff i l :
  params s1 = params s2 -> T_effect s1 = T_effect s2 ->
  preheat_body s1 mff i l = preheat_body s2 mff i l.
Proof. intros Hp HT. unfold preheat_body. rewrite Hp, HT. reflexivity. Qed.

Lemma for_each_ext {A S} (f g : A -> S -> Py.outcome S) xs :
  (forall x s, f x s = g x s) ->
  forall st, Py.for_each f xs st = Py.for_each g xs st.
Proof.
  intros H. induction xs as [|x xs IH]; intros st; [reflexivity|].
  cbn [Py.for_each]. rewrite H. destruct (g x st); cbn [Py.bind]; auto.
Qed.

Lemma get_ok (a : list Q) i : (i < length a)%nat -> Py.get a i = Ok (a !!! i).
Proof. intros H. unfold Py.get. now rewrite lookup_of_total. Qed.

Lemma set_ok (a : list Q) i v :
  (i < length a)%nat -> Py.set a i v = Ok (<[i := v]> a).
Proof. intros H. unfold Py.set. destruct (Nat.ltb_spec i (length a)); [reflexivity|lia]. Qed.

(** What [prepare] does to an object of the right shape: the preheating loop
    runs on fresh arrays and on the ladder alone. *)
Lemma prepare_shaped p self :
  shaped p self -> (1 <= MEDParameters.n_effects p)%nat ->
  prepare self =
    Py.bind
      (Py.for_each (preheat_body (ladder_self p) (MEDParameters.M_feed p))
         (Py.range_down_to_1 (MEDParameters.n_effects p)) (initial_locals p))
      (fun l =>
         Ok (set_M_steam
               (set_T_effect
                  (set_M_feed self (<[0%nat := MEDParameters.M_feed p]> (M_feed self)))
                  (map (ladder_temp p) (seq 0 (MEDParameters.n_effects p))))
               (MEDParameters.M_feed p * 0.12 / 5.14), l)).
Proof.
  intros (Hp & Hn & LT & LF & _) H1. unfold prepare, _distribute_feed_water.
  rewrite set_ok by lia. cbn [Py.bind]. fieldsg. rewrite Hp, Hn.
  set (self1 := set_M_feed self _).
  destruct (wp_ok_elim _ _ (ladder_loop_wp False self1
              ltac:(subst self1; fieldsg; congruence)
              ltac:(subst self1; fieldsg; rewrite Hp; exact LT)))
    as (self2 & Hloop & ->).
  assert (Hp1 : params self1 = p) by (subst self1; fieldsg; exact Hp).
  assert (Hn1 : n self1 = MEDParameters.n_effects p) by (subst self1; fieldsg; exact Hn).
  rewrite Hp1, Hn1 in Hloop. unfold delta_T_total in Hloop.
  rewrite Hloop. cbn [Py.bind]. fieldsg.
  subst self1. fieldsg.
  rewrite get_ok by (rewrite length_insert; lia). cbn [Py.bind].
  rewrite set_ok by (rewrite zeros_length; lia). cbn [Py.bind].
  rewrite list_lookup_total_insert_eq by lia.
  rewrite (for_each_ext _ (preheat_body (ladder_self p) (MEDParameters.M_feed p))).
  - unfold initial_locals. rewrite ?Hn. reflexivity.
  - intros x s. apply preheat_body_ext; unfold ladder_self; fieldsg; auto.
Qed.

Lemma init_shaped p : shaped p (__init__ p).
Proof.
  unfold shaped, __init__. fieldsg. rewrite !zeros_length. repeat split.
Qed.

(** From any object of the right shape the passes end as they end from a
    fresh one, and in the same rows. *)
Lemma run_passes_again p self st1 :
  shaped p self -> run_passes (__init__ p) = Ok st1 ->
  exists st2, run_passes self = Ok st2 /\ passes_post p st2 /\
    params st2.1 = params st1.1 /\ n st2.1 = n st1.1 /\
    T_effect st2.1 = T_effect st1.1 /\ M_feed st2.1 = M_feed st1.1 /\
    M_brine st2.1 = M_brine st1.1 /\ M_vapor st2.1 = M_vapor st1.1 /\
    S_brine st2.1 = S_brine st1.1 /\ A_effect st2.1 = A_effect st1.1 /\
    M_steam st2.1 = M_steam st1.1.
Proof.
  intros Hsh Hrun. pose proof (run_passes_needs_an_effect p _ Hrun) as Hn.
  pose proof (run_passes_post p _ Hrun) as Hpost1.
  unfold run_passes in Hrun |- *.
  rewrite (prepare_shaped p (__init__ p) (init_shaped p) Hn) in Hrun.
  rewrite (prepare_shaped p self Hsh Hn).
  destruct (Py.for_each (preheat_body (ladder_self p) (MEDParameters.M_feed p))
              (Py.range_down_to_1 (MEDParameters.n_effects p)) (initial_locals p))
    as [l| |] eqn:Hpre; cbn [Py.bind] in Hrun |- *; try discriminate Hrun.
  assert (Hl : l = preheated p /\ preheat_shape (MEDParameters.n_effects p)
                                    (initial_locals p) l).
  { pose proof (preheat_loop_wp True (ladder_self p) (MEDParameters.M_feed p)
                  (initial_locals p) (MEDParameters.n_effects p)) as W.
    rewrite Hpre in W. apply W; unfold ladder_self, initial_locals; fieldsg;
      rewrite ?length_insert, ?zeros_length, ?ladder_length; auto. }
  destruct Hl as [-> (Sh1 & Sh2 & Sh3 & Sh4)].
  destruct Hsh as (Hp & Hns & LT & LF & LB & LV & LS & LA).
  fieldsg. rewrite Hns.
  set (E := M_vapor_preheat (preheated p)) in *.
  set (T0 := T_feed_in (preheated p) !!! 0%nat) in *.
  assert (Inv : forall s, shaped p s ->
            forward_inv p E T0 0
              (set_M_steam
                 (set_T_effect
                    (set_M_feed s (<[0%nat := MEDParameters.M_feed p]> (M_feed s)))
                    (map (ladder_temp p) (seq 0 (MEDParameters.n_effects p))))
                 (MEDParameters.M_feed p * 0.12 / 5.14), preheated p)).
  { intros s (Hp' & Hn' & LT' & LF' & LB' & LV' & LS' & LA').
    split; [|intros j Hj; lia]. unfold base. fieldsg.
    rewrite Sh1, Sh2. unfold initial_locals. fieldsg.
    rewrite !length_insert, length_replicate.
    repeat split; auto.
    - now rewrite list_lookup_total_insert_eq by lia.
    - now rewrite lookup_total_replicate_2 by lia. }
  pose proof (Inv (__init__ p) (init_shaped p)) as I1.
  pose proof (Inv self (conj Hp (conj Hns (conj LT (conj LF (conj LB
                (conj LV (conj LS LA)))))))) as I2.
  cbn [__init__ n set_M_steam set_T_effect set_M_feed] in Hrun.
  pose proof (for_each_same_kind (forward_inv p E T0) forward_body
                (Py.range (MEDParameters.n_effects p))) as Hloop.
  specialize (Hloop
    (fun k x s Hx Hi =>
       match range_lookup _ _ _ Hx with
       | conj Hxk Hk =>
           eq_ind_r (fun x => wp no_exn True (forward_inv p E T0 (S k)) (forward_body x s))
             (forward_body_wp p E T0 True k s Hk Hi (fun _ => I) (fun _ => I)) Hxk
       end)
    (fun k x s1 s2 Hx Hi1 Hi2 =>
       match range_lookup _ _ _ Hx with
       | conj Hxk Hk =>
           eq_ind_r (fun x => related (fun _ _ => True) (forward_body x s1) (forward_body x s2))
             (forward_body_same_kind p E T0 k s1 s2 Hk Hi1 Hi2) Hxk
       end)
    _ _ I1 I2).
  rewrite Hrun in Hloop.
  destruct (Py.for_each forward_body (Py.range (MEDParameters.n_effects p)) _)
    as [st2| |] in Hloop |- *; cbn in Hloop; try contradiction.
  unfold Py.range in Hloop. rewrite length_seq in Hloop.
  destruct Hloop as [P1 P2]. exists st2. split; [reflexivity|]. split; [exact P2|].
  destruct st1 as [s1 l1], st2 as [s2 l2]. fieldsg.
  pose proof (rows_determine p E T0 _ s2 l2 s1 l1 P2 P1) as Heq.
  destruct P1 as [B1 _], P2 as [B2 _].
  destruct B1 as (Hp1 & Hn1 & Hst1 & HT1 & _ & _ & Hlen1 & _).
  destruct B2 as (Hp2 & Hn2 & Hst2 & HT2 & _ & _ & Hlen2 & _).
  assert (Harr : forall a b : list Q,
            length a = MEDParameters.n_effects p ->
            length b = MEDParameters.n_effects p ->
            (forall j, (j < MEDParameters.n_effects p)%nat -> a !!! j = b !!! j) ->
            a = b).
  { intros a b La Lb Hab.
    apply (list_eq_same_length _ _ (MEDParameters.n_effects p)); auto.
    intros i x y Hi Hx Hy. apply list_lookup_total_correct in Hx, Hy.
    rewrite <- Hx, <- Hy. now apply Hab. }
  repeat split; try congruence;
    apply Harr; try lia; intros j Hj;
    destruct (Heq j ltac:(lia) Hj) as (EF & _ & Hrow);
    try exact EF; apply Hrow; exact Hj.
Qed.

Lemma final_metrics_congr s1 s2 :
  params s1 = params s2 -> n s1 = n s2 -> T_effect s1 = T_effect s2 ->
  M_feed s1 = M_feed s2 -> M_brine s1 = M_brine s2 -> M_vapor s1 = M_vapor s2 ->
  S_brine s1 = S_brine s2 -> A_effect s1 = A_effect s2 -> M_steam s1 = M_steam s2 ->
  final_metrics s1 = final_metrics s2.
Proof.
  destruct s1, s2. fieldsg. intros -> -> -> -> -> -> -> -> ->.
  unfold final_metrics. fieldsg.
  destruct (_ >? 0); [destruct (Py.np_div _ _ _)|]; cbn [Py.bind]; fieldsg;
    try reflexivity;
    (destruct (_ >? 0); [destruct (Py.np_div _ _ _)|]; cbn [Py.bind]; fieldsg;
     reflexivity).
Qed.

Lemma final_metrics_keeps s s' r :
  final_metrics s = Ok (s', r) -> params s' = params s /\ n s' = n s.
Proof.
  unfold final_metrics. fieldsg. intros H.
  destruct (_ >? 0); [destruct (Py.np_div _ _ _)|]; cbn [Py.bind] in H; fieldsg;
    try discriminate H;
    (destruct (_ >? 0); [destruct (Py.np_div _ _ _)|]; cbn [Py.bind] in H;
     try discriminate H;
     destruct (Py.get_last _); cbn [Py.bind] in H; try discriminate H;
     destruct (Py.get _ _); cbn [Py.bind] in H; try discriminate H;
     injection H as <- _; auto).
Qed.

(** X23.  Solving again changes nothing: a second [solve] on the object a
    first [solve] has left returns the same results and leaves the object as
    it found it, whatever the first run wrote into the arrays. *)
Theorem solving_again_changes_nothing (p : MEDParameters.t) (self : t) (r : Results.t) :
  solve (__init__ p) = Ok (self, r) -> solve self = Ok (self, r).
Proof.
  intros Hsolve.
  destruct (solve_inv p self r Hsolve) as (self0 & l & Hrun & Hpost & Hm & Hn).
  assert (Hfm : final_metrics self0 = Ok (self, r)).
  { unfold solve in Hsolve. rewrite Hrun in Hsolve. exact Hsolve. }
  destruct (final_metrics_keeps _ _ _ Hfm) as [Kp Kn].
  destruct Hm as ((MT & MF & MB & MV & MS & MA) & _).
  destruct Hpost as [Hbase _].
  destruct Hbase as (Hp & Hn0 & _ & HT & _ & _ & Hlen & _).
  assert (Hsh : shaped p self).
  { unfold shaped. rewrite Kp, Kn, MT, MF, MB, MV, MS, MA, HT, ladder_length.
    repeat split; try assumption; apply Hlen. }
  destruct (run_passes_again p self (self0, l) Hsh Hrun)
    as ([s2 l2] & Hrun2 & _ & E1 & E2 & E3 & E4 & E5 & E6 & E7 & E8 & E9).
  cbn [fst] in *.
  unfold solve. rewrite Hrun2. cbn [Py.bind].
  rewrite (final_metrics_congr s2 self0); assumption.
Qed.

Lemma solving_again_changes_nothing_witness :
  exists self r,
    solve (__init__ MEDParameters.default) = Ok (self, r) /\
    solve self = Ok (self, r).
Proof.
  destruct (solve_returns MEDParameters.default default_in_operating_range)
    as (self & r & Hsolve).
  exists self, r. split; [exact Hsolve|].
  exact (solving_again_changes_nothing MEDParameters.default self r Hsolve).
Defined.

End SolverProperties.

(** ** Main execution block *)

Section ReportProperties.





End ReportProperties.
